(** * Verification of the deterministic reconciliation core

    Shallow embedding of
      - [accuracy_calculator/calculate_accuracy.py] (class [AccuracyCalculator])
      - [financial_data_code_for_refernce/src/step5_validation.py]
        (class [FinancialValidator])

    Python values are JSON-shaped trees.  A [str] is held as the bytes of
    its UTF-8 encoding ([string]).  Equality, concatenation, the removal of
    an ASCII character, the search for an ASCII text and [len] are Python's
    on every text.  [lower], [strip] and [float] are Python's on ASCII
    text ([Str.is_ascii]) only: outside it they depend on the Unicode
    tables of the interpreter, and the properties that depend on them are
    stated for ASCII text.  A [float] is an IEEE-754 binary64 number with
    round-to-nearest-even arithmetic, an [int] is a [Z].  A [dict] is an
    association list in insertion order.  Exceptions are explicit. *)

From Stdlib Require Import ZArith List String Ascii Bool Lia.
Import ListNotations.

Local Open Scope string_scope.
Local Open Scope Z_scope.

(* ================================================================== *)
(** * Python [str] operations *)
(* ================================================================== *)

Module Str.

Definition code (c : ascii) : Z := Z.of_nat (nat_of_ascii c).

(** A text of ASCII characters: every byte is below 128. *)
Fixpoint is_ascii (s : string) : bool :=
  match s with
  | EmptyString => true
  | String c r => (code c <? 128) && is_ascii r
  end.

(** The bytes [10xxxxxx] continue a character of more than one byte. *)
Definition is_continuation (c : ascii) : bool :=
  (128 <=? code c) && (code c <? 192).

(** [len(s)]: the number of characters, not of bytes. *)
Fixpoint len (s : string) : Z :=
  match s with
  | EmptyString => 0
  | String c r => (if is_continuation c then 0 else 1) + len r
  end.

Definition is_digit (c : ascii) : bool := (48 <=? code c) && (code c <=? 57).

Definition digit_val (c : ascii) : Z := code c - 48.

(** White space of [str.strip()] on ASCII text: TAB..CR, FS..US, SPACE. *)
Definition is_space (c : ascii) : bool :=
  let n := code c in
  ((9 <=? n) && (n <=? 13)) || ((28 <=? n) && (n <=? 32)).

Definition lower_char (c : ascii) : ascii :=
  let n := code c in
  if (65 <=? n) && (n <=? 90) then ascii_of_nat (Z.to_nat (n + 32)) else c.

(** [s.lower()] on ASCII text *)
Fixpoint lower (s : string) : string :=
  match s with
  | EmptyString => EmptyString
  | String c r => String (lower_char c) (lower r)
  end.

Fixpoint lstrip (s : string) : string :=
  match s with
  | EmptyString => EmptyString
  | String c r => if is_space c then lstrip r else s
  end.

Fixpoint rev_acc (s acc : string) : string :=
  match s with
  | EmptyString => acc
  | String c r => rev_acc r (String c acc)
  end.

Definition rev (s : string) : string := rev_acc s EmptyString.

(** [s.strip()] on ASCII text *)
Definition strip (s : string) : string := rev (lstrip (rev (lstrip s))).

(** [s.replace(c, '')] for a one-character [c] *)
Fixpoint remove_char (c : ascii) (s : string) : string :=
  match s with
  | EmptyString => EmptyString
  | String a r => if Ascii.eqb a c then remove_char c r else String a (remove_char c r)
  end.

(** [needle in hay] *)
Fixpoint contains (needle hay : string) : bool :=
  if prefix needle hay then true
  else match hay with
       | EmptyString => false
       | String _ r => contains needle r
       end.

Fixpoint repeat_char (c : ascii) (n : nat) : string :=
  match n with
  | O => EmptyString
  | S k => String c (repeat_char c k)
  end.

Definition digit_char (d : Z) : ascii := ascii_of_nat (Z.to_nat (48 + d)).

Fixpoint digits_fuel (fuel : nat) (n : Z) (acc : string) : string :=
  match fuel with
  | O => acc
  | S k =>
      let acc' := String (digit_char (n mod 10)) acc in
      if n <? 10 then acc' else digits_fuel k (n / 10) acc'
  end.

(** Decimal digits of a non-negative integer. *)
Definition of_N (n : Z) : string :=
  digits_fuel (S (Z.to_nat (Z.log2 n))) n EmptyString.

(** [str(n)] for an [int] *)
Definition of_Z (n : Z) : string :=
  if n <? 0 then String "-" (of_N (- n)) else of_N n.

Definition hex_char (d : Z) : ascii :=
  if d <? 10 then digit_char d else ascii_of_nat (Z.to_nat (87 + d)).

End Str.

(* ================================================================== *)
(** * IEEE-754 binary64 *)
(* ================================================================== *)

Module F64.

(** [Fin neg m e] is [(-1)^neg * m * 2^e].  Canonical values have
    [m = 0 /\ e = -1074] (zeros), [0 < m < 2^52 /\ e = -1074] (subnormal) or
    [2^52 <= m < 2^53 /\ -1074 <= e <= 971] (normal). *)
Inductive float : Type :=
| NaN
| Inf (neg : bool)
| Fin (neg : bool) (m : Z) (e : Z).

Definition emin : Z := -1074.
Definition emax : Z := 971.

Definition zero (neg : bool) : float := Fin neg 0 emin.

(** Nearest binary64 to the rational [n / d] ([n >= 0], [d > 0]), ties to
    even; overflow gives an infinity. *)
Definition round (neg : bool) (n d : Z) : float :=
  if n <=? 0 then zero neg else
  let k := Z.log2 n - Z.log2 d in
  let ge := if 0 <=? k then d * 2 ^ k <=? n else d <=? n * 2 ^ (- k) in
  let fl := if ge then k else k - 1 in
  let e := Z.max (fl - 52) emin in
  let num := if e <? 0 then n * 2 ^ (- e) else n in
  let den := if e <? 0 then d else d * 2 ^ e in
  let q := num / den in
  let r := num mod den in
  let up := (den <? 2 * r) || ((den =? 2 * r) && Z.odd q) in
  let q' := if up then q + 1 else q in
  let '(m, e') := if q' =? 2 ^ 53 then (2 ^ 52, e + 1) else (q', e) in
  if emax <? e' then Inf neg else Fin neg m e'.

(** A finite value as an integer multiple of [2^-1074]. *)
Definition scaled (neg : bool) (m e : Z) : Z :=
  let a := m * 2 ^ (e - emin) in if neg then - a else a.

Definition of_scaled (s : Z) (neg0 : bool) : float :=
  if s =? 0 then zero neg0 else round (s <? 0) (Z.abs s) (2 ^ (- emin)).

Definition neg (x : float) : float :=
  match x with
  | NaN => NaN
  | Inf s => Inf (negb s)
  | Fin s m e => Fin (negb s) m e
  end.

Definition abs (x : float) : float :=
  match x with
  | NaN => NaN
  | Inf _ => Inf false
  | Fin _ m e => Fin false m e
  end.

Definition add (x y : float) : float :=
  match x, y with
  | NaN, _ | _, NaN => NaN
  | Inf s, Inf t => if Bool.eqb s t then Inf s else NaN
  | Inf s, Fin _ _ _ => Inf s
  | Fin _ _ _, Inf t => Inf t
  | Fin s m e, Fin t n f => of_scaled (scaled s m e + scaled t n f) (s && t)
  end.

Definition sub (x y : float) : float := add x (neg y).

Definition mul (x y : float) : float :=
  match x, y with
  | NaN, _ | _, NaN => NaN
  | Inf s, Inf t => Inf (xorb s t)
  | Inf s, Fin t n _ => if n =? 0 then NaN else Inf (xorb s t)
  | Fin s m _, Inf t => if m =? 0 then NaN else Inf (xorb s t)
  | Fin s m e, Fin t n f =>
      let p := m * n in
      let g := e + f in
      if g <? 0 then round (xorb s t) p (2 ^ (- g))
      else round (xorb s t) (p * 2 ^ g) 1
  end.

(** Correctly rounded quotient of two integers, [b <> 0]. *)
Definition div_Z (a b : Z) : float :=
  round (xorb (a <? 0) (b <? 0)) (Z.abs a) (Z.abs b).

Definition ltb (x y : float) : bool :=
  match x, y with
  | NaN, _ | _, NaN => false
  | Inf s, Inf t => s && negb t
  | Inf s, Fin _ _ _ => s
  | Fin _ _ _, Inf t => negb t
  | Fin s m e, Fin t n f => scaled s m e <? scaled t n f
  end.

Definition gtb (x y : float) : bool := ltb y x.

(** [x == y] *)
Definition eqb (x y : float) : bool :=
  match x, y with
  | NaN, _ | _, NaN => false
  | Inf s, Inf t => Bool.eqb s t
  | Fin s m e, Fin t n f => scaled s m e =? scaled t n f
  | _, _ => false
  end.

(** [bool(x)] *)
Definition truthy (x : float) : bool :=
  match x with
  | Fin _ m _ => negb (m =? 0)
  | _ => true
  end.

Definition is_finite (x : float) : bool :=
  match x with Fin _ _ _ => true | _ => false end.

Definition is_nan (x : float) : bool :=
  match x with NaN => true | _ => false end.

(** [float(n)] for an [int]; [None] stands for [OverflowError]. *)
Definition of_Z (n : Z) : option float :=
  match round (n <? 0) (Z.abs n) 1 with
  | Fin s m e => Some (Fin s m e)
  | _ => None
  end.

(** The literal [0.01]. *)
Definition c0_01 : float := Eval vm_compute in round false 1 100.
(** [1.0] and [100.0] *)
Definition c1 : float := Eval vm_compute in round false 1 1.
Definition c100 : float := Eval vm_compute in round false 100 1.

End F64.

(* ================================================================== *)
(** * Python's [float(str)] and [repr(float)] *)
(* ================================================================== *)

Module PyFloat.

Import F64.

(** White space that [float()] skips at both ends of an ASCII text:
    TAB..CR and SPACE.  Unlike [str.strip()] it does not skip FS..US. *)
Definition is_space (c : ascii) : bool :=
  let n := Str.code c in
  ((9 <=? n) && (n <=? 13)) || (n =? 32).

Fixpoint lstrip (s : string) : string :=
  match s with
  | EmptyString => EmptyString
  | String c r => if is_space c then lstrip r else s
  end.

Definition strip (s : string) : string := Str.rev (lstrip (Str.rev (lstrip s))).

(** Underscores are accepted between two digits only and are dropped
    before the number is read. *)
Fixpoint drop_underscores (prev : ascii) (s : string) : option string :=
  match s with
  | EmptyString => if Ascii.eqb prev "_" then None else Some EmptyString
  | String c r =>
      if Ascii.eqb c "_" then
        if Str.is_digit prev then drop_underscores c r else None
      else if Ascii.eqb prev "_" && negb (Str.is_digit c) then None
      else option_map (String c) (drop_underscores c r)
  end.

(** Reads a run of digits: accumulated value, number of digits, rest. *)
Fixpoint take_digits (acc : Z) (n : Z) (s : string) : Z * Z * string :=
  match s with
  | String c r =>
      if Str.is_digit c then take_digits (acc * 10 + Str.digit_val c) (n + 1) r
      else (acc, n, s)
  | EmptyString => (acc, n, s)
  end.

Definition take_sign (s : string) : bool * string :=
  match s with
  | String "-" r => (true, r)
  | String "+" r => (false, r)
  | _ => (false, s)
  end.

(** Exponent part; a malformed exponent is left unread. *)
Definition take_exponent (s : string) : Z * string :=
  match s with
  | String c r =>
      if Ascii.eqb c "e" || Ascii.eqb c "E" then
        let '(sg, r1) := take_sign r in
        let '(v, n, r2) := take_digits 0 0 r1 in
        if n =? 0 then (0, s) else ((if sg then - v else v), r2)
      else (0, s)
  | EmptyString => (0, s)
  end.

(** Nearest binary64 to [d * 10^x], [d >= 0]. *)
Definition of_decimal (sg : bool) (d x : Z) : float :=
  if d =? 0 then zero sg else
  let nd := Z.of_nat (String.length (Str.of_N d)) in
  if 309 <=? nd - 1 + x then Inf sg
  else if nd + x <=? -324 then zero sg
  else if x <? 0 then round sg d (10 ^ (- x))
  else round sg (d * 10 ^ x) 1.

Definition parse_special (sg : bool) (s : string) : option float :=
  let l := Str.lower s in
  if String.eqb l "inf" || String.eqb l "infinity" then Some (Inf sg)
  else if String.eqb l "nan" then Some NaN
  else None.

Definition parse_number (sg : bool) (s : string) : option float :=
  let '(ip, ni, r1) := take_digits 0 0 s in
  let '(d, nf, r2) :=
    match r1 with
    | String "." r => let '(v, n, r') := take_digits ip 0 r in (v, n, r')
    | _ => (ip, 0, r1)
    end in
  if ni + nf =? 0 then None else
  let '(x, r3) := take_exponent r2 in
  match r3 with
  | EmptyString => Some (of_decimal sg d (x - nf))
  | _ => None
  end.

(** [float(s)] on ASCII text; [None] stands for [ValueError]. *)
Definition of_string (s : string) : option float :=
  match drop_underscores "000" s with
  | None => None
  | Some s1 =>
      let '(sg, body) := take_sign (strip s1) in
      match parse_special sg body with
      | Some f => Some f
      | None => parse_number sg body
      end
  end.

(** ** Shortest round-trip digits *)

(** [10^q <= X / S] *)
Definition le_pow10 (q X S : Z) : bool :=
  if 0 <=? q then S * 10 ^ q <=? X else S <=? X * 10 ^ (- q).

Fixpoint adjust_up (fuel : nat) (q X S : Z) : Z :=
  match fuel with
  | O => q
  | S k => if le_pow10 (q + 1) X S then adjust_up k (q + 1) X S else q
  end.

(** [floor (log10 (X / S))] for positive [X], [S]. *)
Definition floor_log10 (X S : Z) : Z :=
  adjust_up 8 (((Z.log2 X - Z.log2 S - 1) * 30102) / 100000 - 1) X S.

(** The candidate with [k] significant digits, if one rounds back. *)
Definition candidate (X S LO HI q : Z) (incl : bool) (k : Z) : option (Z * Z) :=
  let p := q - (k - 1) in
  let sc := if p <? 0 then 10 ^ (- p) else 1 in
  let den := if p <? 0 then S else S * 10 ^ p in
  let num := X * sc in
  let lo := LO * sc in
  let hi := HI * sc in
  let c0 := num / den in
  let c1 := c0 + 1 in
  let ok c := let v := c * den in
              if incl then (lo <=? v) && (v <=? hi) else (lo <? v) && (v <? hi) in
  let d0 := num - c0 * den in
  let d1 := c1 * den - num in
  match ok c0, ok c1 with
  | true, true =>
      if d0 <? d1 then Some (c0, p)
      else if d1 <? d0 then Some (c1, p)
      else if Z.even c0 then Some (c0, p) else Some (c1, p)
  | true, false => Some (c0, p)
  | false, true => Some (c1, p)
  | false, false => None
  end.

Fixpoint search (fuel : nat) (X S LO HI q : Z) (incl : bool) (k : Z) : Z * Z :=
  match fuel with
  | O => (X, 0)
  | S n =>
      match candidate X S LO HI q incl k with
      | Some r => r
      | None => search n X S LO HI q incl (k + 1)
      end
  end.

Fixpoint strip_zeros_rev (s : string) : string :=
  match s with
  | String "0" r => strip_zeros_rev r
  | _ => s
  end.

(** Digits without trailing zeros and position of the decimal point
    of a finite non-zero value [m * 2^e]. *)
Definition shortest (m e : Z) : string * Z :=
  let S := 2 ^ 1076 in
  let X := m * 2 ^ (e + 1076) in
  let LO := X - (if (m =? 2 ^ 52) && (emin <? e) then 2 ^ (e + 1074)
                 else 2 ^ (e + 1075)) in
  let HI := X + 2 ^ (e + 1075) in
  let q := floor_log10 X S in
  let '(c, p) := search 17 X S LO HI q (Z.even m) 1 in
  let ds := Str.of_N c in
  (Str.rev (strip_zeros_rev (Str.rev ds)), Z.of_nat (String.length ds) + p).

Definition pad2 (s : string) : string :=
  match s with
  | String c EmptyString => String "0" s
  | _ => s
  end.

Definition format_digits (ds : string) (decpt : Z) : string :=
  let n := Z.of_nat (String.length ds) in
  if (decpt <=? -4) || (16 <? decpt) then
    let mant := match ds with
                | String c EmptyString => ds
                | String c r => String c (String "." r)
                | EmptyString => ds
                end in
    let x := decpt - 1 in
    mant ++ "e" ++ (if x <? 0 then "-" else "+") ++ pad2 (Str.of_N (Z.abs x))
  else if decpt <=? 0 then
    "0." ++ Str.repeat_char "0" (Z.to_nat (- decpt)) ++ ds
  else if n <=? decpt then
    ds ++ Str.repeat_char "0" (Z.to_nat (decpt - n)) ++ ".0"
  else
    substring 0 (Z.to_nat decpt) ds ++ "." ++
    substring (Z.to_nat decpt) (Z.to_nat (n - decpt)) ds.

(** [repr(x)], which is also [str(x)] *)
Definition repr (x : float) : string :=
  match x with
  | NaN => "nan"
  | Inf s => if s then "-inf" else "inf"
  | Fin s m e =>
      (if s then "-" else "") ++
      (if m =? 0 then "0.0"
       else let '(ds, decpt) := shortest m e in format_digits ds decpt)
  end.

End PyFloat.

(* ================================================================== *)
(** * Python values and exceptions *)
(* ================================================================== *)

(** What [json.load] builds.  The keys of a [dict] are pairwise distinct
    and kept in insertion order. *)
#[local] Unset Elimination Schemes.
Inductive value : Type :=
| VNone
| VBool (b : bool)
| VInt (n : Z)
| VFloat (x : F64.float)
| VStr (s : string)
| VList (l : list value)
| VDict (d : list (string * value)).
#[local] Set Elimination Schemes.

Inductive exn : Type :=
| AttributeError (msg : string)
| TypeError (msg : string)
| KeyError (msg : string)
| OverflowError (msg : string).

Inductive result (A : Type) : Type :=
| Ok (a : A)
| Raise (e : exn).

Arguments Ok {A} a.
Arguments Raise {A} e.

Definition bind {A B : Type} (m : result A) (f : A -> result B) : result B :=
  match m with
  | Ok a => f a
  | Raise e => Raise e
  end.

Notation "x <- m ;; k" := (bind m (fun x => k))
  (at level 61, m at next level, right associativity).

(** [str(e)] of an exception *)
Definition exn_message (e : exn) : string :=
  match e with
  | AttributeError m | TypeError m | OverflowError m => m
  | KeyError m => "'" ++ m ++ "'"
  end.

Module Py.

Definition type_name (v : value) : string :=
  match v with
  | VNone => "NoneType"
  | VBool _ => "bool"
  | VInt _ => "int"
  | VFloat _ => "float"
  | VStr _ => "str"
  | VList _ => "list"
  | VDict _ => "dict"
  end.

Definition no_attribute {A : Type} (v : value) (name : string) : result A :=
  Raise (AttributeError
           ("'" ++ type_name v ++ "' object has no attribute '" ++ name ++ "'")).

Fixpoint lookup (k : string) (d : list (string * value)) : option value :=
  match d with
  | [] => None
  | (k', v) :: r => if String.eqb k k' then Some v else lookup k r
  end.

Definition has_key (k : string) (d : list (string * value)) : bool :=
  match lookup k d with Some _ => true | None => false end.

(** [d.get(k, default)] on a known [dict] *)
Definition get_or (d : list (string * value)) (k : string) (default : value) : value :=
  match lookup k d with Some v => v | None => default end.

(** [v.get(k, default)] *)
Definition get (v : value) (k : string) (default : value) : result value :=
  match v with
  | VDict d => Ok (get_or d k default)
  | _ => no_attribute v "get"
  end.

(** [v.items()] *)
Definition items (v : value) : result (list (string * value)) :=
  match v with
  | VDict d => Ok d
  | _ => no_attribute v "items"
  end.

(** [len(v)] *)
Definition len (v : value) : result Z :=
  match v with
  | VStr s => Ok (Str.len s)
  | VList l => Ok (Z.of_nat (List.length l))
  | VDict d => Ok (Z.of_nat (List.length d))
  | _ => Raise (TypeError ("object of type '" ++ type_name v ++ "' has no len()"))
  end.

Definition is_dict (v : value) : bool :=
  match v with VDict _ => true | _ => false end.

Definition is_nan (v : value) : bool :=
  match v with VFloat x => F64.is_nan x | _ => false end.

(** [a == b] between an [int] and a [float]: exact. *)
Definition int_eq_float (n : Z) (x : F64.float) : bool :=
  match x with
  | F64.Fin s m e => F64.scaled s m e =? n * 2 ^ (- F64.emin)
  | _ => false
  end.

Definition Z_of_bool (b : bool) : Z := if b then 1 else 0.

(** [a == b] on numbers; [None] when one side is not a number. *)
Definition num_eq (a b : value) : option bool :=
  let as_num v :=
    match v with
    | VBool b => Some (inl (Z_of_bool b))
    | VInt n => Some (inl n)
    | VFloat x => Some (inr x)
    | _ => None
    end in
  match as_num a, as_num b with
  | Some (inl m), Some (inl n) => Some (m =? n)
  | Some (inl m), Some (inr y) => Some (int_eq_float m y)
  | Some (inr x), Some (inl n) => Some (int_eq_float n x)
  | Some (inr x), Some (inr y) => Some (F64.eqb x y)
  | _, _ => None
  end.

(** [a == b].  Elements of containers are compared by identity first;
    every [NaN] that [json.load] builds is one object. *)
Fixpoint eq (a b : value) {struct a} : bool :=
  match a, b with
  | VNone, VNone => true
  | VStr s, VStr t => String.eqb s t
  | VList l, VList l' =>
      (fix go (l l' : list value) {struct l} : bool :=
         match l, l' with
         | [], [] => true
         | x :: r, y :: r' => ((is_nan x && is_nan y) || eq x y) && go r r'
         | _, _ => false
         end) l l'
  | VDict d, VDict d' =>
      (List.length d =? List.length d')%nat &&
      (fix go (d : list (string * value)) {struct d} : bool :=
         match d with
         | [] => true
         | (k, x) :: r =>
             match lookup k d' with
             | Some y => ((is_nan x && is_nan y) || eq x y) && go r
             | None => false
             end
         end) d
  | _, _ => match num_eq a b with Some r => r | None => false end
  end.

(** One character of [repr(s)] with quote [q]. *)
Definition repr_char (q c : ascii) : string :=
  let n := Str.code c in
  if Ascii.eqb c q || Ascii.eqb c "\" then String "\" (String c EmptyString)
  else if n =? 9 then "\t"
  else if n =? 10 then "\n"
  else if n =? 13 then "\r"
  else if (n <? 32) || (n =? 127) then
    "\x" ++ String (Str.hex_char (n / 16)) (String (Str.hex_char (n mod 16)) EmptyString)
  else String c EmptyString.

Fixpoint repr_chars (q : ascii) (s : string) : string :=
  match s with
  | EmptyString => EmptyString
  | String c r => repr_char q c ++ repr_chars q r
  end.

Definition dquote : ascii := "034".
Definition squote : ascii := "039".

(** [repr(s)] for a [str] of ASCII text *)
Definition repr_str (s : string) : string :=
  let q := if Str.contains (String squote EmptyString) s
              && negb (Str.contains (String dquote EmptyString) s)
           then dquote else squote in
  String q (repr_chars q s ++ String q EmptyString).

Fixpoint join (sep : string) (l : list string) : string :=
  match l with
  | [] => EmptyString
  | [x] => x
  | x :: r => x ++ sep ++ join sep r
  end.

(** [repr(v)] *)
Fixpoint repr (v : value) : string :=
  match v with
  | VNone => "None"
  | VBool b => if b then "True" else "False"
  | VInt n => Str.of_Z n
  | VFloat x => PyFloat.repr x
  | VStr s => repr_str s
  | VList l => "[" ++ join ", " (List.map repr l) ++ "]"
  | VDict d =>
      "{" ++ join ", " (List.map (fun kv => repr_str (fst kv) ++ ": " ++ repr (snd kv)) d)
          ++ "}"
  end.

(** [str(v)], also what an f-string inserts *)
Definition str (v : value) : string :=
  match v with
  | VStr s => s
  | _ => repr v
  end.

End Py.

(* ================================================================== *)
(** * [AccuracyCalculator] *)
(* ================================================================== *)

Inductive status : Type :=
| correct
| correct_null
| incorrect
| missing
| false_positive
| unknown.

Record comparison : Type := mkComparison {
  field_path : string;
  extracted_value : value;
  ground_truth_value : value;
  cmp_status : status
}.

Record results : Type := mkResults {
  total_fields : Z;
  correct_fields : Z;
  incorrect_fields : Z;
  missing_fields : Z;
  accuracy_percentage : F64.float;
  field_details : list comparison
}.

Definition with_status (st : status) (c : comparison) : comparison :=
  mkComparison (field_path c) (extracted_value c) (ground_truth_value c) st.

(** [v is None or v == ""] *)
Definition none_or_empty (v : value) : bool :=
  match v with
  | VNone => true
  | VStr EmptyString => true
  | _ => false
  end.

(** [float(s.replace(',', ''))] *)
Definition float_without_commas (s : string) : option F64.float :=
  PyFloat.of_string (Str.remove_char "," s).

(** Last attempt of [_values_match]: case-insensitive string match. *)
Definition str_match (val1 val2 : value) : bool :=
  String.eqb (Str.lower (Str.strip (Py.str val1)))
             (Str.lower (Str.strip (Py.str val2))).

Definition _values_match (val1 val2 : value) : bool :=
  if Py.eq val1 val2 then true
  else
    match val1, val2 with
    | VStr s1, VStr s2 =>
        match float_without_commas s1 with
        | None => str_match val1 val2
        | Some num1 =>
            match float_without_commas s2 with
            | None => str_match val1 val2
            | Some num2 => F64.ltb (F64.abs (F64.sub num1 num2)) F64.c0_01
            end
        end
    | _, _ => str_match val1 val2
    end.

Definition compare_values (extracted ground_truth : value) (path : string)
  : comparison :=
  let result := mkComparison path extracted ground_truth unknown in
  if none_or_empty ground_truth then
    if none_or_empty extracted then with_status correct_null result
    else with_status false_positive result
  else if none_or_empty extracted then with_status missing result
  else if _values_match extracted ground_truth then with_status correct result
  else with_status incorrect result.

(** [f.get('value') if isinstance(f, dict) else f] *)
Definition value_part (f : value) : value :=
  match f with
  | VDict d => Py.get_or d "value" VNone
  | _ => f
  end.

Definition compare_field_structure (extracted_field ground_truth_field : value)
  (path : string) : comparison :=
  compare_values (value_part extracted_field) (value_part ground_truth_field) path.

Definition _record_comparison (c : comparison) (r : results) : results :=
  let r1 := mkResults (total_fields r + 1) (correct_fields r) (incorrect_fields r)
              (missing_fields r) (accuracy_percentage r) (field_details r ++ [c]) in
  match cmp_status c with
  | correct | correct_null =>
      mkResults (total_fields r1) (correct_fields r1 + 1) (incorrect_fields r1)
        (missing_fields r1) (accuracy_percentage r1) (field_details r1)
  | incorrect | false_positive =>
      mkResults (total_fields r1) (correct_fields r1) (incorrect_fields r1 + 1)
        (missing_fields r1) (accuracy_percentage r1) (field_details r1)
  | missing =>
      mkResults (total_fields r1) (correct_fields r1) (incorrect_fields r1)
        (missing_fields r1 + 1) (accuracy_percentage r1) (field_details r1)
  | unknown => r1
  end.

Definition skip_fields : list string :=
  ["extraction_timestamp"; "source_file"; "document_type"].

Definition is_skipped (key : string) : bool :=
  existsb (String.eqb key) skip_fields.

(** Default of [extracted.get(key, ...)] for a leaf field. *)
Definition missing_field : value :=
  VDict [("value", VNone); ("confidence", VFloat (F64.zero false))].

Definition child_path (path key : string) : string :=
  if String.eqb path "root" then key else path ++ "." ++ key.

Definition index_path (path : string) (idx : nat) : string :=
  path ++ "[" ++ Str.of_Z (Z.of_nat idx) ++ "]".

(** [traverse_and_compare]; the accumulated [self.results] is threaded. *)
Fixpoint traverse_and_compare (extracted ground_truth : value) (path : string)
  (r : results) {struct ground_truth} : results :=
  match ground_truth, extracted with
  | VDict gd, VDict ed =>
      (fix each_key (entries : list (string * value)) (r : results)
         {struct entries} : results :=
         match entries with
         | [] => r
         | (key, gv) :: rest =>
             if is_skipped key then each_key rest r
             else
               let current_path := child_path path key in
               match gv with
               | VDict gvd =>
                   if Py.has_key "value" gvd then
                     each_key rest
                       (_record_comparison
                          (compare_field_structure
                             (Py.get_or ed key missing_field) gv current_path) r)
                   else
                     each_key rest
                       (traverse_and_compare (Py.get_or ed key (VDict []))
                          gv current_path r)
               | VList _ =>
                   each_key rest
                     (traverse_and_compare (Py.get_or ed key (VList []))
                        gv current_path r)
               | _ => each_key rest r
               end
         end) gd r
  | VList gl, VList el =>
      (fix each_item (gt_items : list value) (idx : nat) (r : results)
         {struct gt_items} : results :=
         match gt_items with
         | [] => r
         | gt_item :: rest =>
             each_item rest (S idx)
               (traverse_and_compare (nth idx el (VDict [])) gt_item
                  (index_path path idx) r)
         end) gl O r
  | _, _ => r
  end.

Definition empty_results : results :=
  mkResults 0 0 0 0 (F64.zero false) [].

(** [calculate_accuracy] on the two loaded documents. *)
Definition calculate_accuracy (extracted_data ground_truth_data : value) : results :=
  let r := traverse_and_compare extracted_data ground_truth_data "root" empty_results in
  if 0 <? total_fields r then
    mkResults (total_fields r) (correct_fields r) (incorrect_fields r)
      (missing_fields r)
      (F64.mul (F64.div_Z (correct_fields r) (total_fields r)) F64.c100)
      (field_details r)
  else r.

(* ================================================================== *)
(** * More of Python needed by [FinancialValidator] *)
(* ================================================================== *)

Module PyOps.

(** [k in v] for a [str] [k] *)
Definition contains (k : string) (v : value) : result bool :=
  match v with
  | VDict d => Ok (Py.has_key k d)
  | VStr s => Ok (Str.contains k s)
  | VList l => Ok (existsb (fun x => Py.eq (VStr k) x) l)
  | _ => Raise (TypeError ("argument of type '" ++ Py.type_name v ++ "' is not iterable"))
  end.

(** [v[k]] for a [str] [k] *)
Definition getitem (v : value) (k : string) : result value :=
  match v with
  | VDict d =>
      match Py.lookup k d with
      | Some x => Ok x
      | None => Raise (KeyError k)
      end
  | VStr _ => Raise (TypeError "string indices must be integers")
  | VList _ => Raise (TypeError "list indices must be integers or slices, not str")
  | _ => Raise (TypeError ("'" ++ Py.type_name v ++ "' object is not subscriptable"))
  end.

Fixpoint chars (s : string) : list value :=
  match s with
  | EmptyString => []
  | String c r => VStr (String c EmptyString) :: chars r
  end.

(** The elements visited by [for item in v] *)
Definition iterate (v : value) : result (list value) :=
  match v with
  | VList l => Ok l
  | VStr s => Ok (chars s)
  | VDict d => Ok (List.map (fun kv => VStr (fst kv)) d)
  | _ => Raise (TypeError ("'" ++ Py.type_name v ++ "' object is not iterable"))
  end.

(** [v.lower()] *)
Definition lower (v : value) : result string :=
  match v with
  | VStr s => Ok (Str.lower s)
  | _ => Py.no_attribute v "lower"
  end.

(** [float(n)] for an [int] *)
Definition float_of_int (n : Z) : result F64.float :=
  match F64.of_Z n with
  | Some x => Ok x
  | None => Raise (OverflowError "int too large to convert to float")
  end.

(** An [int] or a [float], as [sum] returns. *)
Inductive num : Type :=
| NInt (n : Z)
| NFloat (x : F64.float).

Definition num_truthy (a : num) : bool :=
  match a with
  | NInt n => negb (n =? 0)
  | NFloat x => F64.truthy x
  end.

Definition num_str (a : num) : string :=
  match a with
  | NInt n => Str.of_Z n
  | NFloat x => PyFloat.repr x
  end.

Definition num_type (a : num) : string :=
  match a with NInt _ => "int" | NFloat _ => "float" end.

(** [a + x], [a] the running total of [sum] (an [int] only while it is
    the start value) *)
Definition num_add_float (a : num) (x : F64.float) : result F64.float :=
  match a with
  | NInt n => y <- float_of_int n ;; Ok (F64.add y x)
  | NFloat y => Ok (F64.add y x)
  end.

(** [sum(l)] over floats and [None]s: additions from left to right,
    starting from the [int] [0].  (CPython 3.12 adds a compensation term to
    float sums; it is zero whenever the additions are exact.) *)
Fixpoint sum_from (acc : num) (l : list (option F64.float)) : result num :=
  match l with
  | [] => Ok acc
  | None :: _ =>
      Raise (TypeError ("unsupported operand type(s) for +: '" ++ num_type acc
                        ++ "' and 'NoneType'"))
  | Some x :: r => y <- num_add_float acc x ;; sum_from (NFloat y) r
  end.

Definition sum (l : list (option F64.float)) : result num := sum_from (NInt 0) l.

(** Monadic traversal of a list, left to right. *)
Fixpoint mapM {A B : Type} (f : A -> result B) (l : list A) : result (list B) :=
  match l with
  | [] => Ok []
  | a :: r => b <- f a ;; bs <- mapM f r ;; Ok (b :: bs)
  end.

(** A loop body run over a list, threading a state. *)
Fixpoint foldM {A S : Type} (f : A -> S -> result S) (l : list A) (s : S) : result S :=
  match l with
  | [] => Ok s
  | a :: r => s' <- f a s ;; foldM f r s'
  end.

End PyOps.

(* ================================================================== *)
(** * [FinancialValidator] *)
(* ================================================================== *)

(** [self.errors] and [self.warnings] *)
Record vstate : Type := mkState {
  errors : list string;
  warnings : list string
}.

Definition add_error (msg : string) (st : vstate) : vstate :=
  mkState (errors st ++ [msg]) (warnings st).

Definition add_warning (msg : string) (st : vstate) : vstate :=
  mkState (errors st) (warnings st ++ [msg]).

Definition empty_dict : value := VDict [].

Definition float_of_bool (b : bool) : F64.float :=
  if b then F64.c1 else F64.zero false.

(** [value.replace(',', '').replace(' ', '')] *)
Definition cleaned (s : string) : string :=
  Str.remove_char " " (Str.remove_char "," s).

Fixpoint first_numeric (entries : list (string * value)) : result (option F64.float) :=
  match entries with
  | [] => Ok None
  | (_, v) :: rest =>
      match v with
      | VNone => first_numeric rest
      | VStr EmptyString => first_numeric rest
      | VBool b => Ok (Some (float_of_bool b))
      | VInt n => x <- PyOps.float_of_int n ;; Ok (Some x)
      | VFloat x => Ok (Some x)
      | VStr s =>
          match PyFloat.of_string (cleaned s) with
          | Some x => Ok (Some x)
          | None => first_numeric rest
          end
      | _ => first_numeric rest
      end
  end.

Definition _extract_numeric_value (years_dict : value) : result (option F64.float) :=
  entries <- Py.items years_dict ;; first_numeric entries.

Definition _is_numeric (v : value) : bool :=
  match v with
  | VBool _ | VInt _ | VFloat _ => true
  | VStr s =>
      match PyFloat.of_string (Str.strip (cleaned s)) with
      | Some _ => true
      | None => false
      end
  | _ => false
  end.

Definition equation_error (assets_total liab_total equity_total : F64.float) : string :=
  "Accounting equation failed: Assets (" ++ PyFloat.repr assets_total ++ ") ≠ "
  ++ "Liabilities (" ++ PyFloat.repr liab_total ++ ") + Equity ("
  ++ PyFloat.repr equity_total ++ ")".

Definition equation_body (mapped_data : value) (st : vstate) : result vstate :=
  a <- Py.get mapped_data "AssetsTotal" empty_dict ;;
  ay <- Py.get a "years" empty_dict ;;
  assets_total <- _extract_numeric_value ay ;;
  l <- Py.get mapped_data "LiabilitiesTotal" empty_dict ;;
  ly <- Py.get l "years" empty_dict ;;
  liab_total <- _extract_numeric_value ly ;;
  e <- Py.get mapped_data "Equity" empty_dict ;;
  t <- Py.get e "TotalEquity" empty_dict ;;
  ty <- Py.get t "years" empty_dict ;;
  equity_total <- _extract_numeric_value ty ;;
  match assets_total, liab_total, equity_total with
  | Some assets, Some liab, Some equity =>
      let expected_assets := F64.add liab equity in
      if F64.gtb (F64.abs (F64.sub assets expected_assets)) F64.c1 then
        Ok (add_error (equation_error assets liab equity) st)
      else Ok st
  | _, _, _ =>
      Ok (add_warning "Cannot validate accounting equation - missing total values" st)
  end.

(** Check 1; the [try] ... [except Exception] turns a raise into a warning. *)
Definition _validate_accounting_equation (mapped_data : value) (st : vstate) : vstate :=
  match equation_body mapped_data st with
  | Ok st' => st'
  | Raise e =>
      add_warning ("Error validating accounting equation: " ++ exn_message e) st
  end.

Definition non_numeric_error (section field_name year : string) (v : value) : string :=
  section ++ "." ++ field_name ++ " has non-numeric value for " ++ year ++ ": '"
  ++ Py.str v ++ "'".

(** Body of the loop over [years.items()] of check 2. *)
Definition numeric_year (section field_name : string) (yv : string * value)
  (st : vstate) : result vstate :=
  let '(year, v) := yv in
  if none_or_empty v then Ok st
  else if negb (_is_numeric v) then
    Ok (add_error (non_numeric_error section field_name year v) st)
  else Ok st.

Definition numeric_field (section : string) (fv : string * value) (st : vstate)
  : result vstate :=
  let '(field_name, field_obj) := fv in
  match field_obj with
  | VDict d =>
      entries <- Py.items (Py.get_or d "years" empty_dict) ;;
      PyOps.foldM (numeric_year section field_name) entries st
  | _ => Ok st
  end.

Definition numeric_section (mapped_data : value) (section : string) (st : vstate)
  : result vstate :=
  present <- PyOps.contains section mapped_data ;;
  if negb present then Ok st
  else
    section_data <- PyOps.getitem mapped_data section ;;
    fields <- Py.items section_data ;;
    PyOps.foldM (numeric_field section) fields st.

(** Check 2 *)
Definition _validate_numeric_values (mapped_data : value) (st : vstate) : result vstate :=
  PyOps.foldM (numeric_section mapped_data)
    ["Equity"; "NonCurrentLiabilities"; "CurrentLiabilities";
     "NonCurrentAssets"; "CurrentAssets"] st.

(** The entries summed by check 3: every [dict] other than the total. *)
Definition is_component (kv : string * value) : bool :=
  negb (String.eqb (fst kv) "TotalCurrentAssets") && Py.is_dict (snd kv).

Definition component_value (kv : string * value) : result (option F64.float) :=
  years <- Py.get (snd kv) "years" empty_dict ;; _extract_numeric_value years.

(** [total] and [components_sum] of check 3; [None] when the section has no
    [TotalCurrentAssets]. *)
Definition subtotal_operands (mapped_data : value)
  : result (option (option F64.float * PyOps.num)) :=
  current_assets <- Py.get mapped_data "CurrentAssets" empty_dict ;;
  present <- PyOps.contains "TotalCurrentAssets" current_assets ;;
  if present then
    tca <- PyOps.getitem current_assets "TotalCurrentAssets" ;;
    years <- Py.get tca "years" empty_dict ;;
    total <- _extract_numeric_value years ;;
    entries <- Py.items current_assets ;;
    components <- PyOps.mapM component_value (List.filter is_component entries) ;;
    components_sum <- PyOps.sum components ;;
    Ok (Some (total, components_sum))
  else Ok None.

Definition num_to_float (a : PyOps.num) : F64.float :=
  match a with
  | PyOps.NFloat x => x
  | PyOps.NInt n => match F64.of_Z n with Some x => x | None => F64.Inf (n <? 0) end
  end.

(** [total and components_sum and
     abs(total - components_sum) > components_sum * 0.01] *)
Definition subtotal_differs (total : option F64.float) (components_sum : PyOps.num)
  : bool :=
  match total with
  | None => false
  | Some t =>
      F64.truthy t && PyOps.num_truthy components_sum &&
      (let c := num_to_float components_sum in
       F64.gtb (F64.abs (F64.sub t c)) (F64.mul c F64.c0_01))
  end.

Definition opt_float_str (t : option F64.float) : string :=
  match t with Some x => PyFloat.repr x | None => "None" end.

Definition subtotal_warning (total : option F64.float) (components_sum : PyOps.num)
  : string :=
  "CurrentAssets total (" ++ opt_float_str total
  ++ ") differs from sum of components (" ++ PyOps.num_str components_sum ++ ")".

(** Check 3 *)
Definition _validate_subtotals (mapped_data : value) (st : vstate) : result vstate :=
  ops <- subtotal_operands mapped_data ;;
  match ops with
  | Some (total, components_sum) =>
      if subtotal_differs total components_sum then
        Ok (add_warning (subtotal_warning total components_sum) st)
      else Ok st
  | None => Ok st
  end.

Definition missing_years_warning (section field_name : string) (n : Z) : string :=
  section ++ "." ++ field_name ++ " missing data for " ++ Str.of_Z n ++ " year(s)".

Definition consistency_field (section : string) (nyears : Z) (fv : string * value)
  (st : vstate) : result vstate :=
  let '(field_name, field_obj) := fv in
  match field_obj with
  | VDict d =>
      n <- Py.len (Py.get_or d "years" empty_dict) ;;
      if n <? nyears then
        Ok (add_warning (missing_years_warning section field_name (nyears - n)) st)
      else Ok st
  | _ => Ok st
  end.

Definition consistency_section (mapped_data : value) (nyears : Z) (section : string)
  (st : vstate) : result vstate :=
  present <- PyOps.contains section mapped_data ;;
  if negb present then Ok st
  else
    section_data <- PyOps.getitem mapped_data section ;;
    fields <- Py.items section_data ;;
    PyOps.foldM (consistency_field section nyears) fields st.

(** Check 4 *)
Definition _validate_consistency (mapped_data : value) (st : vstate) : result vstate :=
  metadata <- Py.get mapped_data "metadata" empty_dict ;;
  years <- Py.get metadata "years" (VList []) ;;
  nyears <- Py.len years ;;
  if nyears <? 2 then Ok st
  else PyOps.foldM (consistency_section mapped_data nyears)
         ["Equity"; "NonCurrentAssets"] st.

Definition critical_keywords : list string :=
  ["total"; "assets"; "liabilities"; "equity"].

Definition is_critical (label : string) : bool :=
  existsb (fun keyword => Str.contains keyword label) critical_keywords.

Definition many_unmapped_warning (n : Z) : string :=
  "High number of unmapped items (" ++ Str.of_Z n ++ "). Check schema coverage.".

Definition unmapped_warning (label_raw : value) : string :=
  "Potentially important item unmapped: '" ++ Py.str label_raw ++ "'".

Definition unmapped_item (item : value) (st : vstate) : result vstate :=
  raw <- Py.get item "label_raw" (VStr EmptyString) ;;
  label <- PyOps.lower raw ;;
  if is_critical label then
    raw' <- Py.get item "label_raw" VNone ;;
    Ok (add_warning (unmapped_warning raw') st)
  else Ok st.

(** Check 5 *)
Definition _validate_unmapped_items (mapped_data : value) (st : vstate) : result vstate :=
  section <- Py.get mapped_data "unmapped_items" empty_dict ;;
  unmapped <- Py.get section "items" (VList []) ;;
  n <- Py.len unmapped ;;
  let st1 := if 10 <? n then add_warning (many_unmapped_warning n) st else st in
  items <- PyOps.iterate unmapped ;;
  PyOps.foldM unmapped_item items st1.

Inductive verdict : Type := PASS | FAIL.

Record validation_result : Type := mkValidation {
  accounting_equation_valid : bool;
  total_errors : Z;
  total_warnings : Z;
  result_errors : list string;
  result_warnings : list string;
  result_status : verdict
}.

(** ['accounting equation' in e] *)
Definition mentions_equation (e : string) : bool :=
  Str.contains "accounting equation" e.

Definition compile_result (st : vstate) : validation_result :=
  mkValidation
    (Z.of_nat (List.length (List.filter mentions_equation (errors st))) =? 0)
    (Z.of_nat (List.length (errors st)))
    (Z.of_nat (List.length (warnings st)))
    (errors st)
    (warnings st)
    (if Z.of_nat (List.length (errors st)) =? 0 then PASS else FAIL).

Definition validate_mapped_data (mapped_data : value) : result validation_result :=
  let st1 := _validate_accounting_equation mapped_data (mkState [] []) in
  st2 <- _validate_numeric_values mapped_data st1 ;;
  st3 <- _validate_subtotals mapped_data st2 ;;
  st4 <- _validate_consistency mapped_data st3 ;;
  st5 <- _validate_unmapped_items mapped_data st4 ;;
  Ok (compile_result st5).

(* ================================================================== *)
(** * Vocabulary of the properties *)
(* ================================================================== *)

(** Structural induction over value trees. *)
Section ValueInduction.

Variable P : value -> Prop.
Hypothesis HNone : P VNone.
Hypothesis HBool : forall b, P (VBool b).
Hypothesis HInt : forall n, P (VInt n).
Hypothesis HFloat : forall x, P (VFloat x).
Hypothesis HStr : forall s, P (VStr s).
Hypothesis HList : forall l, Forall P l -> P (VList l).
Hypothesis HDict : forall d, Forall (fun kv => P (snd kv)) d -> P (VDict d).

Fixpoint value_ind (v : value) : P v :=
  match v with
  | VNone => HNone
  | VBool b => HBool b
  | VInt n => HInt n
  | VFloat x => HFloat x
  | VStr s => HStr s
  | VList l =>
      HList l
        ((fix all (l : list value) : Forall P l :=
            match l with
            | [] => Forall_nil P
            | x :: r => Forall_cons x (value_ind x) (all r)
            end) l)
  | VDict d =>
      HDict d
        ((fix all (d : list (string * value)) : Forall (fun kv => P (snd kv)) d :=
            match d with
            | [] => Forall_nil _
            | (k, x) :: r =>
                Forall_cons (P := fun kv => P (snd kv)) (k, x) (value_ind x) (all r)
            end) d)
  end.

End ValueInduction.

(** The loop of [traverse_and_compare] over the keys of a mapping. *)
Definition each_key (ed : list (string * value)) (path : string)
  : list (string * value) -> results -> results :=
  fix each_key (entries : list (string * value)) (r : results) {struct entries}
    : results :=
    match entries with
    | [] => r
    | (key, gv) :: rest =>
        if is_skipped key then each_key rest r
        else
          let current_path := child_path path key in
          match gv with
          | VDict gvd =>
              if Py.has_key "value" gvd then
                each_key rest
                  (_record_comparison
                     (compare_field_structure
                        (Py.get_or ed key missing_field) gv current_path) r)
              else
                each_key rest
                  (traverse_and_compare (Py.get_or ed key (VDict []))
                     gv current_path r)
          | VList _ =>
              each_key rest
                (traverse_and_compare (Py.get_or ed key (VList []))
                   gv current_path r)
          | _ => each_key rest r
          end
    end.

(** The loop of [traverse_and_compare] over the items of a sequence. *)
Definition each_item (el : list value) (path : string)
  : list value -> nat -> results -> results :=
  fix each_item (gt_items : list value) (idx : nat) (r : results)
    {struct gt_items} : results :=
    match gt_items with
    | [] => r
    | gt_item :: rest =>
        each_item rest (S idx)
          (traverse_and_compare (nth idx el (VDict [])) gt_item
             (index_path path idx) r)
    end.

(** "Null or the empty string". *)
Definition blank (v : value) : Prop := v = VNone \/ v = VStr EmptyString.

(** The three counters of the summary. *)
Inductive bucket : Type := InCorrect | InIncorrect | InMissing.

(** The status-to-bucket table. *)
Definition bucket_of (s : status) : option bucket :=
  match s with
  | correct | correct_null => Some InCorrect
  | incorrect | false_positive => Some InIncorrect
  | missing => Some InMissing
  | unknown => None
  end.

Definition bucket_eqb (a b : bucket) : bool :=
  match a, b with
  | InCorrect, InCorrect | InIncorrect, InIncorrect | InMissing, InMissing => true
  | _, _ => false
  end.

Definition in_bucket (b : bucket) (c : comparison) : bool :=
  match bucket_of (cmp_status c) with
  | Some b' => bucket_eqb b b'
  | None => false
  end.

(** Number of records of [l] that the table sends to [b]. *)
Definition count_bucket (b : bucket) (l : list comparison) : Z :=
  Z.of_nat (List.length (List.filter (in_bucket b) l)).

(** The five statuses a comparison can carry. *)
Definition emitted (s : status) : Prop :=
  s = correct \/ s = correct_null \/ s = incorrect \/ s = missing
  \/ s = false_positive.

(** Counters and details of a summary agree. *)
Definition tallied (r : results) : Prop :=
  total_fields r = Z.of_nat (List.length (field_details r)) /\
  correct_fields r = count_bucket InCorrect (field_details r) /\
  incorrect_fields r = count_bucket InIncorrect (field_details r) /\
  missing_fields r = count_bucket InMissing (field_details r) /\
  Forall (fun c => emitted (cmp_status c)) (field_details r).

(** ** Value trees compared with themselves *)

Fixpoint distinct_keys (d : list (string * value)) : bool :=
  match d with
  | [] => true
  | (k, _) :: r => negb (Py.has_key k r) && distinct_keys r
  end.

(** A well-formed tree: the keys of every mapping are pairwise distinct. *)
Fixpoint well_formed (v : value) : bool :=
  match v with
  | VList l => forallb well_formed l
  | VDict d =>
      distinct_keys d &&
      (fix all (d : list (string * value)) : bool :=
         match d with
         | [] => true
         | (_, x) :: r => well_formed x && all r
         end) d
  | _ => true
  end.

Definition well_formed_entries : list (string * value) -> bool :=
  fix all (d : list (string * value)) : bool :=
    match d with
    | [] => true
    | (_, x) :: r => well_formed x && all r
    end.

(** A leaf field: a mapping with a [value] key. *)
Definition is_leaf_field (v : value) : bool :=
  match v with
  | VDict d => Py.has_key "value" d
  | _ => false
  end.

(** The tree has a leaf field somewhere. *)
Fixpoint contains_leaf_field (v : value) : bool :=
  match v with
  | VList l => existsb contains_leaf_field l
  | VDict d =>
      Py.has_key "value" d ||
      (fix any (d : list (string * value)) : bool :=
         match d with
         | [] => false
         | (_, x) :: r => contains_leaf_field x || any r
         end) d
  | _ => false
  end.

(** What the entry [(k, x)] of a mapping contributes to the traversal:
    a leaf field, or a container searched in turn, unless [k] is skipped. *)
Definition entry_reaches (reaches : value -> bool) (k : string) (x : value) : bool :=
  negb (is_skipped k) &&
  match x with
  | VDict xd => Py.has_key "value" xd || reaches x
  | VList _ => reaches x
  | _ => false
  end.

(** The traversal meets a leaf field: one stored under a key that is not
    skipped, in a mapping that is the root or is met the same way, possibly
    through sequences. *)
Fixpoint reaches_leaf (v : value) : bool :=
  match v with
  | VList l => existsb reaches_leaf l
  | VDict d =>
      (fix any (d : list (string * value)) : bool :=
         match d with
         | [] => false
         | (k, x) :: r =>
             (negb (is_skipped k) &&
              match x with
              | VDict xd => Py.has_key "value" xd || reaches_leaf x
              | VList _ => reaches_leaf x
              | _ => false
              end) || any r
         end) d
  | _ => false
  end.

Definition reaches_entries : list (string * value) -> bool :=
  fix any (d : list (string * value)) : bool :=
    match d with
    | [] => false
    | (k, x) :: r => entry_reaches reaches_leaf k x || any r
    end.

(** A record counted as correct. *)
Definition good (c : comparison) : Prop :=
  cmp_status c = correct \/ cmp_status c = correct_null.

(** From [r] to [r'] only good records were added, at least one when
    [strict]. *)
Definition grows (strict : bool) (r r' : results) : Prop :=
  (Forall good (field_details r) -> Forall good (field_details r')) /\
  (List.length (field_details r) <= List.length (field_details r'))%nat /\
  (strict = true ->
   (List.length (field_details r) < List.length (field_details r'))%nat).

(** Comparing [x] with itself only adds good records, at least one when
    the traversal meets a leaf field. *)
Definition self_grows (x : value) : Prop :=
  well_formed x = true ->
  forall path r, grows (reaches_leaf x) r (traverse_and_compare x x path r).

(** A sequence of leaf fields, compared with itself in the counterexample. *)
Definition leaf_in_sequence : value :=
  VDict [("totals",
          VList [VDict [("value", VStr "100.00"); ("confidence", VFloat F64.c1)]])].

(** A payroll page with one employee. *)
Definition payroll_sample : value :=
  VDict [("document_type", VStr "PayrollRegister");
         ("metadata", VDict [("company_name", VNone)]);
         ("employee_info",
          VList [VDict [("fullname",
                         VDict [("value", VStr "Ann Lee");
                                ("confidence", VFloat F64.c1)]);
                        ("net_pay",
                         VDict [("value", VStr "1,250.00");
                                ("confidence", VFloat F64.c1)])]])].

(** ** Schema instances of the validator scenarios *)

(** [{"years": {"2020": amount}}] *)
Definition year_2020 (amount : string) : value := VDict [("2020", VStr amount)].

Definition field_2020 (amount : string) : value :=
  VDict [("value", VNone); ("confidence", VFloat (F64.zero false));
         ("years", year_2020 amount); ("notes", VStr EmptyString)].

(** A field of the schema template, not populated. *)
Definition empty_field : value :=
  VDict [("value", VNone); ("confidence", VFloat (F64.zero false));
         ("years", VDict []); ("notes", VStr EmptyString)].

(** Total assets 1000, total liabilities 600, total equity [equity]. *)
Definition equation_entries (equity : string) : list (string * value) :=
  [("AssetsTotal", field_2020 "1000");
   ("LiabilitiesTotal", field_2020 "600");
   ("Equity", VDict [("description", VStr "Owner's equity");
                     ("TotalEquity", field_2020 equity)])].

Definition equation_schema (equity : string) : value :=
  VDict (equation_entries equity).

(** The field [field] has the year mapping [years]. *)
Definition has_years (field years : value) : Prop :=
  exists f, field = VDict f /\ Py.lookup "years" f = Some years.

(** A schema whose three totals carry the given amounts for 2020. *)
Definition equation_scenario (d : list (string * value))
  (assets liab equity : string) : Prop :=
  exists a l e t,
    Py.lookup "AssetsTotal" d = Some a /\ has_years a (year_2020 assets) /\
    Py.lookup "LiabilitiesTotal" d = Some l /\ has_years l (year_2020 liab) /\
    Py.lookup "Equity" d = Some (VDict e) /\
    Py.lookup "TotalEquity" e = Some t /\ has_years t (year_2020 equity).

(** Current assets with three components summing to 1000. *)
Definition current_assets_schema (total : string) : value :=
  VDict [("CurrentAssets",
          VDict [("description", VStr "Short-term assets");
                 ("Inventories", field_2020 "500");
                 ("TradeReceivables", field_2020 "300");
                 ("CashAndCashEquivalents", field_2020 "200");
                 ("TotalCurrentAssets", field_2020 total)])].

(** Current assets with a total and a component left as in the template. *)
Definition unpopulated_component_schema : value :=
  VDict [("CurrentAssets",
          VDict [("description", VStr "Short-term assets");
                 ("Inventories", empty_field);
                 ("TotalCurrentAssets", field_2020 "1000")])].

Definition unmapped_item_of (label : string) : value :=
  VDict [("label_raw", VStr label); ("years", year_2020 "10")].

Definition unmapped_schema (items : list value) : value :=
  VDict [("unmapped_items",
          VDict [("description", VStr "Items that could not be mapped");
                 ("items", VList items)])].

(** The raw label of an unmapped item, ['']  when it has none; [None] when
    the item is not a mapping or its label is not a [str]. *)
Definition label_of (item : value) : option string :=
  match item with
  | VDict d =>
      match Py.lookup "label_raw" d with
      | None => Some EmptyString
      | Some (VStr s) => Some s
      | Some _ => None
      end
  | _ => None
  end.

(** One warning for every item whose label contains a keyword, ignoring
    case. *)
Definition keyword_warnings (items : list value) : list string :=
  List.flat_map
    (fun item =>
       match label_of item with
       | Some l => if is_critical (Str.lower l) then [unmapped_warning (VStr l)] else []
       | None => []
       end) items.

Definition count_warning (items : list value) : list string :=
  let n := Z.of_nat (List.length items) in
  if 10 <? n then [many_unmapped_warning n] else [].

(** The floats [0.0], [398.0] ... of the scenarios. *)
Definition f_of (n : Z) : F64.float := F64.round false n 1.

(** Every character of [s] satisfies [P]. *)
Fixpoint all_chars (P : ascii -> Prop) (s : string) : Prop :=
  match s with
  | EmptyString => True
  | String c r => P c /\ all_chars P r
  end.

(** Any character but the letter [c]. *)
Definition not_c (ch : ascii) : Prop := ch <> "c"%char.

(** ** The checks of the validator, by what they read *)

(** The three representative values read by check 1, in the order the
    code reads them. *)
Definition equation_operands (mapped_data : value)
  : result (option F64.float * option F64.float * option F64.float) :=
  a <- Py.get mapped_data "AssetsTotal" empty_dict ;;
  ay <- Py.get a "years" empty_dict ;;
  assets_total <- _extract_numeric_value ay ;;
  l <- Py.get mapped_data "LiabilitiesTotal" empty_dict ;;
  ly <- Py.get l "years" empty_dict ;;
  liab_total <- _extract_numeric_value ly ;;
  e <- Py.get mapped_data "Equity" empty_dict ;;
  t <- Py.get e "TotalEquity" empty_dict ;;
  ty <- Py.get t "years" empty_dict ;;
  equity_total <- _extract_numeric_value ty ;;
  Ok (assets_total, liab_total, equity_total).

(** The representative value of a field. *)
Definition read_years (field : value) : result (option F64.float) :=
  y <- Py.get field "years" empty_dict ;; _extract_numeric_value y.

(** The representative value of the field [k] of [section]. *)
Definition read_total (section : value) (k : string) : result (option F64.float) :=
  f <- Py.get section k empty_dict ;; read_years f.

Definition read_equity (mapped_data : value) : result (option F64.float) :=
  e <- Py.get mapped_data "Equity" empty_dict ;; read_total e "TotalEquity".

(** One of the three totals is not in the schema. *)
Definition total_absent (d : list (string * value)) : Prop :=
  Py.lookup "AssetsTotal" d = None \/
  Py.lookup "LiabilitiesTotal" d = None \/
  Py.lookup "Equity" d = None \/
  (exists e, Py.lookup "Equity" d = Some (VDict e) /\ Py.lookup "TotalEquity" e = None).

(** The entries of [field.get('years', {})] when that is a mapping. *)
Definition years_entries (field : list (string * value))
  : option (list (string * value)) :=
  match Py.lookup "years" field with
  | None => Some []
  | Some (VDict y) => Some y
  | Some _ => None
  end.

(** A component sum above zero: [0 < components_sum]. *)
Definition positive_sum (components_sum : PyOps.num) : bool :=
  match components_sum with
  | PyOps.NInt n => 0 <? n
  | PyOps.NFloat x => F64.ltb (F64.zero false) x
  end.

(** Every text of a value tree, the keys of its mappings included, is
    ASCII text. *)
Fixpoint ascii_text (v : value) : bool :=
  match v with
  | VStr s => Str.is_ascii s
  | VList l => forallb ascii_text l
  | VDict d => forallb (fun kv => Str.is_ascii (fst kv) && ascii_text (snd kv)) d
  | _ => true
  end.

(** A field whose year values can be listed; entries of a section that are
    not mappings (its description) are left alone by the checks. *)
Definition field_shaped (v : value) : bool :=
  match v with
  | VDict f => match years_entries f with Some _ => true | None => false end
  | _ => true
  end.

(** The fields of a section, none when the section is not in the schema. *)
Definition section_fields (d : list (string * value)) (section : string)
  : option (list (string * value)) :=
  match Py.lookup section d with
  | None => Some []
  | Some (VDict fields) => Some fields
  | Some _ => None
  end.

Definition section_shaped (d : list (string * value)) (section : string) : bool :=
  match section_fields d section with
  | Some fields => forallb (fun kv => field_shaped (snd kv)) fields
  | None => false
  end.

(** The errors of check 2 for the year values of one field. *)
Definition year_errors (section field_name : string) (entries : list (string * value))
  : list string :=
  List.flat_map
    (fun yv =>
       if none_or_empty (snd yv) then []
       else if _is_numeric (snd yv) then []
       else [non_numeric_error section field_name (fst yv) (snd yv)])
    entries.

Definition field_errors (section : string) (fv : string * value) : list string :=
  match snd fv with
  | VDict f =>
      match years_entries f with
      | Some y => year_errors section (fst fv) y
      | None => []
      end
  | _ => []
  end.

Definition section_errors (d : list (string * value)) (section : string) : list string :=
  match section_fields d section with
  | Some fields => List.flat_map (field_errors section) fields
  | None => []
  end.

Definition numeric_sections : list string :=
  ["Equity"; "NonCurrentLiabilities"; "CurrentLiabilities";
   "NonCurrentAssets"; "CurrentAssets"].

(** Every error check 2 reports on the schema [d]. *)
Definition numeric_errors (d : list (string * value)) : list string :=
  List.flat_map (section_errors d) numeric_sections.

(** [len(metadata.years)] when it can be taken, [0] without metadata or
    without years. *)
Definition expected_years (d : list (string * value)) : option Z :=
  match Py.lookup "metadata" d with
  | None => Some 0
  | Some (VDict m) =>
      match Py.lookup "years" m with
      | None => Some 0
      | Some (VList l) => Some (Z.of_nat (List.length l))
      | Some (VDict y) => Some (Z.of_nat (List.length y))
      | Some (VStr t) => Some (Str.len t)
      | Some _ => None
      end
  | Some _ => None
  end.

(** The warning of check 4 for one field, from the number of entries of
    its year mapping. *)
Definition field_gap (section : string) (nyears : Z) (fv : string * value)
  : list string :=
  match snd fv with
  | VDict f =>
      match years_entries f with
      | Some y =>
          let n := Z.of_nat (List.length y) in
          if n <? nyears then [missing_years_warning section (fst fv) (nyears - n)]
          else []
      | None => []
      end
  | _ => []
  end.

Definition section_gaps (d : list (string * value)) (nyears : Z) (section : string)
  : list string :=
  match section_fields d section with
  | Some fields => List.flat_map (field_gap section nyears) fields
  | None => []
  end.

(** Every warning check 4 gives on the schema [d]. *)
Definition consistency_warnings (d : list (string * value)) : list string :=
  match expected_years d with
  | Some nyears =>
      if nyears <? 2 then []
      else List.flat_map (section_gaps d nyears) ["Equity"; "NonCurrentAssets"]
  | None => []
  end.

(** A component of [CurrentAssets] with a representative value; entries
    that are not mappings are not components. *)
Definition representative (v : value) : bool :=
  match v with
  | VDict f =>
      match years_entries f with
      | Some y => match first_numeric y with Ok (Some _) => true | _ => false end
      | None => false
      end
  | _ => true
  end.

(** A total whose year values can be read, with or without a result. *)
Definition total_readable (v : value) : bool :=
  match v with
  | VDict f =>
      match years_entries f with
      | Some y => match first_numeric y with Ok _ => true | Raise _ => false end
      | None => false
      end
  | _ => false
  end.

(** [CurrentAssets] is a mapping without a total, or with a readable total
    and a representative value for every component. *)
Definition subtotals_shaped (d : list (string * value)) : bool :=
  match Py.lookup "CurrentAssets" d with
  | None => true
  | Some (VDict ca) =>
      match Py.lookup "TotalCurrentAssets" ca with
      | None => true
      | Some t =>
          total_readable t &&
          forallb (fun kv => String.eqb (fst kv) "TotalCurrentAssets"
                             || representative (snd kv)) ca
      end
  | Some _ => false
  end.

(** The unmapped items of the schema, none when it lists none. *)
Definition unmapped_items_of (d : list (string * value)) : option (list value) :=
  match Py.lookup "unmapped_items" d with
  | None => Some []
  | Some (VDict u) =>
      match Py.lookup "items" u with
      | None => Some []
      | Some (VList items) => Some items
      | Some _ => None
      end
  | Some _ => None
  end.

Definition unmapped_shaped (d : list (string * value)) : bool :=
  match unmapped_items_of d with
  | Some items =>
      forallb (fun item => match label_of item with Some _ => true | None => false end)
        items
  | None => false
  end.

Definition years_countable (d : list (string * value)) : bool :=
  match expected_years d with Some _ => true | None => false end.

(** A schema instance on which no check raises. *)
Definition schema_shaped (d : list (string * value)) : bool :=
  forallb (section_shaped d) numeric_sections && subtotals_shaped d
  && years_countable d && unmapped_shaped d.

(** The warning of check 3 on the schema [d], if any. *)
Definition subtotal_warnings (d : list (string * value)) : list string :=
  match subtotal_operands (VDict d) with
  | Ok (Some (total, cs)) =>
      if subtotal_differs total cs then [subtotal_warning total cs] else []
  | _ => []
  end.

(** The warnings of check 5 on the schema [d]. *)
Definition unmapped_warnings (d : list (string * value)) : list string :=
  match unmapped_items_of d with
  | Some items => (count_warning items ++ keyword_warnings items)%list
  | None => []
  end.

(** A populated schema instance with one non-numeric value, a field with
    data for one year out of two and an unmapped total. *)
Definition sample_schema : value :=
  VDict [("metadata", VDict [("currency", VStr "INR");
                             ("years", VList [VStr "2020"; VStr "2019"])]);
         ("Equity",
          VDict [("description", VStr "Owner's equity");
                 ("ShareCapital",
                  VDict [("value", VNone);
                         ("years", VDict [("2020", VStr "1,00,000");
                                          ("2019", VStr "n/a")])]);
                 ("TotalEquity", field_2020 "400")]);
         ("LiabilitiesTotal", field_2020 "600");
         ("CurrentAssets",
          VDict [("Inventories", field_2020 "500");
                 ("CashAndCashEquivalents", field_2020 "512");
                 ("TotalCurrentAssets", field_2020 "1000")]);
         ("AssetsTotal", field_2020 "1000");
         ("unmapped_items",
          VDict [("items", VList [unmapped_item_of "Total Reserves"])])].

Definition sample_entries : list (string * value) :=
  match sample_schema with VDict d => d | _ => [] end.

(** A record for a field the extraction does not have. *)
Definition unanswered (c : comparison) : Prop :=
  extracted_value c = VNone /\
  (cmp_status c = missing \/ cmp_status c = correct_null).

(** The keys of a mapping. *)
Definition keys (d : list (string * value)) : list string := List.map fst d.

(** ** [print_summary], as the lines it prints *)

(** [format(x, '.2f')]: two decimals, ties to even on the exact value. *)
Definition format_2f (x : F64.float) : string :=
  match x with
  | F64.NaN => "nan"
  | F64.Inf s => if s then "-inf" else "inf"
  | F64.Fin s m e =>
      let num := if e <? 0 then m * 100 else m * 100 * 2 ^ e in
      let den := if e <? 0 then 2 ^ (- e) else 1 in
      let q := num / den in
      let r := num mod den in
      let n := if (den <? 2 * r) || ((den =? 2 * r) && Z.odd q) then q + 1 else q in
      (if s then "-" else "") ++ Str.of_N (n / 100) ++ "."
      ++ String (Str.digit_char ((n mod 100) / 10))
           (String (Str.digit_char (n mod 10)) EmptyString)
  end.

Definition newline : string := String "010" EmptyString.

(** ["=" * 70] *)
Definition rule70 : string := Str.repeat_char "=" 70.

(** [f['status'] in ['incorrect', 'missing']] *)
Definition is_issue (c : comparison) : bool :=
  match cmp_status c with
  | incorrect | missing => true
  | _ => false
  end.

Definition icon_incorrect : string := "‚ùå".
Definition icon_missing : string := "‚ö†Ô∏è".

(** The three lines printed for one listed field. *)
Definition issue_lines (c : comparison) : list string :=
  let status_icon :=
    match cmp_status c with incorrect => icon_incorrect | _ => icon_missing end in
  ["   " ++ status_icon ++ " " ++ field_path c;
   "      Expected: " ++ Py.str (ground_truth_value c);
   "      Got: " ++ Py.str (extracted_value c)].

Definition issues_header (n : nat) : string :=
  newline ++ "‚ùå Issues Found (" ++ Str.of_Z (Z.of_nat n) ++ " total):".

(** The statistics block, printed in every case. *)
Definition summary_head (r : results) : list string :=
  [newline ++ rule70;
   "ACCURACY REPORT";
   rule70;
   newline ++ "üìä Overall Accuracy: " ++ format_2f (accuracy_percentage r) ++ "%";
   newline ++ "üìà Field Statistics:";
   "   Total Fields Checked: " ++ Str.of_Z (total_fields r);
   "   ‚úÖ Correct: " ++ Str.of_Z (correct_fields r);
   "   ‚ùå Incorrect: " ++ Str.of_Z (incorrect_fields r);
   "   ‚ö†Ô∏è  Missing: " ++ Str.of_Z (missing_fields r)].

(** [print_summary(results)]: one string for each call of [print]. *)
Definition print_summary (r : results) : list string :=
  let incorrect_fields := List.filter is_issue (field_details r) in
  (summary_head r
   ++ match incorrect_fields with
      | [] => []
      | _ :: _ =>
          issues_header (List.length incorrect_fields)
          :: List.flat_map issue_lines (List.firstn 10 incorrect_fields)
      end
   ++ [(newline ++ rule70)%string])%list.

Definition is_false_positive (c : comparison) : bool :=
  match cmp_status c with false_positive => true | _ => false end.

(** A year value that [_extract_numeric_value] passes over: null, empty,
    a string that does not read as a number, a list or a mapping. *)
Definition passed_over (v : value) : bool :=
  match v with
  | VNone | VList _ | VDict _ => true
  | VStr s =>
      match s with
      | EmptyString => true
      | _ => match PyFloat.of_string (cleaned s) with Some _ => false | None => true end
      end
  | _ => false
  end.

(** ** The accuracy as a percentage *)

(** [2^z] and [2^-z] cut off at one: a power of two with an exponent of
    either sign is the quotient [P2 z / N2 z] of two integers. *)
Definition P2 (z : Z) : Z := 2 ^ (Z.max z 0).
Definition N2 (z : Z) : Z := 2 ^ (Z.max (- z) 0).

(** A finite float between [0.0] and [100.0]. *)
Definition is_percentage (x : F64.float) : bool :=
  F64.is_finite x && negb (F64.ltb x (F64.zero false)) && negb (F64.ltb F64.c100 x).

(** ** Text around a number *)

(** A character that is neither a digit nor an underscore. *)
Definition neutral (c : ascii) : bool :=
  negb (Str.is_digit c) && negb (Ascii.eqb c "_").

(* ================================================================== *)
(** * Properties of [AccuracyCalculator] *)
(* ================================================================== *)

Lemma none_or_empty_blank (v : value) : none_or_empty v = true <-> blank v.
Proof.
  unfold blank. split.
  - destruct v as [| | | |s| |]; simpl; try discriminate; auto.
    destruct s; [auto | discriminate].
  - intros [-> | ->]; reflexivity.
Qed.

Lemma none_or_empty_not_blank (v : value) : none_or_empty v = false <-> ~ blank v.
Proof.
  rewrite <- none_or_empty_blank. destruct (none_or_empty v); split; intros H;
    try reflexivity; try discriminate; try (intros K; discriminate).
  exfalso; apply H; reflexivity.
Qed.

Lemma traverse_dict (ed gd : list (string * value)) (path : string) (r : results) :
  traverse_and_compare (VDict ed) (VDict gd) path r = each_key ed path gd r.
Proof. reflexivity. Qed.

Lemma traverse_list (el gl : list value) (path : string) (r : results) :
  traverse_and_compare (VList el) (VList gl) path r = each_item el path gl O r.
Proof. reflexivity. Qed.

Lemma cmp_status_with_status (st : status) (c : comparison) :
  cmp_status (with_status st c) = st.
Proof. reflexivity. Qed.

(** C6: a leaf whose ground truth is null or the empty string is
    [correct_null] when the extracted value is null or empty too and
    [false_positive] (so not [correct]) otherwise; a leaf whose ground truth
    is populated and whose extracted value is null or empty is [missing]. *)
Theorem compare_values_null_policy (extracted ground_truth : value) (path : string) :
  (blank ground_truth -> blank extracted ->
   cmp_status (compare_values extracted ground_truth path) = correct_null) /\
  (blank ground_truth -> ~ blank extracted ->
   cmp_status (compare_values extracted ground_truth path) = false_positive /\
   cmp_status (compare_values extracted ground_truth path) <> correct) /\
  (~ blank ground_truth -> blank extracted ->
   cmp_status (compare_values extracted ground_truth path) = missing).
Proof.
  unfold compare_values.
  split; [| split]; intros Hg He.
  - apply none_or_empty_blank in Hg, He. rewrite Hg, He. reflexivity.
  - apply none_or_empty_blank in Hg. apply none_or_empty_not_blank in He.
    rewrite Hg, He. simpl. split; [reflexivity | discriminate].
  - apply none_or_empty_not_blank in Hg. apply none_or_empty_blank in He.
    rewrite Hg, He. reflexivity.
Qed.

Lemma compare_values_null_policy_witness :
  blank VNone /\ ~ blank (VStr "12.50") /\
  cmp_status (compare_values (VStr "12.50") VNone "net_pay") = false_positive.
Proof.
  assert (Hg : blank VNone) by (left; reflexivity).
  assert (He : ~ blank (VStr "12.50")) by (intros [H | H]; discriminate H).
  split; [exact Hg | split; [exact He |]].
  exact (proj1 (proj1 (proj2 (compare_values_null_policy (VStr "12.50") VNone "net_pay"))
                  Hg He)).
Defined.

Lemma scaled_opposite (s : bool) (m e : Z) :
  F64.scaled s m e + F64.scaled (negb s) m e = 0.
Proof. unfold F64.scaled. destruct s; simpl; lia. Qed.

Lemma sub_self_below_tolerance (x : F64.float) :
  F64.is_finite x = true -> F64.ltb (F64.abs (F64.sub x x)) F64.c0_01 = true.
Proof.
  destruct x as [| s | s m e]; simpl; try discriminate. intros _.
  unfold F64.of_scaled. rewrite scaled_opposite. reflexivity.
Qed.

(** C7: on two ASCII strings that both read as finite numbers once the
    commas are removed, [_values_match] accepts exactly when the absolute
    difference of the two numbers is below [0.01]; "100.00" matches
    "100.009" and does not match "100.02". *)
Theorem values_match_numeric_tolerance :
  (forall (a b : string) (x y : F64.float),
      Str.is_ascii a = true ->
      Str.is_ascii b = true ->
      float_without_commas a = Some x ->
      float_without_commas b = Some y ->
      F64.is_finite x = true ->
      F64.is_finite y = true ->
      (_values_match (VStr a) (VStr b) = true <->
       F64.ltb (F64.abs (F64.sub x y)) F64.c0_01 = true)) /\
  _values_match (VStr "100.00") (VStr "100.009") = true /\
  _values_match (VStr "100.00") (VStr "100.02") = false.
Proof.
  split; [| split; vm_compute; reflexivity].
  intros a b x y _ _ Ha Hb Hx Hy. unfold _values_match. simpl Py.eq.
  destruct (String.eqb a b) eqn:E.
  - apply String.eqb_eq in E. subst b. rewrite Ha in Hb. injection Hb as <-.
    split; [intros _; apply sub_self_below_tolerance; exact Hx | reflexivity].
  - rewrite Ha, Hb. reflexivity.
Qed.

Lemma values_match_numeric_tolerance_witness :
  Str.is_ascii "1,250.00" = true /\
  Str.is_ascii "1250.004" = true /\
  float_without_commas "1,250.00" = Some (F64.Fin false 5497558138880000 (-42)) /\
  float_without_commas "1250.004" = Some (F64.Fin false 5497575731066044 (-42)) /\
  (_values_match (VStr "1,250.00") (VStr "1250.004") = true <->
   F64.ltb (F64.abs (F64.sub (F64.Fin false 5497558138880000 (-42))
                             (F64.Fin false 5497575731066044 (-42))))
           F64.c0_01 = true).
Proof.
  assert (Ha : float_without_commas "1,250.00"
               = Some (F64.Fin false 5497558138880000 (-42))) by (vm_compute; reflexivity).
  assert (Hb : float_without_commas "1250.004"
               = Some (F64.Fin false 5497575731066044 (-42))) by (vm_compute; reflexivity).
  split; [reflexivity | split; [reflexivity |]].
  split; [exact Ha | split; [exact Hb |]].
  exact (proj1 values_match_numeric_tolerance "1,250.00" "1250.004" _ _
           eq_refl eq_refl Ha Hb eq_refl eq_refl).
Defined.

(** ** The bucket-sum invariant *)

Lemma compare_values_emitted (e g : value) (p : string) :
  emitted (cmp_status (compare_values e g p)).
Proof.
  unfold compare_values, emitted.
  destruct (none_or_empty g), (none_or_empty e); simpl; auto.
  destruct (_values_match e g); simpl; auto.
Qed.

Lemma count_bucket_app (b : bucket) (l : list comparison) (c : comparison) :
  count_bucket b (l ++ [c])
  = count_bucket b l + (if in_bucket b c then 1 else 0).
Proof.
  unfold count_bucket. rewrite filter_app, length_app. simpl.
  destruct (in_bucket b c); simpl; lia.
Qed.

Lemma tallied_empty : tallied empty_results.
Proof. repeat split; constructor. Qed.

Lemma tallied_record (c : comparison) (r : results) :
  emitted (cmp_status c) -> tallied r -> tallied (_record_comparison c r).
Proof.
  intros Hc (Ht & Hk & Hi & Hm & Hall).
  assert (Hall' : Forall (fun c0 => emitted (cmp_status c0)) (field_details r ++ [c]))
    by (apply Forall_app; split; [exact Hall | constructor; [exact Hc | constructor]]).
  unfold _record_comparison, tallied.
  destruct Hc as [E | [E | [E | [E | E]]]]; rewrite E; simpl;
    rewrite !count_bucket_app; unfold in_bucket; rewrite E; simpl;
    rewrite length_app; simpl; repeat split; try lia; exact Hall'.
Qed.

Section TraversalInvariant.

Variable P : results -> Prop.
Hypothesis P_record :
  forall e g p r, P r -> P (_record_comparison (compare_field_structure e g p) r).

Lemma each_key_invariant (ed : list (string * value)) (entries : list (string * value)) :
  Forall (fun kv => forall e path r, P r ->
                    P (traverse_and_compare e (snd kv) path r)) entries ->
  forall path r, P r -> P (each_key ed path entries r).
Proof.
  induction 1 as [| [key gv] rest Hgv _ IH]; intros path r Hr; simpl.
  - exact Hr.
  - destruct (is_skipped key); [apply IH; exact Hr |].
    simpl in Hgv.
    destruct gv; try (apply IH; exact Hr).
    + apply IH. apply Hgv. exact Hr.
    + destruct (Py.has_key "value" d); apply IH.
      * apply P_record. exact Hr.
      * apply Hgv. exact Hr.
Qed.

Lemma each_item_invariant (el : list value) (items : list value) :
  Forall (fun g => forall e path r, P r -> P (traverse_and_compare e g path r)) items ->
  forall path idx r, P r -> P (each_item el path items idx r).
Proof.
  induction 1 as [| g rest Hg _ IH]; intros path idx r Hr; simpl.
  - exact Hr.
  - apply IH. apply Hg. exact Hr.
Qed.

Lemma traverse_invariant (g : value) :
  forall e path r, P r -> P (traverse_and_compare e g path r).
Proof.
  induction g as [| b | n | x | s | gl IH | gd IH] using value_ind;
    intros e path r Hr; try (destruct e; exact Hr).
  - destruct e; try exact Hr. rewrite traverse_list.
    apply each_item_invariant; assumption.
  - destruct e; try exact Hr. rewrite traverse_dict.
    apply each_key_invariant; assumption.
Qed.

End TraversalInvariant.

Lemma traverse_tallied (e g : value) (path : string) (r : results) :
  tallied r -> tallied (traverse_and_compare e g path r).
Proof.
  apply traverse_invariant. intros e' g' p r' Hr'.
  apply tallied_record; [apply compare_values_emitted | exact Hr'].
Qed.

Lemma count_bucket_cons (b : bucket) (c : comparison) (l : list comparison) :
  count_bucket b (c :: l)
  = (if in_bucket b c then 1 else 0) + count_bucket b l.
Proof.
  unfold count_bucket. cbn [List.filter].
  destruct (in_bucket b c); cbn [List.length]; lia.
Qed.

Lemma emitted_partition (l : list comparison) :
  Forall (fun c => emitted (cmp_status c)) l ->
  Z.of_nat (List.length l)
  = count_bucket InCorrect l + count_bucket InIncorrect l + count_bucket InMissing l.
Proof.
  induction 1 as [| c l Hc _ IH]; [reflexivity |].
  rewrite !count_bucket_cons. unfold in_bucket.
  replace (Z.of_nat (List.length (c :: l))) with (1 + Z.of_nat (List.length l))
    by (simpl List.length; lia).
  destruct Hc as [E | [E | [E | [E | E]]]]; rewrite E; cbn [bucket_of bucket_eqb]; lia.
Qed.

(** C4: after any comparison run the total is the sum of the three
    counters and the number of recorded comparisons, every record carries
    one of the five statuses (never [unknown]), and each counter counts the
    records of its bucket. *)
Theorem bucket_sum_invariant (extracted ground_truth : value) :
  let r := calculate_accuracy extracted ground_truth in
  total_fields r = correct_fields r + incorrect_fields r + missing_fields r /\
  total_fields r = Z.of_nat (List.length (field_details r)) /\
  Forall (fun c => emitted (cmp_status c) /\ cmp_status c <> unknown) (field_details r) /\
  correct_fields r = count_bucket InCorrect (field_details r) /\
  incorrect_fields r = count_bucket InIncorrect (field_details r) /\
  missing_fields r = count_bucket InMissing (field_details r).
Proof.
  assert (H : tallied (traverse_and_compare extracted ground_truth "root" empty_results))
    by (apply traverse_tallied, tallied_empty).
  destruct H as (Ht & Hk & Hi & Hm & Hall).
  assert (Hsum := emitted_partition _ Hall).
  assert (Hall' : Forall (fun c => emitted (cmp_status c) /\ cmp_status c <> unknown)
                    (field_details
                       (traverse_and_compare extracted ground_truth "root" empty_results))).
  { eapply Forall_impl; [| exact Hall]. intros c Hc. split; [exact Hc |].
    destruct Hc as [E | [E | [E | [E | E]]]]; rewrite E; discriminate. }
  unfold calculate_accuracy.
  destruct (0 <? total_fields _); simpl; repeat split; try assumption; lia.
Qed.

(** ** Comparing a tree with itself *)

Lemma values_match_refl (v : value) : _values_match v v = true.
Proof.
  unfold _values_match. destruct (Py.eq v v) eqn:E; [reflexivity |].
  destruct v; try (unfold str_match; apply String.eqb_refl).
  simpl in E. rewrite String.eqb_refl in E. discriminate E.
Qed.

Lemma compare_self_good (f : value) (path : string) :
  good (compare_field_structure f f path).
Proof.
  unfold compare_field_structure, compare_values, good.
  destruct (none_or_empty (value_part f)); [right; reflexivity |].
  rewrite values_match_refl. left; reflexivity.
Qed.

Lemma record_details (c : comparison) (r : results) :
  field_details (_record_comparison c r) = (field_details r ++ [c])%list.
Proof. unfold _record_comparison. destruct (cmp_status c); reflexivity. Qed.

Lemma grows_refl (r : results) : grows false r r.
Proof. repeat split; auto. discriminate. Qed.

Lemma grows_trans (a b : bool) (r1 r2 r3 : results) :
  grows a r1 r2 -> grows b r2 r3 -> grows (a || b) r1 r3.
Proof.
  intros (G1 & L1 & S1) (G2 & L2 & S2). repeat split; auto; try lia.
  intros H. apply orb_true_iff in H. destruct H as [H | H];
    [specialize (S1 H) | specialize (S2 H)]; lia.
Qed.

Lemma grows_record (c : comparison) (r : results) :
  good c -> grows true r (_record_comparison c r).
Proof.
  intros Hc. unfold grows. rewrite record_details, length_app. simpl.
  repeat split; try lia.
  intros H. apply Forall_app. split; [exact H | constructor; [exact Hc | constructor]].
Qed.

Lemma lookup_distinct (d : list (string * value)) (k : string) (v : value) :
  distinct_keys d = true -> In (k, v) d -> Py.lookup k d = Some v.
Proof.
  induction d as [| [k0 v0] d IH]; simpl; [intros _ [] |].
  intros Hd [E | Hin].
  - injection E as -> ->. rewrite String.eqb_refl. reflexivity.
  - apply andb_true_iff in Hd. destruct Hd as [Hk Hd].
    specialize (IH Hd Hin).
    destruct (String.eqb k k0) eqn:E; [| exact IH].
    apply String.eqb_eq in E. subst k0.
    unfold Py.has_key in Hk. rewrite IH in Hk. discriminate Hk.
Qed.

Lemma well_formed_dict (d : list (string * value)) :
  well_formed (VDict d) = distinct_keys d && well_formed_entries d.
Proof. reflexivity. Qed.

Lemma reaches_leaf_dict (d : list (string * value)) :
  reaches_leaf (VDict d) = reaches_entries d.
Proof. reflexivity. Qed.

Lemma each_key_self (ed entries : list (string * value)) :
  Forall (fun kv => self_grows (snd kv)) entries ->
  (forall k v, In (k, v) entries -> Py.lookup k ed = Some v) ->
  well_formed_entries entries = true ->
  forall path r, grows (reaches_entries entries) r (each_key ed path entries r).
Proof.
  induction 1 as [| [key gv] rest Hgv _ IH]; intros Hlook Hwf path r.
  - apply grows_refl.
  - simpl in Hwf. apply andb_true_iff in Hwf. destruct Hwf as [Hwf1 Hwf2].
    assert (Hrest : forall p r', grows (reaches_entries rest) r'
                                   (each_key ed p rest r')).
    { apply IH; [| exact Hwf2]. intros k v Hin. apply Hlook. right. exact Hin. }
    assert (Hget : forall dflt, Py.get_or ed key dflt = gv).
    { intros dflt. unfold Py.get_or. rewrite (Hlook key gv (or_introl eq_refl)).
      reflexivity. }
    simpl in Hgv. specialize (Hgv Hwf1).
    cbn [each_key reaches_entries]. unfold entry_reaches.
    destruct (is_skipped key); cbn [negb andb orb]; [apply Hrest |].
    destruct gv as [| b | n | x | s | l | d]; try apply Hrest.
    + rewrite Hget. eapply grows_trans; [apply Hgv | apply Hrest].
    + destruct (Py.has_key "value" d) eqn:Hv; rewrite Hget.
      * cbn [orb]. change true with (true || reaches_entries rest) at 1.
        eapply grows_trans; [apply grows_record, compare_self_good | apply Hrest].
      * cbn [orb]. eapply grows_trans; [apply Hgv | apply Hrest].
Qed.

Lemma each_item_self (items : list value) :
  Forall self_grows items ->
  forallb well_formed items = true ->
  forall pre path r,
    grows (existsb reaches_leaf items) r
      (each_item (pre ++ items)%list path items (List.length pre) r).
Proof.
  induction 1 as [| g rest Hg _ IH]; intros Hwf pre path r.
  - apply grows_refl.
  - simpl in Hwf. apply andb_true_iff in Hwf. destruct Hwf as [Hwf1 Hwf2].
    cbn [each_item existsb]. rewrite nth_middle.
    eapply grows_trans; [apply Hg; exact Hwf1 |].
    replace (pre ++ g :: rest)%list with ((pre ++ [g]) ++ rest)%list
      by (rewrite <- app_assoc; reflexivity).
    replace (S (List.length pre)) with (List.length (pre ++ [g])%list)
      by (rewrite length_app; simpl; lia).
    apply IH. exact Hwf2.
Qed.

Lemma traverse_self (x : value) : self_grows x.
Proof.
  induction x as [| b | n | f | s | l IH | d IH] using value_ind;
    intros Hwf path r; try apply grows_refl.
  - rewrite traverse_list. cbn [reaches_leaf].
    apply (each_item_self l IH Hwf []).
  - rewrite traverse_dict, reaches_leaf_dict.
    rewrite well_formed_dict in Hwf. apply andb_true_iff in Hwf.
    destruct Hwf as [Hd Hwf].
    apply each_key_self; [exact IH | | exact Hwf].
    intros k v Hin. apply lookup_distinct; assumption.
Qed.

Lemma good_count (l : list comparison) :
  Forall good l -> count_bucket InCorrect l = Z.of_nat (List.length l).
Proof.
  induction 1 as [| c l Hc _ IH]; [reflexivity |].
  rewrite count_bucket_cons, IH. unfold in_bucket.
  replace (Z.of_nat (List.length (c :: l))) with (1 + Z.of_nat (List.length l))
    by (simpl List.length; lia).
  destruct Hc as [E | E]; rewrite E; reflexivity.
Qed.

Lemma div_Z_self (n : Z) : 0 < n -> F64.div_Z n n = F64.c1.
Proof.
  intros Hn. unfold F64.div_Z, F64.round.
  replace (n <? 0) with false by (symmetry; apply Z.ltb_ge; lia).
  rewrite Z.abs_eq by lia.
  replace (n <=? 0) with false by (symmetry; apply Z.leb_gt; lia).
  rewrite Z.sub_diag. cbn [Z.leb Z.compare Z.opp].
  replace (n * 2 ^ 0) with n by (rewrite Z.pow_0_r; lia).
  rewrite Z.leb_refl.
  change (Z.max (0 - 52) F64.emin) with (-52).
  change (-52 <? 0) with true. cbn iota.
  change (- -52) with 52.
  replace (n * 2 ^ 52 / n) with (2 ^ 52)
    by (rewrite Z.mul_comm; symmetry; apply Z.div_mul; lia).
  replace ((n * 2 ^ 52) mod n) with 0
    by (rewrite Z.mul_comm; symmetry; apply Z.mod_mul; lia).
  replace (n <? 2 * 0) with false by (symmetry; apply Z.ltb_ge; lia).
  replace (n =? 2 * 0) with false by (symmetry; apply Z.eqb_neq; lia).
  reflexivity.
Qed.

(** C5, as the code has it: comparing a well-formed tree with itself
    records no [incorrect] and no [missing] comparison, and the accuracy is
    [100.0] when the traversal meets at least one leaf field. *)
Theorem self_comparison_perfect (X : value) :
  well_formed X = true ->
  Forall (fun c => cmp_status c <> incorrect /\ cmp_status c <> missing)
    (field_details (calculate_accuracy X X)) /\
  (reaches_leaf X = true ->
   accuracy_percentage (calculate_accuracy X X) = F64.c100).
Proof.
  intros Hwf.
  pose (r := traverse_and_compare X X "root" empty_results).
  destruct (traverse_self X Hwf "root" empty_results) as (Hgood & _ & Hstrict).
  fold r in Hgood, Hstrict. specialize (Hgood (Forall_nil _)).
  destruct (traverse_tallied X X "root" empty_results tallied_empty)
    as (Ht & Hk & _). fold r in Ht, Hk.
  rewrite (good_count _ Hgood) in Hk.
  assert (Hdetails : Forall (fun c => cmp_status c <> incorrect /\ cmp_status c <> missing)
                       (field_details r)).
  { eapply Forall_impl; [| exact Hgood]. intros c [E | E]; rewrite E;
      split; discriminate. }
  unfold calculate_accuracy. fold r.
  destruct (0 <? total_fields r) eqn:Hpos; simpl.
  - split; [exact Hdetails |]. intros _.
    apply Z.ltb_lt in Hpos. rewrite Hk, <- Ht, (div_Z_self _ Hpos).
    vm_compute. reflexivity.
  - split; [exact Hdetails |]. intros Hreach. specialize (Hstrict Hreach).
    apply Z.ltb_ge in Hpos. simpl in Hstrict. lia.
Qed.

Lemma self_comparison_perfect_witness :
  well_formed payroll_sample = true /\
  reaches_leaf payroll_sample = true /\
  accuracy_percentage (calculate_accuracy payroll_sample payroll_sample) = F64.c100.
Proof.
  split; [reflexivity | split; [reflexivity |]].
  exact (proj2 (self_comparison_perfect payroll_sample eq_refl) eq_refl).
Defined.

(** C5 as the specification words it fails: a sequence of leaf fields is a
    well-formed tree with a leaf field, yet comparing it with itself records
    nothing and leaves the accuracy at [0.0]. *)
Lemma self_comparison_counterexample :
  well_formed leaf_in_sequence = true /\
  contains_leaf_field leaf_in_sequence = true /\
  total_fields (calculate_accuracy leaf_in_sequence leaf_in_sequence) = 0 /\
  accuracy_percentage (calculate_accuracy leaf_in_sequence leaf_in_sequence)
  = F64.zero false /\
  accuracy_percentage (calculate_accuracy leaf_in_sequence leaf_in_sequence)
  <> F64.c100.
Proof. vm_compute. repeat split; discriminate. Qed.

(** ** Substrings *)

Lemma prefix_iff (n h : string) :
  prefix n h = true <-> exists post, h = n ++ post.
Proof.
  revert h. induction n as [| a n IH]; intros h.
  - split; [intros _; exists h; reflexivity | intros _; destruct h; reflexivity].
  - destruct h as [| b h]; simpl;
      [split; [discriminate | intros (post & E); discriminate E] |].
    destruct (ascii_dec a b) as [-> | Hab].
    + rewrite IH. split; intros (post & E); exists post.
      * rewrite E. reflexivity.
      * injection E as E. exact E.
    + split; [discriminate |]. intros (post & E). injection E as E1 _.
      exfalso. apply Hab. symmetry. exact E1.
Qed.

Lemma contains_unfold (n h : string) :
  Str.contains n h
  = if prefix n h then true
    else match h with
         | EmptyString => false
         | String _ r => Str.contains n r
         end.
Proof. destruct h; reflexivity. Qed.

(** [Str.contains] is the substring test. *)
Lemma contains_iff (n h : string) :
  Str.contains n h = true <-> exists pre post, h = pre ++ n ++ post.
Proof.
  split.
  - induction h as [| c h IH]; rewrite contains_unfold;
      destruct (prefix n _) eqn:P.
    + intros _. apply prefix_iff in P. destruct P as (post & E).
      exists EmptyString, post. exact E.
    + discriminate.
    + intros _. apply prefix_iff in P. destruct P as (post & E).
      exists EmptyString, post. exact E.
    + intros H. destruct (IH H) as (pre & post & E).
      exists (String c pre), post. rewrite E. reflexivity.
  - intros (pre & post & E). subst h. induction pre as [| c pre IH].
    + rewrite contains_unfold.
      replace (prefix n (EmptyString ++ n ++ post)) with true; [reflexivity |].
      symmetry. apply prefix_iff. exists post. reflexivity.
    + rewrite contains_unfold. simpl append.
      destruct (prefix n (String c (pre ++ n ++ post))); [reflexivity | exact IH].
Qed.


(** ** The text of a float has no letter [c] *)

Lemma all_chars_app (P : ascii -> Prop) (a b : string) :
  all_chars P (a ++ b) <-> all_chars P a /\ all_chars P b.
Proof. induction a as [| c a IH]; simpl; [tauto | rewrite IH; tauto]. Qed.

Lemma all_chars_rev_acc (P : ascii -> Prop) (s acc : string) :
  all_chars P s -> all_chars P acc -> all_chars P (Str.rev_acc s acc).
Proof.
  revert acc. induction s as [| c s IH]; simpl; intros acc Hs Hacc; [exact Hacc |].
  apply IH; [tauto | simpl; tauto].
Qed.

Lemma all_chars_rev (P : ascii -> Prop) (s : string) :
  all_chars P s -> all_chars P (Str.rev s).
Proof. intros H. apply all_chars_rev_acc; [exact H | exact I]. Qed.

Lemma all_chars_strip_zeros (P : ascii -> Prop) (s : string) :
  all_chars P s -> all_chars P (PyFloat.strip_zeros_rev s).
Proof.
  induction s as [| c s IH]; simpl; [tauto |]. intros [Hc Hs].
  destruct (ascii_dec c "0") as [-> | Hne]; [apply IH; exact Hs |].
  replace (match c with
           | "0"%char => PyFloat.strip_zeros_rev s
           | _ => String c s
           end) with (String c s); [simpl; tauto |].
  destruct c as [[] [] [] [] [] [] [] []]; try reflexivity. exfalso. apply Hne. reflexivity.
Qed.

Lemma all_chars_substring (P : ascii -> Prop) (s : string) :
  all_chars P s -> forall n m, all_chars P (substring n m s).
Proof.
  induction s as [| c s IH]; intros H n m.
  - destruct n, m; exact I.
  - destruct H as [Hc Hs]. destruct n, m; simpl; auto.
Qed.

Lemma all_chars_repeat (P : ascii -> Prop) (c : ascii) (n : nat) :
  P c -> all_chars P (Str.repeat_char c n).
Proof. intros H. induction n; simpl; auto. Qed.

Lemma digit_char_not_c (d : Z) : 0 <= d < 10 -> not_c (Str.digit_char d).
Proof.
  intros H.
  assert (E : d = 0 \/ d = 1 \/ d = 2 \/ d = 3 \/ d = 4 \/ d = 5 \/ d = 6 \/ d = 7
              \/ d = 8 \/ d = 9) by lia.
  unfold not_c.
  repeat (destruct E as [-> | E]; [vm_compute; discriminate |]).
  subst d. vm_compute. discriminate.
Qed.

Lemma digits_fuel_not_c (fuel : nat) :
  forall n acc, all_chars not_c acc -> all_chars not_c (Str.digits_fuel fuel n acc).
Proof.
  induction fuel as [| k IH]; intros n acc Hacc; simpl; [exact Hacc |].
  assert (Hd : all_chars not_c (String (Str.digit_char (n mod 10)) acc)).
  { simpl. split; [| exact Hacc]. apply digit_char_not_c. apply Z.mod_pos_bound. lia. }
  destruct (n <? 10); [exact Hd | apply IH; exact Hd].
Qed.

Lemma of_N_not_c (n : Z) : all_chars not_c (Str.of_N n).
Proof. apply digits_fuel_not_c. exact I. Qed.

Lemma pad2_not_c (s : string) : all_chars not_c s -> all_chars not_c (PyFloat.pad2 s).
Proof.
  intros H. destruct s as [| c [| c' s]]; simpl; try exact H.
  split; [discriminate | exact H].
Qed.

Lemma shortest_not_c (m e : Z) : all_chars not_c (fst (PyFloat.shortest m e)).
Proof.
  unfold PyFloat.shortest.
  destruct (PyFloat.search _ _ _ _ _ _ _ _) as [c p]. cbn [fst].
  apply all_chars_rev, all_chars_strip_zeros, all_chars_rev, of_N_not_c.
Qed.

Lemma format_digits_not_c (ds : string) (decpt : Z) :
  all_chars not_c ds -> all_chars not_c (PyFloat.format_digits ds decpt).
Proof.
  intros H. unfold PyFloat.format_digits.
  destruct ((decpt <=? -4) || (16 <? decpt)).
  - apply all_chars_app. split.
    + destruct ds as [| c [| c' r]]; try exact H. simpl in *.
      split; [tauto |]. split; [discriminate | tauto].
    + apply all_chars_app. split; [simpl; split; [discriminate | exact I] |].
      apply all_chars_app. split.
      * destruct (decpt - 1 <? 0); simpl; split; try exact I; discriminate.
      * apply pad2_not_c, of_N_not_c.
  - destruct (decpt <=? 0).
    + apply all_chars_app. split;
        [simpl; split; [discriminate | split; [discriminate | exact I]] |].
      apply all_chars_app. split; [apply all_chars_repeat; discriminate | exact H].
    + destruct (Z.of_nat (String.length ds) <=? decpt).
      * apply all_chars_app. split; [exact H |]. apply all_chars_app.
        split; [apply all_chars_repeat; discriminate |].
        simpl. split; [discriminate | split; [discriminate | exact I]].
      * apply all_chars_app. split; [apply all_chars_substring; exact H |].
        apply all_chars_app. split; [simpl; split; [discriminate | exact I] |].
        apply all_chars_substring; exact H.
Qed.

Lemma repr_not_c (x : F64.float) : all_chars not_c (PyFloat.repr x).
Proof.
  destruct x as [| s | s m e]; unfold PyFloat.repr.
  - simpl. repeat split; discriminate.
  - destruct s; simpl; repeat split; discriminate.
  - apply all_chars_app. split.
    + destruct s; simpl; [split; [discriminate | exact I] | exact I].
    + destruct (m =? 0); [simpl; repeat split; discriminate |].
      pose proof (shortest_not_c m e) as H.
      destruct (PyFloat.shortest m e) as [ds decpt]. cbn [fst] in H.
      apply format_digits_not_c. exact H.
Qed.

(** A text without the letter [c] does not contain 'accounting equation'. *)
Lemma not_c_never_mentions (s : string) :
  all_chars not_c s -> mentions_equation s = false.
Proof.
  unfold mentions_equation.
  induction s as [| x s IH]; intros H; [reflexivity |].
  rewrite contains_unfold. destruct H as [Hx Hs]. rewrite (IH Hs).
  replace (prefix "accounting equation" (String x s)) with false; [reflexivity |].
  symmetry. cbn [prefix]. destruct (ascii_dec "a" x); [| reflexivity].
  destruct s as [| y s]; [reflexivity |]. cbn [prefix].
  destruct (ascii_dec "c" y) as [<- | _]; [| reflexivity].
  exfalso. destruct Hs as [Hy _]. apply Hy. reflexivity.
Qed.

(** The error of check 1 never contains 'accounting equation'. *)
Lemma equation_error_never_mentioned (assets liab equity : F64.float) :
  mentions_equation (equation_error assets liab equity) = false.
Proof.
  unfold equation_error, mentions_equation.
  set (rest := (PyFloat.repr assets ++ ") ≠ " ++ "Liabilities (" ++ PyFloat.repr liab
                ++ ") + Equity (" ++ PyFloat.repr equity ++ ")")).
  assert (Hrest : all_chars not_c rest).
  { unfold rest. repeat (apply all_chars_app; split);
      try apply repr_not_c; simpl; repeat split; discriminate. }
  change ("Accounting equation failed: Assets (" ++ rest)
    with (String "A" (String "c" (String "c" ("ounting equation failed: Assets (" ++ rest)))).
  assert (Htail : all_chars not_c ("ounting equation failed: Assets (" ++ rest)).
  { apply all_chars_app. split; [simpl; repeat split; discriminate | exact Hrest]. }
  rewrite contains_unfold. cbn [prefix]. 
  destruct (ascii_dec "a" "A") as [E | _]; [discriminate E |].
  rewrite contains_unfold. cbn [prefix].
  destruct (ascii_dec "a" "c") as [E | _]; [discriminate E |].
  rewrite contains_unfold. cbn [prefix].
  destruct (ascii_dec "a" "c") as [E | _]; [discriminate E |].
  apply not_c_never_mentions. exact Htail.
Qed.

(* ================================================================== *)
(** * Properties of [FinancialValidator] *)
(* ================================================================== *)

(** The message of check 1 for 1000, 600 and 398. *)
Lemma equation_error_398 :
  equation_error (f_of 1000) (f_of 600) (f_of 398)
  = "Accounting equation failed: Assets (1000.0) ≠ Liabilities (600.0) + Equity (398.0)".
Proof. vm_compute. reflexivity. Qed.

(** C1, where the code departs from it.  The result looks for
    'accounting equation' among the errors, and the error of check 1, which
    starts with a capital letter, never contains it.  With assets 1000
    against 600 + 398 check 1 appends its error, the status is [FAIL], and
    [accounting_equation_valid] is still [true]. *)
Theorem equation_flag_after_failed_equation :
  (forall assets liab equity,
      mentions_equation (equation_error assets liab equity) = false) /\
  exists r,
    validate_mapped_data (equation_schema "398") = Ok r /\
    result_errors r = [equation_error (f_of 1000) (f_of 600) (f_of 398)] /\
    result_status r = FAIL /\
    accounting_equation_valid r = true.
Proof.
  split; [exact equation_error_never_mentioned |].
  eexists. vm_compute. repeat split.
Qed.

(** C2, at the input where the code departs from it: a component of
    [CurrentAssets] whose [years] mapping is empty has no representative
    value, [sum] meets [None], and the [TypeError] leaves
    [validate_mapped_data]. *)
Theorem validation_raises_on_unpopulated_component :
  well_formed unpopulated_component_schema = true /\
  validate_mapped_data unpopulated_component_schema
  = Raise (TypeError "unsupported operand type(s) for +: 'int' and 'NoneType'").
Proof. vm_compute. split; reflexivity. Qed.

Lemma get_present (d : list (string * value)) (k : string) (v dflt : value) :
  Py.lookup k d = Some v -> Py.get (VDict d) k dflt = Ok v.
Proof. intros H. unfold Py.get, Py.get_or. rewrite H. reflexivity. Qed.

Lemma get_years (field years dflt : value) :
  has_years field years -> Py.get field "years" dflt = Ok years.
Proof. intros (f & -> & H). apply get_present. exact H. Qed.

(** Check 1 on a schema with the three totals of the scenario. *)
Lemma equation_body_scenario (d : list (string * value)) (assets liab equity : string)
  (st : vstate) :
  equation_scenario d assets liab equity ->
  equation_body (VDict d) st
  = (assets_total <- _extract_numeric_value (year_2020 assets) ;;
     liab_total <- _extract_numeric_value (year_2020 liab) ;;
     equity_total <- _extract_numeric_value (year_2020 equity) ;;
     match assets_total, liab_total, equity_total with
     | Some a, Some l, Some e =>
         if F64.gtb (F64.abs (F64.sub a (F64.add l e))) F64.c1 then
           Ok (add_error (equation_error a l e) st)
         else Ok st
     | _, _, _ =>
         Ok (add_warning "Cannot validate accounting equation - missing total values"
               st)
     end).
Proof.
  intros (a & l & e & t & Ha & Hay & Hl & Hly & He & Ht & Hty).
  unfold equation_body.
  rewrite (get_present _ _ _ _ Ha). cbn [bind]. rewrite (get_years _ _ _ Hay). cbn [bind].
  destruct (_extract_numeric_value (year_2020 assets)) as [at_ |]; [| reflexivity].
  cbn [bind].
  rewrite (get_present _ _ _ _ Hl). cbn [bind]. rewrite (get_years _ _ _ Hly). cbn [bind].
  destruct (_extract_numeric_value (year_2020 liab)) as [lt_ |]; [| reflexivity].
  cbn [bind].
  rewrite (get_present _ _ _ _ He). cbn [bind].
  rewrite (get_present _ _ _ _ Ht). cbn [bind]. rewrite (get_years _ _ _ Hty). cbn [bind].
  reflexivity.
Qed.

(** C3, as the code has it.  With total assets 1000 and total liabilities
    600, a total equity of 400 or of 399 leaves check 1 silent (a
    difference of 1 is within the tolerance), and 398 makes it append
    exactly the error naming 1000.0, 600.0 and 398.0; on the schema with
    only these totals the first two validations pass without errors and
    the third fails with that single error. *)
Theorem accounting_equation_scenario :
  (forall d st, equation_scenario d "1000" "600" "400" ->
                _validate_accounting_equation (VDict d) st = st) /\
  (forall d st, equation_scenario d "1000" "600" "399" ->
                _validate_accounting_equation (VDict d) st = st) /\
  (forall d st, equation_scenario d "1000" "600" "398" ->
                _validate_accounting_equation (VDict d) st
                = add_error
                    "Accounting equation failed: Assets (1000.0) ≠ Liabilities (600.0) + Equity (398.0)"
                    st) /\
  validate_mapped_data (equation_schema "400") = Ok (mkValidation true 0 0 [] [] PASS) /\
  validate_mapped_data (equation_schema "399") = Ok (mkValidation true 0 0 [] [] PASS) /\
  (exists flag,
      validate_mapped_data (equation_schema "398")
      = Ok (mkValidation flag 1 0
              ["Accounting equation failed: Assets (1000.0) ≠ Liabilities (600.0) + Equity (398.0)"]
              [] FAIL)).
Proof.
  split; [| split; [| split; [| split; [| split]]]].
  - intros d st H. unfold _validate_accounting_equation.
    rewrite (equation_body_scenario _ _ _ _ _ H). vm_compute. reflexivity.
  - intros d st H. unfold _validate_accounting_equation.
    rewrite (equation_body_scenario _ _ _ _ _ H). vm_compute. reflexivity.
  - intros d st H. unfold _validate_accounting_equation.
    rewrite (equation_body_scenario _ _ _ _ _ H). vm_compute. reflexivity.
  - vm_compute. reflexivity.
  - vm_compute. reflexivity.
  - eexists. vm_compute. reflexivity.
Qed.

Lemma accounting_equation_scenario_witness :
  equation_scenario (equation_entries "398") "1000" "600" "398" /\
  _validate_accounting_equation (VDict (equation_entries "398")) (mkState [] [])
  = add_error
      "Accounting equation failed: Assets (1000.0) ≠ Liabilities (600.0) + Equity (398.0)"
      (mkState [] []).
Proof.
  assert (H : equation_scenario (equation_entries "398") "1000" "600" "398").
  { exists (field_2020 "1000"), (field_2020 "600"),
      [("description", VStr "Owner's equity"); ("TotalEquity", field_2020 "398")],
      (field_2020 "398").
    repeat split; try reflexivity; eexists; split; reflexivity. }
  split; [exact H |].
  exact (proj1 (proj2 (proj2 accounting_equation_scenario)) _ (mkState [] []) H).
Defined.

(** C3 as the specification words it fails: with a total equity of 399 the
    validation reports no error and passes. *)
Lemma accounting_equation_counterexample :
  exists r,
    validate_mapped_data (equation_schema "399") = Ok r /\
    result_errors r = [] /\ total_errors r = 0 /\ result_status r = PASS /\
    F64.gtb (F64.abs (F64.sub (f_of 1000) (F64.add (f_of 600) (f_of 399)))) F64.c1
    = false.
Proof. eexists. vm_compute. repeat split. Qed.

(** ** Subtotal consistency (check 3) *)

Lemma state_eta (st : vstate) :
  st = mkState (errors st) (warnings st ++ [])%list.
Proof. destruct st. simpl. rewrite app_nil_r. reflexivity. Qed.

Lemma validate_subtotals_operands (md : value) (st : vstate)
  (total : option F64.float) (cs : PyOps.num) :
  subtotal_operands md = Ok (Some (total, cs)) ->
  _validate_subtotals md st
  = Ok (mkState (errors st)
          (warnings st ++
           (if subtotal_differs total cs then [subtotal_warning total cs] else []))%list).
Proof.
  intros H. unfold _validate_subtotals. rewrite H. cbn [bind].
  destruct (subtotal_differs total cs); [reflexivity |].
  f_equal. apply state_eta.
Qed.

Lemma subtotal_differs_iff (t : F64.float) (cs : PyOps.num) :
  subtotal_differs (Some t) cs = true <->
  F64.truthy t = true /\ PyOps.num_truthy cs = true /\
  F64.gtb (F64.abs (F64.sub t (num_to_float cs)))
          (F64.mul (num_to_float cs) F64.c0_01) = true.
Proof.
  unfold subtotal_differs. rewrite !andb_true_iff. tauto.
Qed.

Lemma positive_sum_truthy (cs : PyOps.num) :
  positive_sum cs = true -> PyOps.num_truthy cs = true.
Proof.
  destruct cs as [n | x]; cbn [positive_sum PyOps.num_truthy].
  - intros H. apply Z.ltb_lt in H. apply negb_true_iff, Z.eqb_neq. lia.
  - destruct x as [| s | s m e]; cbn [F64.ltb F64.truthy F64.zero]; try discriminate;
      try reflexivity.
    unfold F64.scaled. intros H. apply Z.ltb_lt in H.
    apply negb_true_iff, Z.eqb_neq. intros ->. destruct s; simpl in H; lia.
Qed.

(** C8, amended.  When the total and the component sum of
    [CurrentAssets] are available, check 3 adds no error and at most one
    warning; when the component sum is positive, it adds the warning
    exactly when the total has a non-zero representative value that
    differs from the component sum by more than 1% of it; with components
    summing to 1000, totals of 1010 and 1005 give no warning and a total
    of 1012 gives exactly one. *)
Theorem subtotal_warning_rule :
  (forall md st total cs,
      subtotal_operands md = Ok (Some (total, cs)) ->
      exists w,
        _validate_subtotals md st = Ok (mkState (errors st) (warnings st ++ w)%list) /\
        (w = [subtotal_warning total cs] \/ w = []) /\
        (positive_sum cs = true ->
         (w = [subtotal_warning total cs] <->
          exists t, total = Some t /\
                    F64.truthy t = true /\
                    F64.gtb (F64.abs (F64.sub t (num_to_float cs)))
                            (F64.mul (num_to_float cs) F64.c0_01) = true))) /\
  (forall st, _validate_subtotals (current_assets_schema "1010") st = Ok st) /\
  (forall st, _validate_subtotals (current_assets_schema "1012") st
              = Ok (add_warning
                      "CurrentAssets total (1012.0) differs from sum of components (1000.0)"
                      st)) /\
  (forall st, _validate_subtotals (current_assets_schema "1005") st = Ok st).
Proof.
  split; [| split; [| split]]; [| intros st; vm_compute; reflexivity ..].
  intros md st total cs H.
  exists (if subtotal_differs total cs then [subtotal_warning total cs] else []).
  split; [apply validate_subtotals_operands; exact H |].
  destruct total as [t |].
  - destruct (subtotal_differs (Some t) cs) eqn:D.
    + split; [left; reflexivity |]. intros _. split; [| reflexivity].
      intros _. exists t. split; [reflexivity |].
      apply subtotal_differs_iff in D. tauto.
    + split; [right; reflexivity |]. intros Hpos. split; [discriminate |].
      intros (t' & E & Ht & Hg). injection E as <-.
      assert (D' : subtotal_differs (Some t) cs = true).
      { apply subtotal_differs_iff. split; [exact Ht |].
        split; [apply positive_sum_truthy; exact Hpos | exact Hg]. }
      rewrite D' in D. discriminate D.
  - simpl. split; [right; reflexivity |]. intros _. split; [discriminate |].
    intros (t & E & _). discriminate E.
Qed.

Lemma subtotal_warning_rule_witness :
  subtotal_operands (current_assets_schema "1012")
  = Ok (Some (Some (f_of 1012), PyOps.NFloat (f_of 1000))) /\
  positive_sum (PyOps.NFloat (f_of 1000)) = true /\
  exists w,
    _validate_subtotals (current_assets_schema "1012") (mkState [] [])
    = Ok (mkState [] w) /\
    (w = [subtotal_warning (Some (f_of 1012)) (PyOps.NFloat (f_of 1000))] \/ w = []) /\
    (w = [subtotal_warning (Some (f_of 1012)) (PyOps.NFloat (f_of 1000))] <->
     exists t, Some (f_of 1012) = Some t /\
               F64.truthy t = true /\
               F64.gtb (F64.abs (F64.sub t (f_of 1000)))
                       (F64.mul (f_of 1000) F64.c0_01) = true).
Proof.
  assert (H : subtotal_operands (current_assets_schema "1012")
              = Ok (Some (Some (f_of 1012), PyOps.NFloat (f_of 1000))))
    by (vm_compute; reflexivity).
  split; [exact H |]. split; [reflexivity |].
  destruct (proj1 subtotal_warning_rule _ (mkState [] []) _ _ H)
    as (w & Hw & Hcase & Hiff).
  exists w. split; [exact Hw |]. split; [exact Hcase |]. exact (Hiff eq_refl).
Defined.

(** C8 as the specification words it fails: a total of 0 against
    components summing to 1000 differs by more than 1% of the sum, and
    check 3 gives no warning. *)
Lemma subtotal_counterexample :
  subtotal_operands (current_assets_schema "0")
  = Ok (Some (Some (f_of 0), PyOps.NFloat (f_of 1000))) /\
  F64.gtb (F64.abs (F64.sub (f_of 0) (f_of 1000))) (F64.mul (f_of 1000) F64.c0_01)
  = true /\
  _validate_subtotals (current_assets_schema "0") (mkState [] []) = Ok (mkState [] []).
Proof. vm_compute. repeat split. Qed.

(** C10: when the total is zero, or the component sum is zero, check 3
    gives no warning, however far apart the two numbers are. *)
Theorem subtotal_zero_guard (md : value) (st : vstate)
  (total : option F64.float) (cs : PyOps.num) :
  subtotal_operands md = Ok (Some (total, cs)) ->
  (exists s, total = Some (F64.zero s)) \/
  cs = PyOps.NInt 0 \/ (exists s, cs = PyOps.NFloat (F64.zero s)) ->
  _validate_subtotals md st = Ok st.
Proof.
  intros H Hzero. unfold _validate_subtotals. rewrite H. cbn [bind].
  replace (subtotal_differs total cs) with false; [reflexivity |].
  symmetry. destruct Hzero as [(s & ->) | [-> | (s & ->)]].
  - reflexivity.
  - destruct total as [t |]; [| reflexivity]. simpl.
    rewrite andb_false_r. reflexivity.
  - destruct total as [t |]; [| reflexivity]. simpl.
    rewrite andb_false_r. reflexivity.
Qed.

Lemma subtotal_zero_guard_witness :
  subtotal_operands (current_assets_schema "0")
  = Ok (Some (Some (F64.zero false), PyOps.NFloat (f_of 1000))) /\
  _validate_subtotals (current_assets_schema "0") (mkState [] []) = Ok (mkState [] []).
Proof.
  assert (H : subtotal_operands (current_assets_schema "0")
              = Ok (Some (Some (F64.zero false), PyOps.NFloat (f_of 1000))))
    by (vm_compute; reflexivity).
  split; [exact H |].
  exact (subtotal_zero_guard _ (mkState [] []) _ _ H
           (or_introl (ex_intro _ false eq_refl))).
Defined.

(** ** Unmapped items (check 5) *)

(** A label is critical when it contains one of the four keywords. *)
Lemma is_critical_iff (label : string) :
  is_critical label = true <->
  exists keyword,
    In keyword ["total"; "assets"; "liabilities"; "equity"] /\
    exists pre post, label = pre ++ keyword ++ post.
Proof.
  unfold is_critical. rewrite existsb_exists.
  split; intros (k & Hin & H); exists k; (split; [exact Hin |]);
    apply contains_iff; exact H.
Qed.

Lemma unmapped_item_labelled (item : value) (l : string) (st : vstate) :
  label_of item = Some l ->
  unmapped_item item st
  = Ok (mkState (errors st)
          (warnings st ++
           (if is_critical (Str.lower l) then [unmapped_warning (VStr l)] else []))%list).
Proof.
  destruct item as [| | | | | | d]; try discriminate. unfold label_of, unmapped_item.
  unfold Py.get, Py.get_or.
  destruct (Py.lookup "label_raw" d) as [v |] eqn:E.
  - destruct v; try discriminate. intros H. injection H as ->. cbn [bind PyOps.lower].
    destruct (is_critical (Str.lower l)); [reflexivity |]. f_equal. apply state_eta.
  - intros H. injection H as <-. cbn [bind PyOps.lower].
    change (is_critical (Str.lower EmptyString)) with false. cbn iota.
    f_equal. apply state_eta.
Qed.

Lemma unmapped_items_loop (items : list value) :
  Forall (fun item => label_of item <> None) items ->
  forall st,
    PyOps.foldM unmapped_item items st
    = Ok (mkState (errors st) (warnings st ++ keyword_warnings items)%list).
Proof.
  induction 1 as [| item rest Hitem _ IH]; intros st.
  - simpl. f_equal. apply state_eta.
  - destruct (label_of item) as [l |] eqn:E; [| contradiction].
    cbn [PyOps.foldM]. rewrite (unmapped_item_labelled _ _ _ E). cbn [bind].
    rewrite IH. cbn [errors warnings]. unfold keyword_warnings at 2.
    cbn [List.flat_map]. rewrite E. rewrite <- app_assoc. reflexivity.
Qed.

(** C9: on unmapped items that are mappings whose raw label, when present,
    is a string, check 5 adds no error; it adds the coverage warning when
    there are more than 10 items and, independently, one warning for every
    item whose label contains, ignoring case, one of 'total', 'assets',
    'liabilities', 'equity'.  "Total Reserves" is reported with its label,
    "Miscellaneous Note 12" is not. *)
Theorem unmapped_items_triage :
  (forall d u items st,
      Py.lookup "unmapped_items" d = Some (VDict u) ->
      Py.lookup "items" u = Some (VList items) ->
      Forall (fun item => label_of item <> None) items ->
      _validate_unmapped_items (VDict d) st
      = Ok (mkState (errors st)
              (warnings st ++ count_warning items ++ keyword_warnings items)%list)) /\
  (forall items,
      count_warning items <> [] <-> (10 < List.length items)%nat) /\
  (forall l rest,
      keyword_warnings (unmapped_item_of l :: rest)
      = ((if is_critical (Str.lower l)
          then [("Potentially important item unmapped: '" ++ l ++ "'")%string]
          else [])
         ++ keyword_warnings rest)%list) /\
  is_critical (Str.lower "Total Reserves") = true /\
  is_critical (Str.lower "Miscellaneous Note 12") = false /\
  (forall st,
      _validate_unmapped_items
        (unmapped_schema [unmapped_item_of "Total Reserves";
                          unmapped_item_of "Miscellaneous Note 12"]) st
      = Ok (add_warning "Potentially important item unmapped: 'Total Reserves'" st)).
Proof.
  split; [| split; [| split; [| split; [| split]]]].
  - intros d u items st Hu Hi Hall. unfold _validate_unmapped_items.
    rewrite (get_present _ _ _ _ Hu). cbn [bind].
    rewrite (get_present _ _ _ _ Hi). cbn [bind Py.len PyOps.iterate].
    rewrite (unmapped_items_loop _ Hall). unfold count_warning.
    destruct (10 <? Z.of_nat (List.length items)); cbn [errors warnings add_warning].
    + rewrite <- app_assoc. reflexivity.
    + reflexivity.
  - intros items. unfold count_warning.
    destruct (10 <? Z.of_nat (List.length items)) eqn:E.
    + apply Z.ltb_lt in E. split; [intros _; lia | discriminate].
    + apply Z.ltb_ge in E. split; [intros H; exfalso; apply H; reflexivity | lia].
  - intros l rest. reflexivity.
  - vm_compute. reflexivity.
  - vm_compute. reflexivity.
  - intros st. vm_compute. reflexivity.
Qed.

Lemma unmapped_items_triage_witness :
  _validate_unmapped_items
    (unmapped_schema [unmapped_item_of "Other equity instruments"]) (mkState [] [])
  = Ok (mkState []
          (count_warning [unmapped_item_of "Other equity instruments"]
           ++ keyword_warnings [unmapped_item_of "Other equity instruments"])%list).
Proof.
  refine (proj1 unmapped_items_triage
            [("unmapped_items",
              VDict [("description", VStr "Items that could not be mapped");
                     ("items", VList [unmapped_item_of "Other equity instruments"])])]
            [("description", VStr "Items that could not be mapped");
             ("items", VList [unmapped_item_of "Other equity instruments"])]
            [unmapped_item_of "Other equity instruments"]
            (mkState [] []) eq_refl eq_refl _).
  constructor; [discriminate | constructor].
Defined.

(* ================================================================== *)
(** * Further properties of [FinancialValidator] *)
(* ================================================================== *)

Ltac step_bind :=
  match goal with
  | |- context [bind ?m _] =>
      let E := fresh "E" in destruct m eqn:E; cbn [bind]; try reflexivity
  end.

Lemma equation_body_operands (mapped_data : value) (st : vstate) :
  equation_body mapped_data st
  = (ops <- equation_operands mapped_data ;;
     match ops with
     | (Some assets, Some liab, Some equity) =>
         if F64.gtb (F64.abs (F64.sub assets (F64.add liab equity))) F64.c1 then
           Ok (add_error (equation_error assets liab equity) st)
         else Ok st
     | _ =>
         Ok (add_warning "Cannot validate accounting equation - missing total values"
               st)
     end).
Proof.
  unfold equation_body, equation_operands. repeat step_bind.
Qed.

(** ** Check 1 *)

Lemma accounting_equation_cases (mapped_data : value) (st : vstate) :
  (_validate_accounting_equation mapped_data st = st /\
   exists a l e,
     equation_operands mapped_data = Ok (Some a, Some l, Some e) /\
     F64.gtb (F64.abs (F64.sub a (F64.add l e))) F64.c1 = false) \/
  (exists a l e,
      _validate_accounting_equation mapped_data st
      = add_error (equation_error a l e) st /\
      equation_operands mapped_data = Ok (Some a, Some l, Some e) /\
      F64.gtb (F64.abs (F64.sub a (F64.add l e))) F64.c1 = true) \/
  (_validate_accounting_equation mapped_data st
   = add_warning "Cannot validate accounting equation - missing total values" st /\
   exists a l e,
     equation_operands mapped_data = Ok (a, l, e) /\
     (a = None \/ l = None \/ e = None)) \/
  (exists x,
      _validate_accounting_equation mapped_data st
      = add_warning ("Error validating accounting equation: " ++ exn_message x) st /\
      equation_operands mapped_data = Raise x).
Proof.
  unfold _validate_accounting_equation. rewrite equation_body_operands.
  destruct (equation_operands mapped_data) as [[[a l] e] | x]; cbn [bind].
  - destruct a as [a |]; [destruct l as [l |]; [destruct e as [e |] |] |].
    + destruct (F64.gtb (F64.abs (F64.sub a (F64.add l e))) F64.c1) eqn:G.
      * right. left. exists a, l, e. auto.
      * left. split; [reflexivity |]. exists a, l, e. auto.
    + right. right. left. split; [reflexivity |]. exists (Some a), (Some l), None. auto.
    + right. right. left. split; [reflexivity |]. exists (Some a), None, e. auto.
    + right. right. left. split; [reflexivity |]. exists None, l, e. auto.
  - right. right. right. exists x. auto.
Qed.

Lemma equation_operands_reads (mapped_data : value) :
  equation_operands mapped_data
  = (a <- read_total mapped_data "AssetsTotal" ;;
     l <- read_total mapped_data "LiabilitiesTotal" ;;
     e <- read_equity mapped_data ;;
     Ok (a, l, e)).
Proof.
  unfold equation_operands, read_equity, read_total, read_years. repeat step_bind.
Qed.

Lemma read_total_absent (d : list (string * value)) (k : string) :
  Py.lookup k d = None -> read_total (VDict d) k = Ok None.
Proof.
  intros H. unfold read_total, Py.get, Py.get_or. rewrite H. reflexivity.
Qed.

Lemma read_equity_absent (d : list (string * value)) :
  Py.lookup "Equity" d = None \/
  (exists e, Py.lookup "Equity" d = Some (VDict e) /\ Py.lookup "TotalEquity" e = None) ->
  read_equity (VDict d) = Ok None.
Proof.
  unfold read_equity, Py.get at 1, Py.get_or. intros [H | (e & H & Ht)]; rewrite H.
  - reflexivity.
  - cbn [bind]. apply read_total_absent. exact Ht.
Qed.

(** A total that is not in the schema makes check 1 add one warning and no
    error, whatever the rest of the schema holds. *)
Theorem absent_total_gives_warning (d : list (string * value)) (st : vstate) :
  total_absent d ->
  exists w,
    _validate_accounting_equation (VDict d) st = add_warning w st /\
    errors (_validate_accounting_equation (VDict d) st) = errors st.
Proof.
  intros H.
  assert (Hops : (exists x, equation_operands (VDict d) = Raise x) \/
                 exists a l e, equation_operands (VDict d) = Ok (a, l, e) /\
                               (a = None \/ l = None \/ e = None)).
  { rewrite equation_operands_reads.
    destruct H as [H | [H | H]].
    - rewrite (read_total_absent _ _ H). cbn [bind].
      destruct (read_total (VDict d) "LiabilitiesTotal") as [l | x]; cbn [bind];
        [| left; eauto].
      destruct (read_equity (VDict d)) as [e | x]; cbn [bind]; [| left; eauto].
      right. exists None, l, e. auto.
    - rewrite (read_total_absent _ _ H).
      destruct (read_total (VDict d) "AssetsTotal") as [a | x]; cbn [bind];
        [| left; eauto].
      destruct (read_equity (VDict d)) as [e | x]; cbn [bind]; [| left; eauto].
      right. exists a, None, e. auto.
    - rewrite (read_equity_absent _ H).
      destruct (read_total (VDict d) "AssetsTotal") as [a | x]; cbn [bind];
        [| left; eauto].
      destruct (read_total (VDict d) "LiabilitiesTotal") as [l | x]; cbn [bind];
        [| left; eauto].
      right. exists a, l, None. auto. }
  unfold _validate_accounting_equation. rewrite equation_body_operands.
  destruct Hops as [(x & ->) | (a & l & e & -> & Hnone)]; cbn [bind].
  - eexists. split; reflexivity.
  - exists "Cannot validate accounting equation - missing total values".
    destruct Hnone as [-> | [-> | ->]];
      [| destruct a | destruct a; [destruct l |]]; split; reflexivity.
Qed.

Lemma absent_total_gives_warning_witness :
  total_absent [("AssetsTotal", field_2020 "1000")] /\
  exists w,
    _validate_accounting_equation (VDict [("AssetsTotal", field_2020 "1000")])
      (mkState [] [])
    = add_warning w (mkState [] []).
Proof.
  assert (H : total_absent [("AssetsTotal", field_2020 "1000")])
    by (right; left; reflexivity).
  split; [exact H |].
  destruct (absent_total_gives_warning _ (mkState [] []) H) as (w & Hw & _).
  exists w. exact Hw.
Defined.

(** ** Which check can report what *)

Lemma bind_ok {A B : Type} (m : result A) (f : A -> result B) (b : B) :
  bind m f = Ok b -> exists a, m = Ok a /\ f a = Ok b.
Proof. destruct m as [a | x]; simpl; [eauto | discriminate]. Qed.

Lemma foldM_keeps {A S T : Type} (proj : S -> T) (f : A -> S -> result S) :
  (forall a s s', f a s = Ok s' -> proj s' = proj s) ->
  forall l s s', PyOps.foldM f l s = Ok s' -> proj s' = proj s.
Proof.
  intros Hf. induction l as [| a l IH]; simpl; intros s s' H.
  - injection H as <-. reflexivity.
  - apply bind_ok in H. destruct H as (s1 & H1 & H2).
    rewrite (IH _ _ H2). apply (Hf _ _ _ H1).
Qed.

Lemma numeric_year_keeps_warnings (section field_name : string) (yv : string * value)
  (s s' : vstate) :
  numeric_year section field_name yv s = Ok s' -> warnings s' = warnings s.
Proof.
  destruct yv as [year v]. unfold numeric_year.
  destruct (none_or_empty v); [| destruct (_is_numeric v); cbn [negb]];
    intros H; injection H as <-; reflexivity.
Qed.

Lemma numeric_field_keeps_warnings (section : string) (fv : string * value)
  (s s' : vstate) :
  numeric_field section fv s = Ok s' -> warnings s' = warnings s.
Proof.
  destruct fv as [field_name field_obj]. unfold numeric_field.
  destruct field_obj; try (intros H; injection H as <-; reflexivity).
  intros H. apply bind_ok in H. destruct H as (entries & _ & H).
  apply (foldM_keeps warnings _ (numeric_year_keeps_warnings section field_name) _ _ _ H).
Qed.

Lemma numeric_values_keep_warnings (mapped_data : value) (s s' : vstate) :
  _validate_numeric_values mapped_data s = Ok s' -> warnings s' = warnings s.
Proof.
  unfold _validate_numeric_values. apply (foldM_keeps warnings). clear s s'.
  intros section s s' H. unfold numeric_section in H.
  apply bind_ok in H. destruct H as (present & _ & H).
  destruct present; cbn [negb] in H; [| injection H as <-; reflexivity].
  apply bind_ok in H. destruct H as (section_data & _ & H).
  apply bind_ok in H. destruct H as (fields & _ & H).
  apply (foldM_keeps warnings _ (numeric_field_keeps_warnings section) _ _ _ H).
Qed.

Lemma subtotals_keep_errors (mapped_data : value) (s s' : vstate) :
  _validate_subtotals mapped_data s = Ok s' -> errors s' = errors s.
Proof.
  unfold _validate_subtotals. intros H. apply bind_ok in H.
  destruct H as (ops & _ & H). destruct ops as [[total cs] |].
  - destruct (subtotal_differs total cs); injection H as <-; reflexivity.
  - injection H as <-. reflexivity.
Qed.

Lemma consistency_keeps_errors (mapped_data : value) (s s' : vstate) :
  _validate_consistency mapped_data s = Ok s' -> errors s' = errors s.
Proof.
  unfold _validate_consistency. intros H.
  apply bind_ok in H. destruct H as (metadata & _ & H).
  apply bind_ok in H. destruct H as (years & _ & H).
  apply bind_ok in H. destruct H as (nyears & _ & H).
  destruct (nyears <? 2); [injection H as <-; reflexivity |].
  revert H. apply (foldM_keeps errors). clear s s'.
  intros section s s' H. unfold consistency_section in H.
  apply bind_ok in H. destruct H as (present & _ & H).
  destruct present; cbn [negb] in H; [| injection H as <-; reflexivity].
  apply bind_ok in H. destruct H as (section_data & _ & H).
  apply bind_ok in H. destruct H as (fields & _ & H).
  revert H. apply (foldM_keeps errors). clear s s'.
  intros [field_name field_obj] s s' H. unfold consistency_field in H.
  destruct field_obj; try (injection H as <-; reflexivity).
  apply bind_ok in H. destruct H as (n & _ & H).
  destruct (n <? nyears); injection H as <-; reflexivity.
Qed.

Lemma unmapped_items_keep_errors (mapped_data : value) (s s' : vstate) :
  _validate_unmapped_items mapped_data s = Ok s' -> errors s' = errors s.
Proof.
  unfold _validate_unmapped_items. intros H.
  apply bind_ok in H. destruct H as (section & _ & H).
  apply bind_ok in H. destruct H as (unmapped & _ & H).
  apply bind_ok in H. destruct H as (n & _ & H).
  apply bind_ok in H. destruct H as (items & _ & H).
  assert (K : forall item s1 s2, unmapped_item item s1 = Ok s2 -> errors s2 = errors s1).
  { intros item s1 s2 K. unfold unmapped_item in K.
    apply bind_ok in K. destruct K as (raw & _ & K).
    apply bind_ok in K. destruct K as (label & _ & K).
    destruct (is_critical label); [| injection K as <-; reflexivity].
    apply bind_ok in K. destruct K as (raw' & _ & K). injection K as <-. reflexivity. }
  rewrite (foldM_keeps errors _ K _ _ _ H).
  destruct (10 <? n); reflexivity.
Qed.

Lemma accounting_equation_keeps_earlier (mapped_data : value) (st : vstate) :
  exists es ws,
    errors (_validate_accounting_equation mapped_data st) = (errors st ++ es)%list /\
    warnings (_validate_accounting_equation mapped_data st) = (warnings st ++ ws)%list /\
    (List.length es + List.length ws <= 1)%nat.
Proof.
  destruct (accounting_equation_cases mapped_data st)
    as [[E _] | [(a & l & e & E & _) | [[E _] | (x & E & _)]]]; rewrite E.
  - exists [], []. rewrite !app_nil_r. simpl. auto.
  - exists [equation_error a l e], []. rewrite app_nil_r. simpl. auto.
  - eexists [], [_]. rewrite app_nil_r. simpl. auto.
  - eexists [], [_]. rewrite app_nil_r. simpl. auto.
Qed.

(** Only checks 1 and 2 can report an error: the errors of a validation
    result are those left by the accounting-equation check followed by the
    numeric-value check; the subtotal, cross-year and unmapped-item checks
    add warnings only, and the numeric-value check adds no warning. *)
Theorem errors_come_from_checks_1_and_2 (mapped_data : value) (r : validation_result) :
  validate_mapped_data mapped_data = Ok r ->
  exists st2,
    _validate_numeric_values mapped_data
      (_validate_accounting_equation mapped_data (mkState [] [])) = Ok st2 /\
    result_errors r = errors st2 /\
    warnings st2
    = warnings (_validate_accounting_equation mapped_data (mkState [] [])) /\
    (List.length (warnings st2) <= 1)%nat.
Proof.
  unfold validate_mapped_data. intros H.
  apply bind_ok in H. destruct H as (st2 & H2 & H).
  apply bind_ok in H. destruct H as (st3 & H3 & H).
  apply bind_ok in H. destruct H as (st4 & H4 & H).
  apply bind_ok in H. destruct H as (st5 & H5 & H).
  injection H as <-. exists st2. split; [exact H2 |].
  cbn [compile_result result_errors].
  rewrite (unmapped_items_keep_errors _ _ _ H5), (consistency_keeps_errors _ _ _ H4),
    (subtotals_keep_errors _ _ _ H3).
  split; [reflexivity |].
  rewrite (numeric_values_keep_warnings _ _ _ H2). split; [reflexivity |].
  destruct (accounting_equation_keeps_earlier mapped_data (mkState [] []))
    as (es & ws & _ & Hw & Hlen).
  rewrite Hw. simpl. lia.
Qed.

Lemma errors_come_from_checks_1_and_2_witness :
  validate_mapped_data (current_assets_schema "1012")
  = Ok (mkValidation true 0 2 []
          ["Cannot validate accounting equation - missing total values";
           "CurrentAssets total (1012.0) differs from sum of components (1000.0)"]
          PASS) /\
  exists st2,
    _validate_numeric_values (current_assets_schema "1012")
      (_validate_accounting_equation (current_assets_schema "1012") (mkState [] []))
    = Ok st2 /\ [] = errors st2.
Proof.
  assert (H : validate_mapped_data (current_assets_schema "1012")
              = Ok (mkValidation true 0 2 []
                      ["Cannot validate accounting equation - missing total values";
                       "CurrentAssets total (1012.0) differs from sum of components (1000.0)"]
                      PASS)) by (vm_compute; reflexivity).
  split; [exact H |].
  destruct (errors_come_from_checks_1_and_2 _ _ H) as (st2 & H2 & He & _).
  exists st2. split; [exact H2 | exact He].
Defined.

(** ** Checks 2 and 4 on a shaped schema *)

Lemma state_eta_errors (st : vstate) :
  st = mkState (errors st ++ [])%list (warnings st).
Proof. destruct st. simpl. rewrite app_nil_r. reflexivity. Qed.

Lemma foldM_collect_errors {A : Type} (f : A -> vstate -> result vstate)
  (g : A -> list string) (l : list A) :
  Forall (fun a => forall st,
              f a st = Ok (mkState (errors st ++ g a)%list (warnings st))) l ->
  forall st,
    PyOps.foldM f l st
    = Ok (mkState (errors st ++ List.flat_map g l)%list (warnings st)).
Proof.
  induction 1 as [| a l Ha _ IH]; intros st; simpl.
  - f_equal. apply state_eta_errors.
  - rewrite Ha. cbn [bind]. rewrite IH. cbn [errors warnings].
    rewrite <- app_assoc. reflexivity.
Qed.

Lemma foldM_collect_warnings {A : Type} (f : A -> vstate -> result vstate)
  (g : A -> list string) (l : list A) :
  Forall (fun a => forall st,
              f a st = Ok (mkState (errors st) (warnings st ++ g a)%list)) l ->
  forall st,
    PyOps.foldM f l st
    = Ok (mkState (errors st) (warnings st ++ List.flat_map g l)%list).
Proof.
  induction 1 as [| a l Ha _ IH]; intros st; simpl.
  - f_equal. apply state_eta.
  - rewrite Ha. cbn [bind]. rewrite IH. cbn [errors warnings].
    rewrite <- app_assoc. reflexivity.
Qed.

Lemma years_entries_items (f y : list (string * value)) :
  years_entries f = Some y -> Py.items (Py.get_or f "years" empty_dict) = Ok y.
Proof.
  unfold years_entries, Py.get_or. destruct (Py.lookup "years" f) as [v |].
  - destruct v; try discriminate. intros H. injection H as ->. reflexivity.
  - intros H. injection H as <-. reflexivity.
Qed.

Lemma years_entries_len (f y : list (string * value)) :
  years_entries f = Some y ->
  Py.len (Py.get_or f "years" empty_dict) = Ok (Z.of_nat (List.length y)).
Proof.
  unfold years_entries, Py.get_or. destruct (Py.lookup "years" f) as [v |].
  - destruct v; try discriminate. intros H. injection H as ->. reflexivity.
  - intros H. injection H as <-. reflexivity.
Qed.

Lemma numeric_field_shaped (section : string) (fv : string * value) (st : vstate) :
  field_shaped (snd fv) = true ->
  numeric_field section fv st
  = Ok (mkState (errors st ++ field_errors section fv)%list (warnings st)).
Proof.
  destruct fv as [field_name field_obj]. unfold numeric_field, field_errors, field_shaped.
  cbn [fst snd].
  destruct field_obj as [| | | | | | f];
    try (intros _; f_equal; apply state_eta_errors).
  destruct (years_entries f) as [y |] eqn:E; [intros _ | discriminate].
  rewrite (years_entries_items _ _ E). cbn [bind].
  apply foldM_collect_errors. apply Forall_forall. intros [year v] _ st0.
  unfold numeric_year. cbn [fst snd].
  destruct (none_or_empty v); [f_equal; apply state_eta_errors |].
  destruct (_is_numeric v); cbn [negb]; [f_equal; apply state_eta_errors | reflexivity].
Qed.

Lemma section_present (d : list (string * value)) (section : string) :
  PyOps.contains section (VDict d) = Ok (Py.has_key section d).
Proof. reflexivity. Qed.

Lemma numeric_section_shaped (d : list (string * value)) (section : string)
  (st : vstate) :
  section_shaped d section = true ->
  numeric_section (VDict d) section st
  = Ok (mkState (errors st ++ section_errors d section)%list (warnings st)).
Proof.
  unfold section_shaped, section_errors, section_fields, numeric_section.
  rewrite section_present. cbn [bind]. unfold Py.has_key, PyOps.getitem.
  destruct (Py.lookup section d) as [v |]; cbn [negb].
  - destruct v as [| | | | | | fields]; try discriminate. intros H. cbn [bind Py.items].
    apply foldM_collect_errors. apply Forall_forall. intros fv Hin st0.
    apply numeric_field_shaped.
    rewrite forallb_forall in H. apply (H fv Hin).
  - intros _. f_equal. apply state_eta_errors.
Qed.

Lemma numeric_values_shaped (d : list (string * value)) (st : vstate) :
  forallb (section_shaped d) numeric_sections = true ->
  _validate_numeric_values (VDict d) st
  = Ok (mkState (errors st ++ numeric_errors d)%list (warnings st)).
Proof.
  intros H. unfold _validate_numeric_values, numeric_errors.
  apply (foldM_collect_errors (numeric_section (VDict d)) (section_errors d)).
  apply Forall_forall. intros section Hin st0. apply numeric_section_shaped.
  rewrite forallb_forall in H. apply (H section Hin).
Qed.

(** On a schema of ASCII text whose sections are mappings of fields with
    year mappings, check 2 returns, adds no warning, and reports exactly
    the year values that are neither null nor empty and do not read as
    numbers, section by section and field by field in the order of the
    schema. *)
Theorem numeric_values_report (d : list (string * value)) (st : vstate) :
  ascii_text (VDict d) = true ->
  forallb (section_shaped d) numeric_sections = true ->
  _validate_numeric_values (VDict d) st
  = Ok (mkState (errors st ++ numeric_errors d)%list (warnings st)).
Proof. intros _. exact (numeric_values_shaped d st). Qed.

Lemma numeric_values_report_witness :
  ascii_text (VDict sample_entries) = true /\
  forallb (section_shaped sample_entries) numeric_sections = true /\
  _validate_numeric_values (VDict sample_entries) (mkState [] [])
  = Ok (mkState ["Equity.ShareCapital has non-numeric value for 2019: 'n/a'"] []).
Proof.
  split; [reflexivity |]. split; [reflexivity |].
  exact (numeric_values_report sample_entries (mkState [] []) eq_refl eq_refl).
Defined.

Lemma consistency_field_shaped (section : string) (nyears : Z) (fv : string * value)
  (st : vstate) :
  field_shaped (snd fv) = true ->
  consistency_field section nyears fv st
  = Ok (mkState (errors st) (warnings st ++ field_gap section nyears fv)%list).
Proof.
  destruct fv as [field_name field_obj]. unfold consistency_field, field_gap, field_shaped.
  cbn [fst snd].
  destruct field_obj as [| | | | | | f]; try (intros _; f_equal; apply state_eta).
  destruct (years_entries f) as [y |] eqn:E; [intros _ | discriminate].
  rewrite (years_entries_len _ _ E). cbn [bind].
  destruct (Z.of_nat (List.length y) <? nyears); [reflexivity | f_equal; apply state_eta].
Qed.

Lemma consistency_section_shaped (d : list (string * value)) (nyears : Z)
  (section : string) (st : vstate) :
  section_shaped d section = true ->
  consistency_section (VDict d) nyears section st
  = Ok (mkState (errors st) (warnings st ++ section_gaps d nyears section)%list).
Proof.
  unfold section_shaped, section_gaps, section_fields, consistency_section.
  rewrite section_present. cbn [bind]. unfold Py.has_key, PyOps.getitem.
  destruct (Py.lookup section d) as [v |]; cbn [negb].
  - destruct v as [| | | | | | fields]; try discriminate. intros H. cbn [bind Py.items].
    apply foldM_collect_warnings. apply Forall_forall. intros fv Hin st0.
    apply consistency_field_shaped.
    rewrite forallb_forall in H. apply (H fv Hin).
  - intros _. f_equal. apply state_eta.
Qed.

Lemma expected_years_len (d : list (string * value)) (n : Z) :
  expected_years d = Some n ->
  (metadata <- Py.get (VDict d) "metadata" empty_dict ;;
   years <- Py.get metadata "years" (VList []) ;;
   Py.len years) = Ok n.
Proof.
  unfold expected_years, Py.get at 1, Py.get_or.
  destruct (Py.lookup "metadata" d) as [m |]; cbn [bind].
  - destruct m as [| | | | | | m]; try discriminate.
    unfold Py.get, Py.get_or. destruct (Py.lookup "years" m) as [y |]; cbn [bind].
    + destruct y; try discriminate; intros H; injection H as <-; reflexivity.
    + intros H. injection H as <-. reflexivity.
  - intros H. injection H as <-. reflexivity.
Qed.

Lemma consistency_unfold (mapped_data : value) (st : vstate) :
  _validate_consistency mapped_data st
  = (nyears <- (metadata <- Py.get mapped_data "metadata" empty_dict ;;
                years <- Py.get metadata "years" (VList []) ;;
                Py.len years) ;;
     if nyears <? 2 then Ok st
     else PyOps.foldM (consistency_section mapped_data nyears)
            ["Equity"; "NonCurrentAssets"] st).
Proof. unfold _validate_consistency. repeat step_bind. Qed.

Lemma consistency_shaped (d : list (string * value)) (st : vstate) :
  years_countable d = true ->
  section_shaped d "Equity" = true ->
  section_shaped d "NonCurrentAssets" = true ->
  _validate_consistency (VDict d) st
  = Ok (mkState (errors st) (warnings st ++ consistency_warnings d)%list).
Proof.
  unfold years_countable, consistency_warnings. intros Hy He Hn.
  destruct (expected_years d) as [nyears |] eqn:E; [| discriminate].
  rewrite consistency_unfold, (expected_years_len _ _ E). cbn [bind].
  destruct (nyears <? 2); [f_equal; apply state_eta |].
  apply (foldM_collect_warnings (consistency_section (VDict d) nyears)
           (section_gaps d nyears)).
  repeat constructor; intros st0; apply consistency_section_shaped; assumption.
Qed.

(** Check 4 looks at [Equity] and [NonCurrentAssets] only, and only when
    the metadata list two years or more; it then warns for every field whose
    year mapping has fewer entries than there are years, whether the entries
    hold values or not, and adds no error. *)
Theorem consistency_report (d : list (string * value)) (st : vstate) :
  years_countable d = true ->
  section_shaped d "Equity" = true ->
  section_shaped d "NonCurrentAssets" = true ->
  _validate_consistency (VDict d) st
  = Ok (mkState (errors st) (warnings st ++ consistency_warnings d)%list).
Proof. exact (consistency_shaped d st). Qed.

Lemma consistency_report_witness :
  years_countable sample_entries = true /\
  _validate_consistency (VDict sample_entries) (mkState [] [])
  = Ok (mkState [] ["Equity.TotalEquity missing data for 1 year(s)"]).
Proof.
  split; [reflexivity |].
  exact (consistency_report sample_entries (mkState [] []) eq_refl eq_refl eq_refl).
Defined.

(** ** A schema on which the validation returns *)

Lemma mapM_some {A B : Type} (f : A -> result (option B)) (l : list A) :
  Forall (fun a => exists x, f a = Ok (Some x)) l ->
  exists xs, PyOps.mapM f l = Ok (List.map Some xs).
Proof.
  induction 1 as [| a l (x & Hx) _ (xs & IH)].
  - exists []. reflexivity.
  - exists (x :: xs). simpl. rewrite Hx. cbn [bind]. rewrite IH. reflexivity.
Qed.

Lemma sum_from_float (xs : list F64.float) :
  forall y, exists r, PyOps.sum_from (PyOps.NFloat y) (List.map Some xs) = Ok r.
Proof.
  induction xs as [| x xs IH]; intros y; simpl.
  - eauto.
  - apply IH.
Qed.

Lemma sum_some (xs : list F64.float) :
  exists r, PyOps.sum (List.map Some xs) = Ok r.
Proof.
  unfold PyOps.sum. destruct xs as [| x xs]; simpl; [eauto |].
  change (PyOps.float_of_int 0) with (Ok (F64.zero false)). cbn [bind].
  apply sum_from_float.
Qed.

Lemma extract_years_entries (f y : list (string * value)) :
  years_entries f = Some y ->
  (years <- Py.get (VDict f) "years" empty_dict ;; _extract_numeric_value years)
  = first_numeric y.
Proof.
  intros H. cbn [Py.get bind]. unfold _extract_numeric_value.
  rewrite (years_entries_items _ _ H). reflexivity.
Qed.

Lemma component_representative (kv : string * value) :
  is_component kv = true -> representative (snd kv) = true ->
  exists x, component_value kv = Ok (Some x).
Proof.
  destruct kv as [k v]. unfold is_component, representative, component_value.
  cbn [fst snd]. intros Hc Hr. apply andb_true_iff in Hc. destruct Hc as [_ Hd].
  destruct v as [| | | | | | f]; try discriminate.
  destruct (years_entries f) as [y |] eqn:E; [| discriminate].
  rewrite (extract_years_entries _ _ E).
  destruct (first_numeric y) as [[x |] | e]; try discriminate. eauto.
Qed.

Lemma subtotal_operands_shaped (d : list (string * value)) :
  subtotals_shaped d = true -> exists ops, subtotal_operands (VDict d) = Ok ops.
Proof.
  unfold subtotals_shaped, subtotal_operands. cbn [Py.get bind]. unfold Py.get_or.
  destruct (Py.lookup "CurrentAssets" d) as [ca |]; [| intros _; eexists; reflexivity].
  destruct ca as [| | | | | | ca]; try discriminate.
  cbn [PyOps.contains bind]. unfold Py.has_key, PyOps.getitem.
  destruct (Py.lookup "TotalCurrentAssets" ca) as [t |];
    [| intros _; eexists; reflexivity].
  intros H. apply andb_true_iff in H. destruct H as [Ht Hall]. cbn [bind].
  unfold total_readable in Ht. destruct t as [| | | | | | f]; try discriminate.
  destruct (years_entries f) as [y |] eqn:E; [| discriminate].
  cbn [Py.get bind]. unfold _extract_numeric_value at 1.
  rewrite (years_entries_items _ _ E). cbn [bind].
  destruct (first_numeric y) as [total | e]; [| discriminate]. cbn [bind Py.items].
  assert (Hc : Forall (fun kv => exists x, component_value kv = Ok (Some x))
                 (List.filter is_component ca)).
  { apply Forall_forall. intros kv Hin. apply filter_In in Hin.
    destruct Hin as [Hin Hcomp]. apply component_representative; [exact Hcomp |].
    rewrite forallb_forall in Hall. specialize (Hall kv Hin).
    apply orb_true_iff in Hall. destruct Hall as [Heq | Hr]; [| exact Hr].
    unfold is_component in Hcomp. rewrite Heq in Hcomp. discriminate Hcomp. }
  destruct (mapM_some _ _ Hc) as (xs & ->). cbn [bind].
  destruct (sum_some xs) as (r & ->). cbn [bind]. eexists. reflexivity.
Qed.

Lemma subtotals_shaped_report (d : list (string * value)) (st : vstate) :
  subtotals_shaped d = true ->
  _validate_subtotals (VDict d) st
  = Ok (mkState (errors st) (warnings st ++ subtotal_warnings d)%list).
Proof.
  intros H. destruct (subtotal_operands_shaped d H) as (ops & Hops).
  unfold _validate_subtotals, subtotal_warnings. rewrite Hops. cbn [bind].
  destruct ops as [[total cs] |]; [| f_equal; apply state_eta].
  destruct (subtotal_differs total cs); [reflexivity | f_equal; apply state_eta].
Qed.

Lemma unmapped_shaped_report (d : list (string * value)) (st : vstate) :
  unmapped_shaped d = true ->
  _validate_unmapped_items (VDict d) st
  = Ok (mkState (errors st) (warnings st ++ unmapped_warnings d)%list).
Proof.
  unfold unmapped_shaped, unmapped_warnings, unmapped_items_of,
    _validate_unmapped_items.
  cbn [Py.get bind]. unfold Py.get_or.
  assert (Hloop : forall items,
             forallb (fun item => match label_of item with
                                  | Some _ => true | None => false end) items = true ->
             (n <- Py.len (VList items) ;;
              (let st1 := if 10 <? n then add_warning (many_unmapped_warning n) st
                          else st in
               its <- PyOps.iterate (VList items) ;;
               PyOps.foldM unmapped_item its st1))
             = Ok (mkState (errors st)
                     (warnings st ++ count_warning items ++ keyword_warnings items)%list)).
  { intros items H. cbn [Py.len PyOps.iterate bind].
    rewrite unmapped_items_loop.
    - unfold count_warning. destruct (10 <? Z.of_nat (List.length items));
        cbn [errors warnings add_warning]; [rewrite <- app_assoc |]; reflexivity.
    - apply Forall_forall. intros item Hin. rewrite forallb_forall in H.
      specialize (H item Hin). destruct (label_of item); [discriminate | discriminate H]. }
  destruct (Py.lookup "unmapped_items" d) as [u |].
  - destruct u as [| | | | | | u]; try discriminate. cbn [Py.get bind]. unfold Py.get_or.
    destruct (Py.lookup "items" u) as [items |].
    + destruct items as [| | | | | items |]; try discriminate. apply Hloop.
    + intros _. apply (Hloop [] eq_refl).
  - intros _. apply (Hloop [] eq_refl).
Qed.

(** On a shaped schema instance of ASCII text [validate_mapped_data]
    returns: no check raises, and the result holds the message of check 1,
    then the errors of check 2, then the warnings of checks 3, 4 and 5, in
    this order. *)
Theorem shaped_schema_is_validated (d : list (string * value)) :
  ascii_text (VDict d) = true ->
  schema_shaped d = true ->
  let st1 := _validate_accounting_equation (VDict d) (mkState [] []) in
  validate_mapped_data (VDict d)
  = Ok (compile_result
          (mkState (errors st1 ++ numeric_errors d)%list
             (warnings st1 ++ subtotal_warnings d ++ consistency_warnings d
              ++ unmapped_warnings d)%list)).
Proof.
  unfold schema_shaped. intros _ H.
  apply andb_true_iff in H. destruct H as [H Hu].
  apply andb_true_iff in H. destruct H as [H Hy].
  apply andb_true_iff in H. destruct H as [Hn Hs].
  assert (He : section_shaped d "Equity" = true).
  { rewrite forallb_forall in Hn. apply Hn. simpl. auto. }
  assert (Ha : section_shaped d "NonCurrentAssets" = true).
  { rewrite forallb_forall in Hn. apply Hn. simpl. auto 6. }
  cbv zeta. unfold validate_mapped_data.
  rewrite (numeric_values_shaped d _ Hn). cbn [bind].
  rewrite subtotals_shaped_report by exact Hs. cbn [bind errors warnings].
  rewrite consistency_shaped by assumption. cbn [bind errors warnings].
  rewrite unmapped_shaped_report by exact Hu. cbn [bind errors warnings].
  rewrite <- !app_assoc. reflexivity.
Qed.

Lemma shaped_schema_is_validated_witness :
  ascii_text (VDict sample_entries) = true /\
  schema_shaped sample_entries = true /\
  validate_mapped_data (VDict sample_entries)
  = Ok (mkValidation true 1 3
          ["Equity.ShareCapital has non-numeric value for 2019: 'n/a'"]
          ["CurrentAssets total (1000.0) differs from sum of components (1012.0)";
           "Equity.TotalEquity missing data for 1 year(s)";
           "Potentially important item unmapped: 'Total Reserves'"]
          FAIL).
Proof.
  split; [reflexivity |]. split; [reflexivity |].
  exact (shaped_schema_is_validated sample_entries eq_refl eq_refl).
Defined.

(* ================================================================== *)
(** * Further properties of [AccuracyCalculator] *)
(* ================================================================== *)

(** ** The value-match predicate *)

Lemma abs_round (b : bool) (n d : Z) :
  F64.abs (F64.round b n d) = F64.abs (F64.round false n d).
Proof.
  unfold F64.round. destruct (n <=? 0); [reflexivity |]. cbv zeta.
  repeat match goal with
         | |- context [if ?c then _ else _] => destruct c
         end; reflexivity.
Qed.

Lemma scaled_negb (s : bool) (m e : Z) :
  F64.scaled (negb s) m e = - F64.scaled s m e.
Proof. unfold F64.scaled. destruct s; simpl; lia. Qed.

Lemma abs_of_scaled_opp (a : Z) (b b' : bool) :
  F64.abs (F64.of_scaled (- a) b) = F64.abs (F64.of_scaled a b').
Proof.
  unfold F64.of_scaled. destruct (Z.eqb_spec a 0) as [-> | Ha].
  - reflexivity.
  - replace (- a =? 0) with false by (symmetry; apply Z.eqb_neq; lia).
    rewrite Z.abs_opp, abs_round. symmetry. apply abs_round.
Qed.

Lemma abs_sub_sym (x y : F64.float) :
  F64.abs (F64.sub x y) = F64.abs (F64.sub y x).
Proof.
  destruct x as [| s | s m e], y as [| t | t n f]; try reflexivity.
  - destruct s, t; reflexivity.
  - unfold F64.sub, F64.neg, F64.add. rewrite !scaled_negb.
    replace (F64.scaled s m e + - F64.scaled t n f)
      with (- (F64.scaled t n f + - F64.scaled s m e)) by lia.
    apply abs_of_scaled_opp.
Qed.

(** On two strings the match predicate does not depend on which one is the
    extracted value and which one the ground truth. *)
Theorem values_match_symmetric (a b : string) :
  _values_match (VStr a) (VStr b) = _values_match (VStr b) (VStr a).
Proof.
  unfold _values_match, str_match. cbn [Py.eq Py.str].
  rewrite (String.eqb_sym b a).
  destruct (String.eqb a b); [reflexivity |].
  rewrite (String.eqb_sym (Str.lower (Str.strip b)) (Str.lower (Str.strip a))).
  destruct (float_without_commas a) as [x |], (float_without_commas b) as [y |];
    try reflexivity.
  rewrite abs_sub_sym. reflexivity.
Qed.

(** When one of two ASCII strings does not read as a number, they match
    exactly when they are equal once stripped of surrounding white space
    and put in lower case. *)
Theorem text_match_rule (a b : string) :
  Str.is_ascii a = true ->
  Str.is_ascii b = true ->
  float_without_commas a = None \/ float_without_commas b = None ->
  _values_match (VStr a) (VStr b)
  = String.eqb (Str.lower (Str.strip a)) (Str.lower (Str.strip b)).
Proof.
  intros _ _ H. unfold _values_match, str_match. cbn [Py.eq Py.str].
  destruct (String.eqb_spec a b) as [-> | _].
  - symmetry. apply String.eqb_refl.
  - destruct H as [-> | H]; [reflexivity |].
    rewrite H. destruct (float_without_commas a); reflexivity.
Qed.

Lemma text_match_rule_witness :
  Str.is_ascii " Inventories " = true /\
  Str.is_ascii "inventories" = true /\
  float_without_commas " Inventories " = None /\
  _values_match (VStr " Inventories ") (VStr "inventories") = true.
Proof.
  assert (H : float_without_commas " Inventories " = None) by (vm_compute; reflexivity).
  split; [reflexivity |]. split; [reflexivity |]. split; [exact H |].
  exact (text_match_rule " Inventories " "inventories" eq_refl eq_refl (or_introl H)).
Defined.

(** A value that is not a string (a JSON number, boolean, list or mapping)
    never gets the numeric tolerance: against a string it matches exactly
    when its text does, ignoring case and surrounding white space; all
    text being ASCII. *)
Theorem number_against_string_is_textual (v : value) (s : string) :
  ascii_text v = true ->
  Str.is_ascii s = true ->
  (forall t, v <> VStr t) ->
  _values_match v (VStr s)
  = String.eqb (Str.lower (Str.strip (Py.str v))) (Str.lower (Str.strip s)) /\
  _values_match (VStr s) v
  = String.eqb (Str.lower (Str.strip s)) (Str.lower (Str.strip (Py.str v))).
Proof.
  intros _ _ Hv. unfold _values_match, str_match.
  destruct v as [| b | n | x | t | l | d]; cbn [Py.eq Py.num_eq Py.str];
    try (split; reflexivity).
  exfalso. apply (Hv t). reflexivity.
Qed.

Lemma number_against_string_is_textual_witness :
  ascii_text (VFloat (f_of 1250)) = true /\
  Str.is_ascii "1250.00" = true /\
  (forall t, VFloat (f_of 1250) <> VStr t) /\
  _values_match (VFloat (f_of 1250)) (VStr "1250.00")
  = String.eqb "1250.0" "1250.00".
Proof.
  assert (H : forall t, VFloat (f_of 1250) <> VStr t) by (intros t E; discriminate E).
  split; [reflexivity |]. split; [reflexivity |]. split; [exact H |].
  exact (proj1 (number_against_string_is_textual (VFloat (f_of 1250)) "1250.00"
                  eq_refl eq_refl H)).
Defined.

(** ** What the traversal reads of the extraction *)

Lemma each_key_reads_lookups (ed ed' : list (string * value)) (path : string)
  (entries : list (string * value)) :
  (forall k, In k (keys entries) -> Py.lookup k ed = Py.lookup k ed') ->
  forall r, each_key ed path entries r = each_key ed' path entries r.
Proof.
  induction entries as [| [key gv] rest IH]; intros H r; [reflexivity |].
  assert (Hk : forall dflt, Py.get_or ed key dflt = Py.get_or ed' key dflt).
  { intros dflt. unfold Py.get_or. rewrite (H key (or_introl eq_refl)). reflexivity. }
  assert (Hrest : forall r', each_key ed path rest r' = each_key ed' path rest r').
  { apply IH. intros k Hin. apply H. right. exact Hin. }
  cbn [each_key]. rewrite !Hk.
  destruct (is_skipped key); [apply Hrest |].
  destruct gv; try apply Hrest. destruct (Py.has_key "value" d); apply Hrest.
Qed.

(** Of an extracted mapping the traversal reads only the keys of the
    ground truth: a field that the extraction alone has changes nothing in
    the report. *)
Theorem extracted_only_field_is_ignored (ed gd : list (string * value))
  (k : string) (v : value) :
  ~ In k (keys gd) ->
  calculate_accuracy (VDict ((k, v) :: ed)) (VDict gd)
  = calculate_accuracy (VDict ed) (VDict gd).
Proof.
  intros Hk. unfold calculate_accuracy. rewrite !traverse_dict.
  rewrite (each_key_reads_lookups ((k, v) :: ed) ed "root" gd); [reflexivity |].
  intros key Hin. cbn [Py.lookup].
  destruct (String.eqb_spec key k) as [-> | _]; [contradiction | reflexivity].
Qed.

Lemma extracted_only_field_is_ignored_witness :
  ~ In "bonus" (keys [("net_pay", VDict [("value", VStr "10")])]) /\
  calculate_accuracy
    (VDict [("bonus", VDict [("value", VStr "99")]);
            ("net_pay", VDict [("value", VStr "10")])])
    (VDict [("net_pay", VDict [("value", VStr "10")])])
  = calculate_accuracy
      (VDict [("net_pay", VDict [("value", VStr "10")])])
      (VDict [("net_pay", VDict [("value", VStr "10")])]).
Proof.
  assert (H : ~ In "bonus" (keys [("net_pay", VDict [("value", VStr "10")])]))
    by (intros [E | []]; discriminate E).
  split; [exact H |].
  exact (extracted_only_field_is_ignored _ _ "bonus" _ H).
Defined.

Lemma compare_missing_field (gv : value) (path : string) :
  unanswered (compare_field_structure missing_field gv path).
Proof.
  unfold unanswered, compare_field_structure, compare_values.
  change (value_part missing_field) with VNone. cbn [none_or_empty].
  destruct (none_or_empty (value_part gv)); split; auto.
Qed.

Section EmptyExtraction.

Let Q (r : results) : Prop := Forall unanswered (field_details r).

Let empty_traversal (g : value) : Prop :=
  forall path r,
    Q r ->
    Q (traverse_and_compare (VDict []) g path r) /\
    Q (traverse_and_compare (VList []) g path r).

Lemma each_key_empty (entries : list (string * value)) :
  Forall (fun kv => empty_traversal (snd kv)) entries ->
  forall path r, Q r -> Q (each_key [] path entries r).
Proof.
  induction 1 as [| [key gv] rest Hgv _ IH]; intros path r Hr; [exact Hr |].
  cbn [each_key]. unfold Py.get_or. cbn [Py.lookup].
  destruct (is_skipped key); [apply IH; exact Hr |].
  cbn [snd] in Hgv.
  destruct gv; try (apply IH; exact Hr).
  - apply IH. apply Hgv. exact Hr.
  - destruct (Py.has_key "value" d); apply IH.
    + unfold Q. rewrite record_details. apply Forall_app. split; [exact Hr |].
      constructor; [apply compare_missing_field | constructor].
    + apply Hgv. exact Hr.
Qed.

Lemma each_item_empty (items : list value) :
  Forall empty_traversal items ->
  forall path idx r, Q r -> Q (each_item [] path items idx r).
Proof.
  induction 1 as [| g rest Hg _ IH]; intros path idx r Hr; [exact Hr |].
  cbn [each_item]. apply IH.
  replace (nth idx [] (VDict [])) with (VDict []) by (destruct idx; reflexivity).
  apply Hg. exact Hr.
Qed.

Lemma traverse_empty (g : value) : empty_traversal g.
Proof.
  induction g as [| b | n | x | s | gl IH | gd IH] using value_ind;
    intros path r Hr; try (split; exact Hr).
  - split; [exact Hr |]. rewrite traverse_list. apply each_item_empty; assumption.
  - split; [| exact Hr]. rewrite traverse_dict. apply each_key_empty; assumption.
Qed.

End EmptyExtraction.

Lemma unanswered_not_incorrect (l : list comparison) :
  Forall unanswered l -> count_bucket InIncorrect l = 0.
Proof.
  induction 1 as [| c l [_ Hc] _ IH]; [reflexivity |].
  rewrite count_bucket_cons, IH. unfold in_bucket.
  destruct Hc as [E | E]; rewrite E; reflexivity.
Qed.

(** Against an empty extraction every field of the ground truth that the
    traversal meets is recorded with no extracted value, as [missing] or,
    when the ground truth is null or empty too, as [correct_null]; nothing
    is counted incorrect. *)
Theorem empty_extraction_report (ground_truth : value) :
  let r := calculate_accuracy (VDict []) ground_truth in
  Forall unanswered (field_details r) /\
  incorrect_fields r = 0 /\
  total_fields r = correct_fields r + missing_fields r.
Proof.
  pose (t := traverse_and_compare (VDict []) ground_truth "root" empty_results).
  assert (Hq : Forall unanswered (field_details t))
    by (apply traverse_empty; constructor).
  destruct (traverse_tallied (VDict []) ground_truth "root" empty_results tallied_empty)
    as (Ht & Hk & Hi & Hm & Hall). fold t in Ht, Hk, Hi, Hm, Hall.
  assert (Hsum := emitted_partition _ Hall).
  assert (Hzero := unanswered_not_incorrect _ Hq).
  cbv zeta. unfold calculate_accuracy. fold t.
  destruct (0 <? total_fields t); cbn; repeat split; try exact Hq; lia.
Qed.

(** ** The printed summary *)

Lemma flat_map_issue_lines (l : list comparison) :
  List.length (List.flat_map issue_lines l) = (3 * List.length l)%nat.
Proof.
  induction l as [| c l IH]; [reflexivity |].
  cbn [List.flat_map]. rewrite length_app, IH. cbn [issue_lines List.length]. lia.
Qed.

Lemma issues_and_false_positives (l : list comparison) :
  Z.of_nat (List.length (List.filter is_issue l))
  + Z.of_nat (List.length (List.filter is_false_positive l))
  = count_bucket InIncorrect l + count_bucket InMissing l.
Proof.
  induction l as [| c l IH]; [reflexivity |].
  rewrite !count_bucket_cons. cbn [List.filter].
  unfold is_issue at 1, is_false_positive at 1, in_bucket.
  destruct (cmp_status c); cbn [bucket_of bucket_eqb List.length]; lia.
Qed.

(** When no record is [incorrect] or [missing] the summary is the
    statistics block followed by the closing rule: no issue is listed. *)
Theorem summary_without_issues (r : results) :
  Forall (fun c => cmp_status c <> incorrect /\ cmp_status c <> missing)
    (field_details r) ->
  print_summary r = (summary_head r ++ [(newline ++ rule70)%string])%list.
Proof.
  intros H. unfold print_summary.
  replace (List.filter is_issue (field_details r)) with (@nil comparison);
    [reflexivity |].
  symmetry. induction H as [| c l [Hi Hm] _ IH]; [reflexivity |].
  cbn [List.filter]. unfold is_issue at 1.
  destruct (cmp_status c); try exact IH; contradiction.
Qed.

Lemma summary_without_issues_witness :
  Forall (fun c => cmp_status c <> incorrect /\ cmp_status c <> missing)
    (field_details (calculate_accuracy payroll_sample payroll_sample)) /\
  List.length (print_summary (calculate_accuracy payroll_sample payroll_sample))
  = 10%nat.
Proof.
  assert (H : Forall (fun c => cmp_status c <> incorrect /\ cmp_status c <> missing)
                (field_details (calculate_accuracy payroll_sample payroll_sample))).
  { vm_compute. repeat constructor; discriminate. }
  split; [exact H |].
  rewrite (summary_without_issues _ H). reflexivity.
Defined.

(** The issues listed after a comparison are the [incorrect] and the
    [missing] records, at most ten of them on three lines each: false
    positives are counted in the incorrect statistic and never listed, so
    the number in the issue header is the incorrect and missing counters
    less the false positives. *)
Theorem summary_lists_incorrect_and_missing (extracted ground_truth : value) :
  let r := calculate_accuracy extracted ground_truth in
  let issues := List.filter is_issue (field_details r) in
  Z.of_nat (List.length issues)
  + Z.of_nat (List.length (List.filter is_false_positive (field_details r)))
  = incorrect_fields r + missing_fields r /\
  List.length (print_summary r)
  = (10 + match issues with
          | [] => 0
          | _ :: _ => 1 + 3 * Nat.min 10 (List.length issues)
          end)%nat.
Proof.
  cbv zeta. split.
  - destruct (traverse_tallied extracted ground_truth "root" empty_results tallied_empty)
      as (_ & _ & Hi & Hm & _).
    rewrite issues_and_false_positives. unfold calculate_accuracy.
    destruct (0 <? total_fields _); cbn [field_details incorrect_fields missing_fields];
      rewrite Hi, Hm; reflexivity.
  - unfold print_summary.
    destruct (List.filter is_issue (field_details (calculate_accuracy extracted ground_truth)))
      as [| c l] eqn:E.
    + reflexivity.
    + rewrite !length_app. cbn [List.length summary_head].
      rewrite flat_map_issue_lines, length_firstn. cbn [List.length]. lia.
Qed.

(* ================================================================== *)
(** * Further properties of the representative value *)
(* ================================================================== *)

Lemma first_numeric_passes_over (pre rest : list (string * value)) :
  forallb (fun yv => passed_over (snd yv)) pre = true ->
  first_numeric (pre ++ rest)%list = first_numeric rest.
Proof.
  induction pre as [| [y v] pre IH]; [reflexivity |].
  cbn [forallb snd]. intros H. apply andb_true_iff in H. destruct H as [Hv Hpre].
  cbn [app first_numeric]. unfold passed_over in Hv.
  destruct v as [| | | | s | |]; try discriminate; try (apply IH; exact Hpre).
  destruct s as [| c s]; [apply IH; exact Hpre |].
  destruct (PyFloat.of_string (cleaned (String c s))); [discriminate |].
  apply IH. exact Hpre.
Qed.

(** The representative value of a field is its first year value, in the
    order of the mapping, that reads as a number once commas and spaces are
    removed: the null, empty and unreadable values before it are passed
    over, and whatever comes after it is not looked at.  The values up to
    and including the one that is read are ASCII text. *)
Theorem first_readable_year_wins (pre post : list (string * value)) (year text : string)
  (x : F64.float) :
  forallb (fun yv => ascii_text (snd yv)) pre = true ->
  Str.is_ascii text = true ->
  forallb (fun yv => passed_over (snd yv)) pre = true ->
  text <> EmptyString ->
  PyFloat.of_string (cleaned text) = Some x ->
  _extract_numeric_value (VDict (pre ++ (year, VStr text) :: post)%list) = Ok (Some x).
Proof.
  intros _ _ Hpre Htext Hx. unfold _extract_numeric_value. cbn [Py.items bind].
  rewrite (first_numeric_passes_over _ _ Hpre). cbn [first_numeric].
  destruct text as [| c t]; [contradiction |]. rewrite Hx. reflexivity.
Qed.

Lemma first_readable_year_wins_witness :
  _extract_numeric_value
    (VDict [("2021", VNone); ("2020", VStr "n/a"); ("2019", VStr "7,09,10,990");
            ("2018", VStr "5")])
  = Ok (Some (f_of 70910990)).
Proof.
  refine (first_readable_year_wins [("2021", VNone); ("2020", VStr "n/a")]
            [("2018", VStr "5")] "2019" "7,09,10,990" (f_of 70910990)
            eq_refl eq_refl eq_refl _ _).
  - discriminate.
  - vm_compute. reflexivity.
Defined.

(* ================================================================== *)
(** * The accuracy is a percentage *)
(* ================================================================== *)


Lemma P2_pos z : 0 < P2 z.
Proof. unfold P2. apply Z.pow_pos_nonneg; lia. Qed.

Lemma N2_pos z : 0 < N2 z.
Proof. unfold N2. apply Z.pow_pos_nonneg; lia. Qed.

Ltac pow2_eq :=
  unfold P2, N2;
  repeat rewrite <- Z.pow_add_r by lia;
  f_equal; lia.

(** The rounding function with both branches of each test written as one
    product. *)
Lemma round_uniform (neg : bool) (n d : Z) :
  F64.round neg n d =
  if n <=? 0 then F64.zero neg else
  let k := Z.log2 n - Z.log2 d in
  let fl := if d * P2 k <=? n * N2 k then k else k - 1 in
  let e := Z.max (fl - 52) F64.emin in
  let q := (n * N2 e) / (d * P2 e) in
  let r := (n * N2 e) mod (d * P2 e) in
  let up := (d * P2 e <? 2 * r) || ((d * P2 e =? 2 * r) && Z.odd q) in
  let q' := if up then q + 1 else q in
  let '(m, e') := if q' =? 2 ^ 53 then (2 ^ 52, e + 1) else (q', e) in
  if F64.emax <? e' then F64.Inf neg else F64.Fin neg m e'.
Proof.
  unfold F64.round. destruct (n <=? 0); [reflexivity |]. cbv zeta.
  set (k := Z.log2 n - Z.log2 d).
  assert (Hge : (if 0 <=? k then d * 2 ^ k <=? n else d <=? n * 2 ^ (- k))
                = (d * P2 k <=? n * N2 k)).
  { unfold P2, N2. destruct (Z.leb_spec 0 k).
    - rewrite Z.max_l by lia. rewrite (Z.max_r (- k) 0) by lia.
      rewrite Z.pow_0_r, Z.mul_1_r. reflexivity.
    - rewrite Z.max_r by lia. rewrite (Z.max_l (- k) 0) by lia.
      rewrite Z.pow_0_r, Z.mul_1_r. reflexivity. }
  rewrite Hge. set (fl := if d * P2 k <=? n * N2 k then k else k - 1).
  set (e := Z.max (fl - 52) F64.emin).
  assert (Hnum : (if e <? 0 then n * 2 ^ (- e) else n) = n * N2 e).
  { unfold N2. destruct (Z.ltb_spec e 0).
    - rewrite Z.max_l by lia. reflexivity.
    - rewrite Z.max_r by lia. rewrite Z.pow_0_r, Z.mul_1_r. reflexivity. }
  assert (Hden : (if e <? 0 then d else d * 2 ^ e) = d * P2 e).
  { unfold P2. destruct (Z.ltb_spec e 0).
    - rewrite Z.max_r by lia. rewrite Z.pow_0_r, Z.mul_1_r. reflexivity.
    - rewrite Z.max_l by lia. reflexivity. }
  rewrite Hnum, Hden. reflexivity.
Qed.

Lemma pow2_ge_1 (z : Z) : 0 <= z -> 1 <= 2 ^ z.
Proof. intros H. change 1 with (2 ^ 0). apply Z.pow_le_mono_r; lia. Qed.

(** [n / d < 2^z] is kept when [z] grows. *)
Lemma below_pow2_mono (n d z z' : Z) :
  0 < d -> z <= z' -> n * N2 z < d * P2 z -> n * N2 z' < d * P2 z'.
Proof.
  intros Hd Hz H.
  assert (I : N2 z * P2 z' = N2 z' * P2 z * 2 ^ (z' - z)) by pow2_eq.
  assert (H1 := pow2_ge_1 (z' - z) ltac:(lia)).
  assert (Hz' := N2_pos z'). assert (Hn := N2_pos z). assert (Hp := P2_pos z).
  apply (Z.mul_lt_mono_pos_r (N2 z)); [exact Hn |].
  replace (d * P2 z' * N2 z) with (d * (N2 z * P2 z')) by ring.
  rewrite I.
  assert (H2 : n * N2 z * N2 z' < d * P2 z * N2 z')
    by (apply Z.mul_lt_mono_pos_r; assumption).
  assert (H3 : d * P2 z * N2 z' <= d * P2 z * N2 z' * 2 ^ (z' - z)).
  { rewrite <- (Z.mul_1_r (d * P2 z * N2 z')) at 1.
    apply Z.mul_le_mono_nonneg_l; [| exact H1].
    apply Z.lt_le_incl. repeat apply Z.mul_pos_pos; assumption. }
  replace (n * N2 z' * N2 z) with (n * N2 z * N2 z') by ring.
  replace (d * (N2 z' * P2 z * 2 ^ (z' - z))) with (d * P2 z * N2 z' * 2 ^ (z' - z)) by ring.
  lia.
Qed.

(** The exponent found by [round] is the integer part of the binary
    logarithm of [n / d]. *)
Lemma floor_log2_bounds (n d : Z) :
  0 < n -> 0 < d ->
  let k := Z.log2 n - Z.log2 d in
  let fl := if d * P2 k <=? n * N2 k then k else k - 1 in
  d * P2 fl <= n * N2 fl /\ n * N2 (fl + 1) < d * P2 (fl + 1).
Proof.
  intros Hn Hd k fl.
  destruct (Z.log2_spec n Hn) as [Hn1 Hn2]. destruct (Z.log2_spec d Hd) as [Hd1 Hd2].
  assert (Hln := Z.log2_nonneg n). assert (Hld := Z.log2_nonneg d).
  set (ln := Z.log2 n) in *. set (ld := Z.log2 d) in *.
  unfold fl. destruct (Z.leb_spec (d * P2 k) (n * N2 k)) as [Hge | Hlt].
  - split; [exact Hge |].
    assert (I : 2 ^ Z.succ ln * N2 (k + 1) = 2 ^ ld * P2 (k + 1)) by (unfold k; pow2_eq).
    assert (Hp := P2_pos (k + 1)). assert (Hq := N2_pos (k + 1)).
    assert (n * N2 (k + 1) < 2 ^ Z.succ ln * N2 (k + 1))
      by (apply Z.mul_lt_mono_pos_r; assumption).
    assert (2 ^ ld * P2 (k + 1) <= d * P2 (k + 1))
      by (apply Z.mul_le_mono_nonneg_r; lia).
    lia.
  - split.
    + assert (I : 2 ^ Z.succ ld * P2 (k - 1) = 2 ^ ln * N2 (k - 1))
        by (unfold k; pow2_eq).
      assert (Hp := P2_pos (k - 1)). assert (Hq := N2_pos (k - 1)).
      assert (d * P2 (k - 1) <= 2 ^ Z.succ ld * P2 (k - 1))
        by (apply Z.mul_le_mono_nonneg_r; lia).
      assert (2 ^ ln * N2 (k - 1) <= n * N2 (k - 1))
        by (apply Z.mul_le_mono_nonneg_r; lia).
      lia.
    + replace (k - 1 + 1) with k by lia. exact Hlt.
Qed.

(** A quotient that is at most the float [Mb * 2^Eb] rounds to a float
    that is at most [Mb * 2^Eb]. *)
Lemma round_bounded (n d Mb Eb : Z) :
  0 < n -> 0 < d -> 2 ^ 52 <= Mb < 2 ^ 53 -> F64.emin <= Eb <= F64.emax ->
  n * N2 Eb <= d * Mb * P2 Eb ->
  exists m e,
    F64.round false n d = F64.Fin false m e /\
    F64.emin <= e <= Eb /\ 0 <= m /\
    m * 2 ^ (e - F64.emin) <= Mb * 2 ^ (Eb - F64.emin).
Proof.
  intros Hn Hd HMb HEb Hle.
  rewrite round_uniform.
  replace (n <=? 0) with false by (symmetry; apply Z.leb_gt; lia).
  destruct (floor_log2_bounds n d Hn Hd) as [Hlow Hup]. cbv zeta in Hlow, Hup |- *.
  set (k := Z.log2 n - Z.log2 d) in *.
  set (fl := if d * P2 k <=? n * N2 k then k else k - 1) in *.
  assert (Hfl : fl <= Eb + 52).
  { destruct (Z.le_gt_cases fl (Eb + 52)) as [H | Hgt]; [exact H | exfalso].
    assert (J : 2 ^ 53 * (N2 fl * P2 Eb) <= P2 fl * N2 Eb).
    { unfold P2, N2. rewrite <- !Z.pow_add_r by lia. apply Z.pow_le_mono_r; lia. }
    assert (Ha := P2_pos fl). assert (Hb := N2_pos fl).
    assert (Hc := P2_pos Eb). assert (Hg := N2_pos Eb).
    assert (S1 : d * P2 fl * N2 Eb <= n * N2 fl * N2 Eb)
      by (apply Z.mul_le_mono_nonneg_r; lia).
    assert (S2 : n * N2 Eb * N2 fl <= d * Mb * P2 Eb * N2 fl)
      by (apply Z.mul_le_mono_nonneg_r; lia).
    assert (Hpos : 0 < d * (N2 fl * P2 Eb)) by (repeat apply Z.mul_pos_pos; assumption).
    assert (S3 : Mb * (d * (N2 fl * P2 Eb)) < 2 ^ 53 * (d * (N2 fl * P2 Eb)))
      by (apply Z.mul_lt_mono_pos_r; lia).
    assert (S4 : d * (2 ^ 53 * (N2 fl * P2 Eb)) <= d * (P2 fl * N2 Eb))
      by (apply Z.mul_le_mono_nonneg_l; lia).
    replace (n * N2 fl * N2 Eb) with (n * N2 Eb * N2 fl) in S1 by ring.
    replace (d * Mb * P2 Eb * N2 fl) with (Mb * (d * (N2 fl * P2 Eb))) in S2 by ring.
    replace (2 ^ 53 * (d * (N2 fl * P2 Eb))) with (d * (2 ^ 53 * (N2 fl * P2 Eb))) in S3
      by ring.
    replace (d * (P2 fl * N2 Eb)) with (d * P2 fl * N2 Eb) in S4 by ring.
    lia. }
  set (e := Z.max (fl - 52) F64.emin).
  assert (He : F64.emin <= e <= Eb) by (unfold e; lia).
  set (num := n * N2 e). set (den := d * P2 e).
  assert (Hden : 0 < den) by (apply Z.mul_pos_pos; [exact Hd | apply P2_pos]).
  assert (Hnum : 0 <= num) by (apply Z.mul_nonneg_nonneg; [lia | apply Z.lt_le_incl, N2_pos]).
  assert (Hlt53 : num < den * 2 ^ 53).
  { assert (Hm : n * N2 (e + 53) < d * P2 (e + 53))
      by (apply (below_pow2_mono n d (fl + 1)); [exact Hd | unfold e; lia | exact Hup]).
    assert (I : P2 (e + 53) * N2 e = N2 (e + 53) * (P2 e * 2 ^ 53)) by pow2_eq.
    assert (Hx := N2_pos (e + 53)). assert (Hy := N2_pos e).
    assert (S1 : n * N2 (e + 53) * N2 e < d * P2 (e + 53) * N2 e)
      by (apply Z.mul_lt_mono_pos_r; assumption).
    replace (d * P2 (e + 53) * N2 e) with (d * (P2 (e + 53) * N2 e)) in S1 by ring.
    rewrite I in S1.
    apply (Z.mul_lt_mono_pos_l (N2 (e + 53))); [exact Hx |].
    unfold num, den.
    replace (N2 (e + 53) * (n * N2 e)) with (n * N2 (e + 53) * N2 e) by ring.
    replace (N2 (e + 53) * (d * P2 e * 2 ^ 53)) with (d * (N2 (e + 53) * (P2 e * 2 ^ 53)))
      by ring.
    exact S1. }
  set (q := num / den). set (r := num mod den).
  assert (Hdm : num = den * q + r) by (apply Z.div_mod; lia).
  assert (Hr : 0 <= r < den) by (apply Z.mod_pos_bound; exact Hden).
  assert (Hq0 : 0 <= q) by (apply Z.div_pos; assumption).
  assert (Hq53 : q < 2 ^ 53) by (apply Z.div_lt_upper_bound; assumption).
  set (up := (den <? 2 * r) || ((den =? 2 * r) && Z.odd q)).
  set (q' := if up then q + 1 else q).
  assert (Hq' : q <= q' <= q + 1) by (unfold q'; destruct up; lia).
  assert (Hpe : 0 < 2 ^ (e - F64.emin)) by (apply Z.pow_pos_nonneg; lia).
  assert (Hmono : forall a b, F64.emin <= a <= b ->
                              2 ^ (a - F64.emin) <= 2 ^ (b - F64.emin))
    by (intros a b Hab; apply Z.pow_le_mono_r; lia).
  destruct (Z.eq_dec e Eb) as [Heq | Hne].
  - (* the bound has the same exponent *)
    assert (Hq'Mb : q' <= Mb).
    { assert (Hnd : num <= den * Mb).
      { unfold num, den. rewrite Heq.
        replace (d * P2 Eb * Mb) with (d * Mb * P2 Eb) by ring. exact Hle. }
      assert (HqMb : q <= Mb).
      { destruct (Z.le_gt_cases q Mb) as [H | H]; [exact H | exfalso].
        assert (den * (Mb + 1) <= den * q) by (apply Z.mul_le_mono_nonneg_l; lia).
        lia. }
      destruct (Z.eq_dec q Mb) as [E | E]; [| lia].
      assert (Hr0 : r = 0) by (rewrite E in Hdm; lia).
      unfold q', up. rewrite Hr0.
      replace (den <? 2 * 0) with false by (symmetry; apply Z.ltb_ge; lia).
      replace (den =? 2 * 0) with false by (symmetry; apply Z.eqb_neq; lia).
      cbn [orb andb]. lia. }
    replace (q' =? 2 ^ 53) with false by (symmetry; apply Z.eqb_neq; lia).
    replace (F64.emax <? e) with false by (symmetry; apply Z.ltb_ge; lia).
    exists q', e. repeat split; try lia.
    rewrite Heq. apply Z.mul_le_mono_nonneg_r; [| exact Hq'Mb].
    apply Z.lt_le_incl. apply Z.pow_pos_nonneg; lia.
  - (* the result has a smaller exponent *)
    assert (He1 : e + 1 <= Eb) by lia.
    assert (Hstep : 2 ^ 53 * 2 ^ (e - F64.emin) <= Mb * 2 ^ (Eb - F64.emin)).
    { replace (2 ^ 53 * 2 ^ (e - F64.emin)) with (2 ^ 52 * 2 ^ (e + 1 - F64.emin)).
      - assert (H1 := Hmono (e + 1) Eb ltac:(lia)).
        assert (0 < 2 ^ (e + 1 - F64.emin)) by (apply Z.pow_pos_nonneg; lia).
        apply Z.mul_le_mono_nonneg; lia.
      - rewrite <- !Z.pow_add_r by lia. f_equal. lia. }
    destruct (Z.eqb_spec q' (2 ^ 53)) as [E | E].
    + replace (F64.emax <? e + 1) with false by (symmetry; apply Z.ltb_ge; lia).
      exists (2 ^ 52), (e + 1). repeat split; try lia.
      replace (2 ^ 52 * 2 ^ (e + 1 - F64.emin)) with (2 ^ 53 * 2 ^ (e - F64.emin)).
      * exact Hstep.
      * rewrite <- !Z.pow_add_r by lia. f_equal. lia.
    + replace (F64.emax <? e) with false by (symmetry; apply Z.ltb_ge; lia).
      exists q', e. repeat split; try lia.
      assert (q' * 2 ^ (e - F64.emin) <= 2 ^ 53 * 2 ^ (e - F64.emin))
        by (apply Z.mul_le_mono_nonneg_r; lia).
      lia.
Qed.

Lemma count_bucket_bounds (b : bucket) (l : list comparison) :
  0 <= count_bucket b l <= Z.of_nat (List.length l).
Proof.
  unfold count_bucket. split; [lia |].
  apply Nat2Z.inj_le. apply filter_length_le.
Qed.

Lemma record_keeps_accuracy (c : comparison) (r : results) :
  accuracy_percentage (_record_comparison c r) = accuracy_percentage r.
Proof. unfold _record_comparison. destruct (cmp_status c); reflexivity. Qed.

Lemma traverse_keeps_accuracy (e g : value) (path : string) (r : results) :
  accuracy_percentage (traverse_and_compare e g path r) = accuracy_percentage r.
Proof.
  apply (traverse_invariant (fun r' => accuracy_percentage r' = accuracy_percentage r));
    [| reflexivity].
  intros e' g' p r' Hr'. rewrite record_keeps_accuracy. exact Hr'.
Qed.

Lemma ratio_at_most_one (c t : Z) :
  0 <= c <= t -> 0 < t ->
  exists m e, F64.div_Z c t = F64.Fin false m e /\
              F64.emin <= e <= -52 /\ 0 <= m <= 2 ^ (- e).
Proof.
  intros Hc Ht. unfold F64.div_Z.
  replace (c <? 0) with false by (symmetry; apply Z.ltb_ge; lia).
  replace (t <? 0) with false by (symmetry; apply Z.ltb_ge; lia).
  cbn [xorb]. rewrite !Z.abs_eq by lia.
  destruct (Z.eq_dec c 0) as [-> | Hc0].
  - exists 0, F64.emin. split; [reflexivity |]. unfold F64.emin. split; [lia |].
    split; [lia | apply Z.lt_le_incl, Z.pow_pos_nonneg; lia].
  - destruct (round_bounded c t (2 ^ 52) (-52)) as (m & e & Hr & He & Hm & Hb);
      try (unfold F64.emin, F64.emax; lia).
    { change (N2 (-52)) with (2 ^ 52). change (P2 (-52)) with 1. nia. }
    exists m, e. split; [exact Hr |]. split; [exact He |]. split; [exact Hm |].
    unfold F64.emin in *.
    assert (Hp : 0 < 2 ^ (e - -1074)) by (apply Z.pow_pos_nonneg; lia).
    assert (Hs : 2 ^ 52 * 2 ^ (-52 - -1074) = 2 ^ (e - -1074) * 2 ^ (- e))
      by (rewrite <- !Z.pow_add_r by lia; f_equal; lia).
    rewrite Hs in Hb. rewrite (Z.mul_comm m) in Hb.
    apply Z.mul_le_mono_pos_l in Hb; assumption.
Qed.

Lemma times_hundred_is_percentage (m e : Z) :
  F64.emin <= e <= -52 -> 0 <= m <= 2 ^ (- e) ->
  is_percentage (F64.mul (F64.Fin false m e) F64.c100) = true.
Proof.
  intros He Hm. unfold F64.c100. cbn [F64.mul xorb].
  replace (e + -46 <? 0) with true by (symmetry; apply Z.ltb_lt; lia).
  destruct (Z.eq_dec m 0) as [-> | Hm0]; [vm_compute; reflexivity |].
  destruct (round_bounded (m * 7036874417766400) (2 ^ (- (e + -46)))
              7036874417766400 (-46)) as (m' & e' & Hr & He' & Hm' & Hb);
    try (unfold F64.emin, F64.emax; lia).
  { change (N2 (-46)) with (2 ^ 46). change (P2 (-46)) with 1.
    replace (2 ^ (- (e + -46))) with (2 ^ (- e) * 2 ^ 46)
      by (rewrite <- Z.pow_add_r by lia; f_equal; lia).
    assert (0 < 2 ^ (- e)) by (apply Z.pow_pos_nonneg; lia).
    nia. }
  rewrite Hr. unfold is_percentage, F64.c100.
  cbn [F64.is_finite andb F64.ltb F64.zero F64.scaled].
  replace (m' * 2 ^ (e' - F64.emin) <? 0 * 2 ^ (F64.emin - F64.emin)) with false.
  - replace (7036874417766400 * 2 ^ (-46 - F64.emin) <? m' * 2 ^ (e' - F64.emin))
      with false; [reflexivity |].
    symmetry. apply Z.ltb_ge. exact Hb.
  - symmetry. apply Z.ltb_ge. rewrite Z.mul_0_l.
    apply Z.mul_nonneg_nonneg; [exact Hm' |].
    apply Z.lt_le_incl, Z.pow_pos_nonneg; unfold F64.emin in *; lia.
Qed.

(** Whatever the two documents are, the accuracy that [calculate_accuracy]
    reports is a finite float between [0.0] and [100.0]: the division of
    the count of correct fields by the count of all fields and the
    multiplication by [100] never round above [100.0], and with no field
    compared the initial [0.0] is kept. *)
Theorem accuracy_is_a_percentage (extracted_data ground_truth_data : value) :
  is_percentage (accuracy_percentage (calculate_accuracy extracted_data ground_truth_data))
  = true.
Proof.
  unfold calculate_accuracy. cbv zeta.
  set (r := traverse_and_compare extracted_data ground_truth_data "root" empty_results).
  destruct (traverse_tallied extracted_data ground_truth_data "root" empty_results
              tallied_empty) as (Ht & Hk & _).
  fold r in Ht, Hk.
  destruct (0 <? total_fields r) eqn:Hpos.
  - apply Z.ltb_lt in Hpos. cbn [accuracy_percentage].
    destruct (ratio_at_most_one (correct_fields r) (total_fields r))
      as (m & e & Hd & He & Hm).
    + rewrite Hk, Ht. apply count_bucket_bounds.
    + exact Hpos.
    + rewrite Hd. apply times_hundred_is_percentage; assumption.
  - unfold r. rewrite traverse_keeps_accuracy. reflexivity.
Qed.

(* ================================================================== *)
(** * The two readers of a year value *)
(* ================================================================== *)

Lemma str_app_nil_r (s : string) : (s ++ "")%string = s.
Proof. induction s as [| c r IH]; [reflexivity | cbn; rewrite IH; reflexivity]. Qed.

Lemma str_app_assoc (a b c : string) : ((a ++ b) ++ c = a ++ (b ++ c))%string.
Proof. induction a as [| x a IH]; [reflexivity | cbn; rewrite IH; reflexivity]. Qed.

Lemma rev_acc_spec (s acc : string) : Str.rev_acc s acc = (Str.rev s ++ acc)%string.
Proof.
  unfold Str.rev. revert acc. induction s as [| c r IH]; intros acc; [reflexivity |].
  cbn [Str.rev_acc]. rewrite (IH (String c acc)), (IH (String c EmptyString)).
  rewrite str_app_assoc. reflexivity.
Qed.

Lemma str_rev_cons (c : ascii) (s : string) :
  Str.rev (String c s) = (Str.rev s ++ String c "")%string.
Proof. unfold Str.rev at 1. cbn [Str.rev_acc]. apply rev_acc_spec. Qed.

Lemma str_rev_app (a b : string) : Str.rev (a ++ b) = (Str.rev b ++ Str.rev a)%string.
Proof.
  induction a as [| c a IH].
  - cbn. rewrite str_app_nil_r. reflexivity.
  - cbn [append]. rewrite !str_rev_cons, IH, str_app_assoc. reflexivity.
Qed.

Lemma str_rev_involutive (s : string) : Str.rev (Str.rev s) = s.
Proof.
  induction s as [| c s IH]; [reflexivity |].
  rewrite str_rev_cons, str_rev_app, IH. reflexivity.
Qed.

Lemma str_rev_snoc (c : ascii) (s : string) :
  Str.rev (s ++ String c "") = String c (Str.rev s).
Proof. rewrite str_rev_app. reflexivity. Qed.

Lemma space_neutral (c : ascii) : Str.is_space c = true -> neutral c = true.
Proof.
  destruct c as [[] [] [] [] [] [] [] []]; vm_compute; intros H;
    first [reflexivity | discriminate H].
Qed.

Lemma drop_underscores_neutral (p p' : ascii) (s : string) :
  neutral p = true -> neutral p' = true ->
  PyFloat.drop_underscores p s = PyFloat.drop_underscores p' s.
Proof.
  unfold neutral. intros H H'.
  apply andb_true_iff in H. destruct H as [Hd Hu].
  apply andb_true_iff in H'. destruct H' as [Hd' Hu'].
  apply negb_true_iff in Hd, Hu, Hd', Hu'.
  destruct s as [| c r]; cbn [PyFloat.drop_underscores];
    rewrite ?Hd, ?Hu, ?Hd', ?Hu'; reflexivity.
Qed.

(** A white-space character in front of a text is kept by the removal of
    the underscores and changes nothing to it. *)
Lemma drop_underscores_after_space (c : ascii) (x : string) :
  Str.is_space c = true ->
  PyFloat.drop_underscores "000" (String c x)
  = option_map (String c) (PyFloat.drop_underscores "000" x).
Proof.
  intros Hc. assert (Hn := space_neutral c Hc).
  pose proof Hn as Hn'. unfold neutral in Hn'.
  apply andb_true_iff in Hn'. destruct Hn' as [Hd Hu]. apply negb_true_iff in Hd, Hu.
  cbn [PyFloat.drop_underscores]. rewrite Hu.
  change (Ascii.eqb "000" "_") with false. cbn [andb].
  rewrite (drop_underscores_neutral c "000" x Hn eq_refl). reflexivity.
Qed.

(** A white-space character behind a text: likewise. *)
Lemma drop_underscores_before_space (p c : ascii) (x : string) :
  Str.is_space c = true ->
  PyFloat.drop_underscores p (x ++ String c "")
  = option_map (fun y => (y ++ String c "")%string) (PyFloat.drop_underscores p x).
Proof.
  intros Hc. assert (Hn := space_neutral c Hc). unfold neutral in Hn.
  apply andb_true_iff in Hn. destruct Hn as [Hd Hu]. apply negb_true_iff in Hd, Hu.
  revert p. induction x as [| a x IH]; intros p.
  - cbn [append PyFloat.drop_underscores]. rewrite Hu, Hd. cbn [negb].
    rewrite andb_true_r. destruct (Ascii.eqb p "_"); reflexivity.
  - cbn [append PyFloat.drop_underscores].
    destruct (Ascii.eqb a "_").
    + destruct (Str.is_digit p); [apply IH | reflexivity].
    + destruct (Ascii.eqb p "_" && negb (Str.is_digit a)); [reflexivity |].
      rewrite IH. destruct (PyFloat.drop_underscores a x); reflexivity.
Qed.

Lemma float_lstrip_app (x y : string) :
  PyFloat.lstrip (x ++ y)
  = match PyFloat.lstrip x with
    | EmptyString => PyFloat.lstrip y
    | z => (z ++ y)%string
    end.
Proof.
  induction x as [| a x IH]; [reflexivity |].
  cbn [append PyFloat.lstrip]. destruct (PyFloat.is_space a); [exact IH | reflexivity].
Qed.

(** What [float] does with a text once the underscores are gone. *)
Lemma of_string_unfold (s : string) :
  PyFloat.of_string s
  = match PyFloat.drop_underscores "000" s with
    | None => None
    | Some s1 =>
        match PyFloat.parse_special (fst (PyFloat.take_sign (PyFloat.strip s1)))
                (snd (PyFloat.take_sign (PyFloat.strip s1))) with
        | Some f => Some f
        | None => PyFloat.parse_number (fst (PyFloat.take_sign (PyFloat.strip s1)))
                    (snd (PyFloat.take_sign (PyFloat.strip s1)))
        end
    end.
Proof.
  unfold PyFloat.of_string. destruct (PyFloat.drop_underscores "000" s); [| reflexivity].
  destruct (PyFloat.take_sign (PyFloat.strip s0)). reflexivity.
Qed.

(** The white space of [str.strip()] that [float] does not skip. *)
Lemma unskipped_space (c : ascii) :
  Str.is_space c = true -> PyFloat.is_space c = false ->
  c = "028"%char \/ c = "029"%char \/ c = "030"%char \/ c = "031"%char.
Proof.
  destruct c as [[] [] [] [] [] [] [] []]; vm_compute; intros H1 H2;
    first [discriminate H1 | discriminate H2 | tauto].
Qed.

Lemma float_space_is_space (c : ascii) :
  PyFloat.is_space c = true -> Str.is_space c = true.
Proof.
  destruct c as [[] [] [] [] [] [] [] []]; vm_compute; intros H;
    first [reflexivity | discriminate H].
Qed.

(** [float] skips its white space in front ... *)
Lemma of_string_skips_front (c : ascii) (t : string) :
  PyFloat.is_space c = true ->
  PyFloat.of_string (String c t) = PyFloat.of_string t.
Proof.
  intros Hc. rewrite !of_string_unfold.
  rewrite drop_underscores_after_space by (apply float_space_is_space; exact Hc).
  destruct (PyFloat.drop_underscores "000" t) as [s1 |]; [| reflexivity].
  cbn [option_map].
  replace (PyFloat.strip (String c s1)) with (PyFloat.strip s1); [reflexivity |].
  unfold PyFloat.strip. cbn [PyFloat.lstrip]. rewrite Hc. reflexivity.
Qed.

(** ... and behind. *)
Lemma of_string_skips_back (c : ascii) (t : string) :
  PyFloat.is_space c = true ->
  PyFloat.of_string (t ++ String c "") = PyFloat.of_string t.
Proof.
  intros Hc. rewrite !of_string_unfold.
  rewrite drop_underscores_before_space by (apply float_space_is_space; exact Hc).
  destruct (PyFloat.drop_underscores "000" t) as [s1 |]; [| reflexivity].
  cbn [option_map].
  replace (PyFloat.strip (s1 ++ String c "")) with (PyFloat.strip s1); [reflexivity |].
  unfold PyFloat.strip. rewrite float_lstrip_app.
  destruct (PyFloat.lstrip s1) as [| a z] eqn:E.
  - cbn [PyFloat.lstrip]. rewrite Hc. reflexivity.
  - rewrite str_rev_snoc. cbn [PyFloat.lstrip]. rewrite Hc. reflexivity.
Qed.

Lemma float_strip_keeps_front (c : ascii) (s : string) :
  PyFloat.is_space c = false -> exists z, PyFloat.strip (String c s) = String c z.
Proof.
  intros Hc. unfold PyFloat.strip. cbn [PyFloat.lstrip]. rewrite Hc.
  rewrite str_rev_cons, float_lstrip_app.
  destruct (PyFloat.lstrip (Str.rev s)) as [| a z].
  - exists "". cbn [PyFloat.lstrip]. rewrite Hc. reflexivity.
  - exists (Str.rev (String a z)). apply str_rev_snoc.
Qed.

Lemma float_strip_keeps_back (c : ascii) (s : string) :
  PyFloat.is_space c = false ->
  exists y, PyFloat.strip (s ++ String c "") = (y ++ String c "")%string.
Proof.
  intros Hc. unfold PyFloat.strip. rewrite float_lstrip_app.
  destruct (PyFloat.lstrip s) as [| a z].
  - exists "". cbn [PyFloat.lstrip]. rewrite Hc. cbn. rewrite Hc. reflexivity.
  - exists (String a z). rewrite str_rev_snoc. cbn [PyFloat.lstrip]. rewrite Hc.
    rewrite str_rev_cons, str_rev_involutive. reflexivity.
Qed.

Ltac unskipped H := destruct H as [-> | [-> | [-> | ->]]].

(** [float] rejects a text that begins with FS..US ... *)
Lemma of_string_rejects_front (c : ascii) (t : string) :
  Str.is_space c = true -> PyFloat.is_space c = false ->
  PyFloat.of_string (String c t) = None.
Proof.
  intros Hs Hf. rewrite of_string_unfold.
  rewrite drop_underscores_after_space by exact Hs.
  destruct (PyFloat.drop_underscores "000" t) as [s1 |]; [| reflexivity].
  cbn [option_map]. destruct (float_strip_keeps_front c s1 Hf) as (z & ->).
  assert (H := unskipped_space c Hs Hf). unskipped H; reflexivity.
Qed.

Lemma lower_snoc (c : ascii) (s : string) :
  Str.lower (s ++ String c "") = (Str.lower s ++ String (Str.lower_char c) "")%string.
Proof. induction s as [| a s IH]; [reflexivity | cbn; rewrite IH; reflexivity]. Qed.

Lemma snoc_differs (l lit : string) (c : ascii) :
  match Str.rev lit with
  | String h _ => negb (Ascii.eqb h c)
  | EmptyString => true
  end = true ->
  String.eqb (l ++ String c "") lit = false.
Proof.
  intros H. apply String.eqb_neq. intros E. apply (f_equal Str.rev) in E.
  rewrite str_rev_snoc in E. rewrite <- E in H. cbn in H.
  rewrite Ascii.eqb_refl in H. discriminate H.
Qed.

Lemma take_digits_snoc (c : ascii) (acc n : Z) (s : string) :
  Str.is_digit c = false ->
  PyFloat.take_digits acc n (s ++ String c "")
  = (fst (PyFloat.take_digits acc n s),
     (snd (PyFloat.take_digits acc n s) ++ String c "")%string).
Proof.
  intros Hd. revert acc n. induction s as [| a s IH]; intros acc n.
  - cbn. rewrite Hd. reflexivity.
  - cbn [append PyFloat.take_digits]. destruct (Str.is_digit a); [apply IH | reflexivity].
Qed.

Lemma take_sign_snoc (c : ascii) (s : string) :
  c = "028"%char \/ c = "029"%char \/ c = "030"%char \/ c = "031"%char ->
  PyFloat.take_sign (s ++ String c "")
  = (fst (PyFloat.take_sign s), (snd (PyFloat.take_sign s) ++ String c "")%string).
Proof.
  intros H. destruct s as [| a s].
  - unskipped H; reflexivity.
  - destruct a as [[] [] [] [] [] [] [] []]; reflexivity.
Qed.

Lemma take_exponent_snoc (c : ascii) (s : string) :
  c = "028"%char \/ c = "029"%char \/ c = "030"%char \/ c = "031"%char ->
  PyFloat.take_exponent (s ++ String c "")
  = (fst (PyFloat.take_exponent s), (snd (PyFloat.take_exponent s) ++ String c "")%string).
Proof.
  intros H. destruct s as [| a s].
  - unskipped H; reflexivity.
  - assert (Hd : Str.is_digit c = false) by (unskipped H; reflexivity).
    cbn [append PyFloat.take_exponent].
    destruct (Ascii.eqb a "e" || Ascii.eqb a "E"); [| reflexivity].
    rewrite (take_sign_snoc c s H). destruct (PyFloat.take_sign s) as [sg r1].
    cbn [fst snd]. rewrite (take_digits_snoc c 0 0 r1 Hd).
    destruct (PyFloat.take_digits 0 0 r1) as [[v n] r2]. cbn [fst snd].
    destruct (n =? 0); reflexivity.
Qed.

Lemma parse_number_rejects_back (c : ascii) (sg : bool) (b : string) :
  c = "028"%char \/ c = "029"%char \/ c = "030"%char \/ c = "031"%char ->
  PyFloat.parse_number sg (b ++ String c "") = None.
Proof.
  intros H.
  assert (Hd : Str.is_digit c = false) by (unskipped H; reflexivity).
  assert (Hend : forall d nf r2 ni,
             (if ni + nf =? 0 then None
              else let '(x, r3) := PyFloat.take_exponent (r2 ++ String c "") in
                   match r3 with
                   | EmptyString => Some (PyFloat.of_decimal sg d (x - nf))
                   | _ => None
                   end) = None).
  { intros d nf r2 ni. destruct (ni + nf =? 0); [reflexivity |].
    rewrite (take_exponent_snoc c r2 H).
    destruct (PyFloat.take_exponent r2) as [x r3]. cbn [fst snd].
    destruct r3; reflexivity. }
  unfold PyFloat.parse_number. rewrite (take_digits_snoc c 0 0 b Hd).
  destruct (PyFloat.take_digits 0 0 b) as [[ip ni] r1]. cbn [fst snd].
  destruct r1 as [| a r].
  - assert (E : (EmptyString ++ String c "")%string = String c "") by reflexivity.
    rewrite E. clear E.
    assert (Hc : forall ni0, (if ni0 + 0 =? 0 then None
              else let '(x, r3) := PyFloat.take_exponent (String c "") in
                   match r3 with
                   | EmptyString => Some (PyFloat.of_decimal sg ip (x - 0))
                   | _ => None
                   end) = None) by (intros ni0; apply (Hend ip 0 "" ni0)).
    unskipped H; apply Hc.
  - destruct a as [[] [] [] [] [] [] [] []]; cbn [append];
      first [ apply (Hend ip 0 (String _ r) ni)
            | rewrite (take_digits_snoc c ip 0 r Hd);
              destruct (PyFloat.take_digits ip 0 r) as [[v n] r']; cbn [fst snd];
              apply Hend ].
Qed.

Lemma parse_special_rejects_back (c : ascii) (sg : bool) (b : string) :
  c = "028"%char \/ c = "029"%char \/ c = "030"%char \/ c = "031"%char ->
  PyFloat.parse_special sg (b ++ String c "") = None.
Proof.
  intros H. unfold PyFloat.parse_special. rewrite lower_snoc.
  assert (E : Str.lower_char c = c) by (unskipped H; reflexivity). rewrite E.
  rewrite !snoc_differs by (unskipped H; reflexivity). reflexivity.
Qed.

(** ... or ends with it. *)
Lemma of_string_rejects_back (c : ascii) (t : string) :
  Str.is_space c = true -> PyFloat.is_space c = false ->
  PyFloat.of_string (t ++ String c "") = None.
Proof.
  intros Hs Hf. rewrite of_string_unfold.
  rewrite drop_underscores_before_space by exact Hs.
  destruct (PyFloat.drop_underscores "000" t) as [s1 |]; [| reflexivity].
  cbn [option_map]. destruct (float_strip_keeps_back c s1 Hf) as (y & ->).
  assert (H := unskipped_space c Hs Hf).
  rewrite (take_sign_snoc c y H). cbn [fst snd].
  rewrite parse_special_rejects_back by exact H.
  apply parse_number_rejects_back. exact H.
Qed.

Lemma of_string_lstrip (t : string) (x : F64.float) :
  PyFloat.of_string t = Some x -> PyFloat.of_string (Str.lstrip t) = Some x.
Proof.
  induction t as [| c t IH]; intros H; [exact H |].
  cbn [Str.lstrip]. destruct (Str.is_space c) eqn:Hs; [| exact H].
  destruct (PyFloat.is_space c) eqn:Hf.
  - apply IH. rewrite <- (of_string_skips_front c t Hf). exact H.
  - rewrite (of_string_rejects_front c t Hs Hf) in H. discriminate H.
Qed.

Lemma of_string_rstrip (w : string) (x : F64.float) :
  PyFloat.of_string (Str.rev w) = Some x ->
  PyFloat.of_string (Str.rev (Str.lstrip w)) = Some x.
Proof.
  induction w as [| c w IH]; intros H; [exact H |].
  cbn [Str.lstrip]. destruct (Str.is_space c) eqn:Hs; [| exact H].
  rewrite str_rev_cons in H. destruct (PyFloat.is_space c) eqn:Hf.
  - apply IH. rewrite <- (of_string_skips_back c (Str.rev w) Hf). exact H.
  - rewrite (of_string_rejects_back c (Str.rev w) Hs Hf) in H. discriminate H.
Qed.

(** What [float] reads, it reads as well once [strip] has been applied. *)
Lemma of_string_after_strip (t : string) (x : F64.float) :
  PyFloat.of_string t = Some x -> PyFloat.of_string (Str.strip t) = Some x.
Proof.
  intros H. unfold Str.strip. apply of_string_rstrip.
  rewrite str_rev_involutive. apply of_string_lstrip. exact H.
Qed.

(** The two readers of a year value, on ASCII text.  A value from which
    [_extract_numeric_value] reads a number is numeric for [_is_numeric],
    by which check 2 reports.  The converse fails: [_is_numeric] strips the
    text before it reads it and [str.strip()] removes the control
    characters FS..US, which [float] does not skip; so the text "12" behind
    the character FS is numeric for check 2 and has no representative
    value. *)
Theorem readable_value_is_numeric :
  (forall (year : string) (v : value) (x : F64.float),
      ascii_text v = true ->
      _extract_numeric_value (VDict [(year, v)]) = Ok (Some x) ->
      _is_numeric v = true) /\
  (let v := VStr (String "028" "12") in
   ascii_text v = true /\
   none_or_empty v = false /\
   _is_numeric v = true /\
   _extract_numeric_value (VDict [("2020", v)]) = Ok None).
Proof.
  split; [| vm_compute; repeat split].
  intros year v x _. unfold _extract_numeric_value. cbn [Py.items bind first_numeric].
  destruct v as [| b | n | y | s | l | d]; cbn [_is_numeric]; try reflexivity;
    try discriminate.
  destruct s as [| c r]; [discriminate |].
  destruct (PyFloat.of_string (cleaned (String c r))) as [z |] eqn:E; [| discriminate].
  intros _. rewrite (of_string_after_strip _ _ E). reflexivity.
Qed.

Lemma readable_value_is_numeric_witness :
  ascii_text (VStr "1,250") = true /\
  _extract_numeric_value (VDict [("2020", VStr "1,250")]) = Ok (Some (f_of 1250)) /\
  _is_numeric (VStr "1,250") = true.
Proof.
  assert (H : _extract_numeric_value (VDict [("2020", VStr "1,250")])
              = Ok (Some (f_of 1250))) by (vm_compute; reflexivity).
  split; [reflexivity |]. split; [exact H |].
  exact (proj1 readable_value_is_numeric "2020" (VStr "1,250") (f_of 1250) eq_refl H).
Defined.
